(** * authentik: blueprint reconciliation and the identification stage

    A shallow embedding of
    - [authentik/stages/identification/stage.py] (module [Identification]) and
    - [authentik/blueprints/v1/tasks.py] (module [Blueprints]),
    together with the properties of the specification that concern them.

    Python code that threads effects (the flow-plan context, log lines,
    signals, the instance table, task status reports) and raises exceptions is
    written in a small state-and-exception monad [Eff.M]; collaborators that
    live outside these two files (the captcha verifier, the authentication
    backends, the case folding of the user store, the number drawn by the
    random generator, the blueprint importer, the digest function) are
    section variables. *)

From Stdlib Require Import ZArith Ascii String.
From stdpp Require Import gmap strings list fin_maps pretty.

Local Open Scope string_scope.
Local Open Scope Z_scope.
Local Open Scope list_scope.

(** ** Python helpers *)

Module Py.

(** [str.lower()] on the ASCII letters.  A Rocq [string] is a sequence of
    bytes (UTF-8); bytes above 127 are left alone, so a comparison of the
    result with an ASCII literal such as ["false"] agrees with Python's. *)
Definition ascii_lower (c : ascii) : ascii :=
  let n := nat_of_ascii c in
  if ((65 <=? n)%nat && (n <=? 90)%nat)%bool then ascii_of_nat (n + 32) else c.

Fixpoint lower (s : string) : string :=
  match s with
  | EmptyString => EmptyString
  | String c s' => String (ascii_lower c) (lower s')
  end.

(** The upper-case counterpart of a lower-case ASCII letter. *)
Definition ascii_upper (c : ascii) : ascii :=
  let n := nat_of_ascii c in
  if ((97 <=? n)%nat && (n <=? 122)%nat)%bool then ascii_of_nat (n - 32) else c.

(** [str.upper()] on the ASCII letters. *)
Fixpoint upper (s : string) : string :=
  match s with
  | EmptyString => EmptyString
  | String c s' => String (ascii_upper c) (upper s')
  end.

Definition is_lower_letter (c : ascii) : bool :=
  let n := nat_of_ascii c in ((97 <=? n)%nat && (n <=? 122)%nat)%bool.

(** [v] is [t] up to the case of its letters: every character of [v] is
    the character of [t] at its place or that character's upper-case
    counterpart. *)
Fixpoint equal_ignoring_case (t v : string) : Prop :=
  match t, v with
  | EmptyString, EmptyString => True
  | String c t', String x v' =>
      (x = c \/ x = ascii_upper c) /\ equal_ignoring_case t' v'
  | _, _ => False
  end.

Fixpoint all_lower_letters (t : string) : bool :=
  match t with
  | EmptyString => true
  | String c t' => (is_lower_letter c && all_lower_letters t')%bool
  end.

(** [s.startswith(p)] *)
Definition startswith (p s : string) : bool := String.prefix p s.

(** truthiness of a [str] *)
Definition truthy (s : string) : bool :=
  match s with EmptyString => false | _ => true end.

(** truthiness of an optional [str] ([None] and [""] are falsy) *)
Definition truthy_opt (o : option string) : bool :=
  match o with Some s => truthy s | None => false end.

(** [any(iterable_of_str)]: some element is truthy *)
Definition any (l : list string) : bool := existsb truthy l.

(** [random.SystemRandom().randint(a, b)]: an integer from [a] to [b], both
    included.  [entropy] is the number that the generator makes of what it
    reads from the operating system; it is reduced to the [b - a + 1]
    outcomes, so that any [b - a + 1] consecutive values of it give every
    outcome once. *)
Definition randint (a b : Z) (entropy : Z) : Z := a + entropy `mod` (b - a + 1).

#[global] Arguments randint : simpl never.

End Py.

(** ** State and exceptions *)

Module Eff.

(** A computation over a state [S] that returns an [A] or raises an [E]. *)
Definition M (S E A : Type) : Type := S -> S * (E + A).

Section Ops.
Context {S E : Type}.

Definition ret {A} (a : A) : M S E A := fun s => (s, inr a).

Definition raise {A} (e : E) : M S E A := fun s => (s, inl e).

Definition bind {A B} (m : M S E A) (k : A -> M S E B) : M S E B :=
  fun s =>
    match m s with
    | (s', inl e) => (s', inl e)
    | (s', inr a) => k a s'
    end.

Definition get : M S E S := fun s => (s, inr s).

Definition modify (f : S -> S) : M S E unit := fun s => (f s, inr tt).

(** [if c: body] *)
Definition when (c : bool) (body : M S E unit) : M S E unit :=
  if c then body else ret tt.

(** [try: body  except <classes> as exc: handler]; [handles e] is [None]
    for an exception that the [except] clause does not name. *)
Definition try_except {A} (body : M S E A) (handles : E -> option (M S E A))
  : M S E A :=
  fun s =>
    match body s with
    | (s', inl e) =>
        match handles e with
        | Some h => h s'
        | None => (s', inl e)
        end
    | (s', inr a) => (s', inr a)
    end.

(** [try: body  finally: cleanup]; an exception of [cleanup] replaces the
    pending outcome, as in Python. *)
Definition try_finally {A} (body : M S E A) (cleanup : M S E unit)
  : M S E A :=
  fun s =>
    match body s with
    | (s', r) =>
        match cleanup s' with
        | (s'', inl e) => (s'', inl e)
        | (s'', inr _) => (s'', r)
        end
    end.
End Ops.

#[global] Instance M_ret {S E} : MRet (M S E) := fun A a => ret a.
#[global] Instance M_bind {S E} : MBind (M S E) := fun A B k m => bind m k.

End Eff.

(** ** The identification stage *)

Module Identification.
Import Eff.

Inductive exn :=
| ValidationError (msg : string)
| PermissionDenied (msg : string)
| OtherError (msg : string).

(** [str(exc)] *)
Definition str_exn (e : exn) : string :=
  match e with
  | ValidationError m | PermissionDenied m | OtherError m => m
  end.

(** The choices of [IdentificationStage.user_fields]. *)
Inductive UserField := F_email | F_username | F_upn.

Record User := {
  user_pk : option Z;
  username : string;
  email : string;
  attributes_upn : option string
}.

Record PasswordStage := {
  backends : list string;
  allow_show_password : bool
}.

Record CaptchaStage := {
  js_url : string;
  public_key : string;
  interactive : bool
}.

Record IdentificationStage := {
  user_fields : list UserField;
  case_insensitive_matching : bool;
  show_matched_user : bool;
  pretend_user_exists : bool;
  password_stage : option PasswordStage;
  captcha_stage : option CaptchaStage
}.

Record Request := { client_ip : string }.

(** The validated fields of [IdentificationChallengeResponse]. *)
Record Attrs := {
  uid_field : string;
  password : option string;
  captcha_token : option string
}.

(** A [Q] object: the OR of its keyword lookups, in the order added. *)
Definition Q : Type := list (string * string).

(** What the stage does to the outside world, in order. *)
Inductive Event :=
| EvQuery (q : Q)
| EvSleep (ms : Z)
| EvLog (level msg : string)
| EvIdentificationFailed (uid : string)
| EvVerifyCaptcha (token : option string) (ip : string)
| EvAuthenticate (user : string) (pw : option string).

(** Values held by the flow-plan context. *)
Inductive CtxValue :=
| VNone
| VUser (u : User)
| VStr (s : string).

Record StageState := {
  plan_context : gmap string CtxValue;
  pre_user : option User;
  events : list Event
}.

Definition HttpResponse : Type := unit.

(** The case folding of the user store.  An [__iexact] lookup compares
    [UPPER(column)] with [UPPER(value)]; which letters [UPPER] folds beyond
    the ASCII ones depends on the collation of the store, so it is left
    open here.  The one property kept of it is that it does not tell the
    case of ASCII letters apart. *)
Record Collation := {
  UPPER : string -> string;
  UPPER_ascii : forall s, UPPER (Py.lower s) = UPPER s
}.

#[global] Instance User_eq_dec : EqDecision User.
Proof. solve_decision. Defined.

#[global] Instance CtxValue_eq_dec : EqDecision CtxValue.
Proof. solve_decision. Defined.

#[global] Instance exn_eq_dec : EqDecision exn.
Proof. solve_decision. Defined.

#[global] Instance Event_eq_dec : EqDecision Event.
Proof. solve_decision. Defined.

Definition is_sleep (e : Event) : bool :=
  match e with EvSleep _ => true | _ => false end.

Definition is_query (e : Event) : bool :=
  match e with EvQuery _ => true | _ => false end.

Definition is_verify_captcha (e : Event) : bool :=
  match e with EvVerifyCaptcha _ _ => true | _ => false end.

(** Total time slept, in milliseconds: a lower bound of the elapsed time. *)
Definition slept_ms (evs : list Event) : Z :=
  foldr (fun e acc => match e with EvSleep ms => ms + acc | _ => acc end) 0 evs.

Section Stage.
(** The collation of the store that holds the users. *)
Variable collation : Collation.

(** Keys of the flow-plan context ([authentik.flows]). *)
Variable PLAN_CONTEXT_PENDING_USER : string.
Variable PLAN_CONTEXT_PENDING_USER_IDENTIFIER : string.

(** [authentik.stages.captcha.stage.verify_captcha_token]: [Some e] when
    it raises [e]. *)
Variable verify_captcha_token :
  CaptchaStage -> option string -> string -> option exn.

(** [authentik.stages.password.stage.authenticate]: the user, [None], or
    an exception. *)
Variable authenticate :
  Request -> list string -> IdentificationStage -> string -> option string ->
  exn + option User.

(** The stage view: its request, its configuration, the user table in
    the store's default order, and the number that [SystemRandom()] draws
    in this run. *)
Variable request : Request.
Variable current_stage : IdentificationStage.
Variable users : list User.
Variable entropy : Z.

Abbreviation Stage := (M StageState exn).

Definition emit (e : Event) : Stage unit :=
  modify (fun s => {| plan_context := plan_context s;
                      pre_user := pre_user s;
                      events := (events s ++ [e])%list |}).

Definition set_context (k : string) (v : CtxValue) : Stage unit :=
  modify (fun s => {| plan_context := <[k := v]> (plan_context s);
                      pre_user := pre_user s;
                      events := events s |}).

Definition set_pre_user (u : option User) : Stage unit :=
  modify (fun s => {| plan_context := plan_context s;
                      pre_user := u;
                      events := events s |}).

(** [time.sleep(0.030 * n)], in milliseconds. *)
Definition sleep_30ms (n : Z) : Stage unit := emit (EvSleep (30 * n)).

Definition get_client_ip (r : Request) : string := client_ip r.

(** The dict literal of [get_user]. *)
Definition model_field_of (f : UserField) : string :=
  match f with
  | F_email => "email"
  | F_username => "username"
  | F_upn => "attributes__upn"
  end.

(** The loop of [get_user] that builds the query. *)
Definition build_query (uid_value : string) : Q :=
  foldl
    (fun query search_field =>
       let model_field := model_field_of search_field in
       let model_field :=
         if case_insensitive_matching current_stage
         then model_field +:+ "__iexact"
         else model_field +:+ "__exact" in
       (query ++ [(model_field, uid_value)])%list)
    [] (user_fields current_stage).

(** How the store reads one keyword lookup: [__exact] is equality,
    [__iexact] equality of the upper-cased column and value. *)
Definition lookup_matches (kw : string * string) (u : User) : bool :=
  let '(key, v) := kw in
  if String.eqb key "email__exact" then String.eqb (email u) v
  else if String.eqb key "email__iexact"
    then String.eqb (UPPER collation (email u)) (UPPER collation v)
  else if String.eqb key "username__exact" then String.eqb (username u) v
  else if String.eqb key "username__iexact"
    then String.eqb (UPPER collation (username u)) (UPPER collation v)
  else if String.eqb key "attributes__upn__exact"
    then match attributes_upn u with
         | Some x => String.eqb x v
         | None => false
         end
  else if String.eqb key "attributes__upn__iexact"
    then match attributes_upn u with
         | Some x => String.eqb (UPPER collation x) (UPPER collation v)
         | None => false
         end
  else false.

(** [User.objects.filter(query).first()] *)
Definition objects_filter_first (query : Q) : option User :=
  List.find (fun u => existsb (fun kw => lookup_matches kw u) query) users.

Definition get_user (uid_value : string) : Stage (option User) :=
  let query := build_query uid_value in
  match query with
  | [] =>
      emit (EvLog "debug" "Empty user query") ;;
      mret None
  | _ =>
      emit (EvQuery query) ;;
      let user := objects_filter_first query in
      match user with
      | Some u =>
          emit (EvLog "debug" "Found user") ;;
          mret (Some u)
      | None => mret None
      end
  end.

Definition validate (attrs : Attrs) : Stage Attrs :=
  let uid_field := uid_field attrs in
  let client_ip := get_client_ip request in
  found ← get_user uid_field ;
  match found with
  | None =>
      sleep_30ms (Py.randint 3 7 entropy) ;;
      emit (EvLog "info" "invalid_login") ;;
      emit (EvIdentificationFailed uid_field) ;;
      let placeholder :=
        {| user_pk := None; username := uid_field; email := uid_field;
           attributes_upn := None |} in
      set_context PLAN_CONTEXT_PENDING_USER (VUser placeholder) ;;
      set_pre_user (Some placeholder) ;;
      when (negb (show_matched_user current_stage))
        (set_context PLAN_CONTEXT_PENDING_USER_IDENTIFIER (VStr uid_field)) ;;
      if (pretend_user_exists current_stage
          && negb (bool_decide (is_Some (password_stage current_stage))))%bool
      then mret attrs
      else raise (ValidationError "Failed to authenticate.")
  | Some user0 =>
      set_pre_user (Some user0) ;;
      (match captcha_stage current_stage with
       | Some captcha_stage =>
           let captcha_token := captcha_token attrs in
           when (negb (Py.truthy_opt captcha_token))
             (emit (EvLog "warning" "Token not set for captcha attempt")) ;;
           emit (EvVerifyCaptcha captcha_token client_ip) ;;
           match verify_captcha_token captcha_stage captcha_token client_ip with
           | Some e => raise e
           | None => mret tt
           end
       | None => mret tt
       end) ;;
      match password_stage current_stage with
      | None => mret attrs
      | Some password_stage =>
          let password := password attrs in
          when (negb (Py.truthy_opt password))
            (emit (EvLog "warning" "Password not set for ident+auth attempt")) ;;
          try_except
            (emit (EvAuthenticate (username user0) password) ;;
             match authenticate request (backends password_stage) current_stage
                     (username user0) password with
             | inl e => raise e
             | inr None => raise (ValidationError "Failed to authenticate.")
             | inr (Some user) => set_pre_user (Some user)
             end)
            (fun exc =>
               match exc with
               | PermissionDenied _ =>
                   Some (raise (ValidationError (str_exn exc)))
               | _ => None
               end) ;;
          mret attrs
      end
  end.

(** The captcha check of [validate] lets the response through: no captcha
    stage is configured, or the verifier returns. *)
Definition captcha_passes (attrs : Attrs) : Prop :=
  match captcha_stage current_stage with
  | Some c =>
      verify_captcha_token c (captcha_token attrs) (get_client_ip request) = None
  | None => True
  end.

(** [challenge_valid(response)]: [response.pre_user] is the state's
    [pre_user], [response.validated_data] the attributes [validate]
    returned. *)
Definition challenge_valid (validated_data : Attrs) : Stage HttpResponse :=
  s ← get ;
  set_context PLAN_CONTEXT_PENDING_USER
    (match pre_user s with Some u => VUser u | None => VNone end) ;;
  when (negb (show_matched_user current_stage))
    (set_context PLAN_CONTEXT_PENDING_USER_IDENTIFIER
       (VStr (uid_field validated_data))) ;;
  mret tt.

(** One identification attempt: the challenge view validates the
    response and calls [challenge_valid] when validation returned. *)
Definition attempt (attrs : Attrs) : Stage HttpResponse :=
  validated_data ← validate attrs ;
  challenge_valid validated_data.

End Stage.

Definition initial : StageState :=
  {| plan_context := ∅; pre_user := None; events := [] |}.

End Identification.


(** ** Blueprint discovery, reconciliation and apply *)

Module Blueprints.
Import Eff.

Inductive exn :=
| OSError
| DatabaseError
| ProgrammingError
| InternalError
| BlueprintRetrievalFailed
| EntryInvalidError
| YAMLError
| OtherError (msg : string).

(** The classes named by the [except] clause of [apply_blueprint]. *)
Definition recognized (e : exn) : bool :=
  match e with
  | OSError | DatabaseError | ProgrammingError | InternalError
  | BlueprintRetrievalFailed | EntryInvalidError => true
  | YAMLError | OtherError _ => false
  end.

Record BlueprintMetadata := {
  meta_name : string;
  labels : gmap string string
}.

(** [BlueprintFile]: basic info about a blueprint file. *)
Record BlueprintFile := {
  path : string;
  version : Z;
  hash : string;
  last_m : Z;
  meta : option BlueprintMetadata
}.

Inductive BlueprintInstanceStatus := UNKNOWN | SUCCESSFUL | ERROR.

(** The fields of the [BlueprintInstance] model that the tasks use; its
    [path] is [instance_path] here, [path] being the field of
    [BlueprintFile]. *)
Record BlueprintInstance := {
  pk : string;
  name : string;
  instance_path : string;
  context : gmap string string;
  status : BlueprintInstanceStatus;
  enabled : bool;
  managed_models : list string;
  metadata : option BlueprintMetadata;   (* [None] is the empty dict *)
  last_applied_hash : string;
  last_applied : option Z
}.

(** Modelled from the spec: the [BlueprintInstance] model declaration
    ([authentik/blueprints/models.py]) is not among the sources; a record
    built without them has [last_applied_hash] and [last_applied] empty
    ("digest or empty", "timestamp or empty"). *)
Definition default_last_applied_hash : string := "".

Definition default_last_applied : option Z := None.

#[global] Instance BlueprintMetadata_eq_dec : EqDecision BlueprintMetadata.
Proof. solve_decision. Defined.

#[global] Instance BlueprintInstanceStatus_eq_dec :
  EqDecision BlueprintInstanceStatus.
Proof. solve_decision. Defined.

#[global] Instance BlueprintInstance_eq_dec : EqDecision BlueprintInstance.
Proof. solve_decision. Defined.

#[global] Instance blueprint_exn_eq_dec : EqDecision exn.
Proof. solve_decision. Defined.

Inductive TaskStatus := TS_SUCCESSFUL | TS_ERROR.

(** Calls on the task object ([SystemTask]), in order. *)
Inductive Report :=
| SetUid (uid : string)
| SetStatus (st : TaskStatus) (messages : list string)
| SetError (exc : exn).

Record SystemTask := {
  save_on_success : bool;
  reports : list Report
}.

(** The instance table in the store's default order, the messages handed to
    the task queue ([apply_blueprint.delay(pk)]), the number of primary keys
    drawn so far, and the running task. *)
Record World := {
  objects : list BlueprintInstance;
  queue : list string;
  uuid_draws : nat;
  task : SystemTask
}.

(** Points at which the persistence layer is called and may fail. *)
Inductive DbOp :=
| OpFilterPath
| OpSaveCreated
| OpFilterPk
| OpSaveInvalid
| OpSaveNotApplied
| OpSaveFinally.

(** ** The scanner *)

(** [pathlib.Path.parts] *)
Definition Path : Type := list string.

Definition str_path (p : Path) : string := String.concat "/" p.

(** [path.relative_to(root)]; [None] stands for [ValueError]. *)
Fixpoint relative_to (p root : Path) : option Path :=
  match root, p with
  | [], _ => Some p
  | r :: root', x :: p' => if String.eqb r x then relative_to p' root' else None
  | _ :: _, [] => None
  end.

(** What [yaml.load] makes of a file's text. *)
Record RawBlueprint := {
  (* [raw_blueprint.get("metadata", None)]: [None] when absent or falsy,
     else what [from_dict(BlueprintMetadata, metadata)] gives *)
  raw_metadata : option (exn + BlueprintMetadata);
  (* [None] when the document has no [version] key *)
  raw_version : option Z
}.

Inductive LoadResult :=
| LoadYAMLError
| Loaded (raw_blueprint : option RawBlueprint).   (* [None]: falsy document *)

(** A candidate yielded by [root.rglob("**/*.yaml")]. *)
Record Candidate := {
  parts : Path;
  load : LoadResult;
  read_bytes : string;
  st_mtime : Z
}.

(** [any(part for part in path.parts if part.startswith("."))] *)
Definition is_hidden (path : Path) : bool :=
  Py.any (List.filter (Py.startswith ".") path).

Section Scanner.
Variable sha512_hexdigest : string -> string.
Variable root : Path.

(** One iteration of the loop of [blueprints_find]; warnings are not
    recorded. *)
Definition blueprints_find_step (blueprints : list BlueprintFile)
  (c : Candidate) : exn + list BlueprintFile :=
  let path := parts c in
  match relative_to path root with
  | None => inl (OtherError "ValueError")
  | Some rel_path =>
      if is_hidden path then inr blueprints
      else
        let raw_blueprint :=
          match load c with
          | LoadYAMLError => None
          | Loaded r => r
          end in
        match raw_blueprint with
        | None => inr blueprints
        | Some raw =>
            let metadata := raw_metadata raw in
            let version := default 1 (raw_version raw) in
            if negb (bool_decide (version = 1)) then inr blueprints
            else
              let file_hash := sha512_hexdigest (read_bytes c) in
              let blueprint m :=
                {| path := str_path rel_path; version := version;
                   hash := file_hash; last_m := st_mtime c; meta := m |} in
              match metadata with
              | None => inr (blueprints ++ [blueprint None])%list
              | Some (inl e) => inl e
              | Some (inr m) => inr (blueprints ++ [blueprint (Some m)])%list
              end
        end
  end.

Fixpoint blueprints_find_loop (blueprints : list BlueprintFile)
  (candidates : list Candidate) : exn + list BlueprintFile :=
  match candidates with
  | [] => inr blueprints
  | c :: rest =>
      match blueprints_find_step blueprints c with
      | inl e => inl e
      | inr blueprints' => blueprints_find_loop blueprints' rest
      end
  end.

(** [blueprints_find()] over the candidates of the walk. *)
Definition blueprints_find (candidates : list Candidate)
  : exn + list BlueprintFile :=
  blueprints_find_loop [] candidates.

End Scanner.

(** ** Reconciliation and apply *)

(** The importer built by [Importer.from_string]: what its calls return to
    the task.  What [apply] does to the store for the entries of the
    blueprint is not modelled; [World] holds what the tasks themselves read
    and write. *)
Record Importer := {
  blueprint_metadata : option BlueprintMetadata;
  validate : exn + (bool * list string);
  apply : exn + (bool * list string)    (* result and captured logs *)
}.

(** The collaborators of one task run. *)
Record Collaborators := {
  retrieve : BlueprintInstance -> exn + string;
  from_string : string -> gmap string string -> exn + Importer;
  now : Z;
  db_fault : DbOp -> option exn;
  uuid4 : nat -> string
}.

(** [apply_blueprint] keeps the instance in a local variable. *)
Record Frame := {
  world : World;
  instance : option BlueprintInstance
}.

(** [Model.save()]: update the row with this primary key, or insert. *)
Fixpoint db_save (i : BlueprintInstance) (tbl : list BlueprintInstance)
  : list BlueprintInstance :=
  match tbl with
  | [] => [i]
  | j :: tbl' =>
      if String.eqb (pk j) (pk i) then i :: tbl' else j :: db_save i tbl'
  end.

Definition with_status (st : BlueprintInstanceStatus) (i : BlueprintInstance)
  : BlueprintInstance :=
  {| pk := pk i; name := name i; instance_path := instance_path i;
     context := context i; status := st; enabled := enabled i;
     managed_models := managed_models i; metadata := metadata i;
     last_applied_hash := last_applied_hash i; last_applied := last_applied i |}.

Definition with_metadata (m : option BlueprintMetadata) (i : BlueprintInstance)
  : BlueprintInstance :=
  {| pk := pk i; name := name i; instance_path := instance_path i;
     context := context i; status := status i; enabled := enabled i;
     managed_models := managed_models i; metadata := m;
     last_applied_hash := last_applied_hash i; last_applied := last_applied i |}.

Definition with_last_applied (h : string) (t : Z) (i : BlueprintInstance)
  : BlueprintInstance :=
  {| pk := pk i; name := name i; instance_path := instance_path i;
     context := context i; status := status i; enabled := enabled i;
     managed_models := managed_models i; metadata := metadata i;
     last_applied_hash := h; last_applied := Some t |}.

Definition with_objects (tbl : list BlueprintInstance) (w : World) : World :=
  {| objects := tbl; queue := queue w; uuid_draws := uuid_draws w;
     task := task w |}.

Definition with_task (t : SystemTask) (w : World) : World :=
  {| objects := objects w; queue := queue w; uuid_draws := uuid_draws w;
     task := t |}.

(** [BlueprintInstance.objects.filter(pk=instance_pk).first()] *)
Definition by_pk (instance_pk : string) (tbl : list BlueprintInstance)
  : option BlueprintInstance :=
  List.find (fun i => String.eqb (pk i) instance_pk) tbl.

(** [BlueprintInstance.objects.filter(path=path).first()] *)
Definition by_path (p : string) (tbl : list BlueprintInstance)
  : option BlueprintInstance :=
  List.find (fun i => String.eqb (instance_path i) p) tbl.

(** The constructor call of [check_blueprint_v1_file]; [new_pk] is the
    primary key drawn for the new row. *)
Definition new_instance (new_pk : string) (blueprint : BlueprintFile)
  : BlueprintInstance :=
  {| pk := new_pk;
     name := match meta blueprint with
             | Some m => meta_name m
             | None => path blueprint
             end;
     instance_path := path blueprint;
     context := ∅;
     status := UNKNOWN;
     enabled := true;
     managed_models := [];
     metadata := None;
     last_applied_hash := default_last_applied_hash;
     last_applied := default_last_applied |}.

Section Tasks.
Variable LABEL_AUTHENTIK_INSTANTIATE : string.
Variable sha512_hexdigest : string -> string.
Variable slugify : string -> string.
Variable env : Collaborators.

Abbreviation Task := (M World exn).
Abbreviation Body := (M Frame exn).

(** A call into the persistence layer, which may raise. *)
Definition db_call {S A} (op : DbOp) (k : M S exn A) : M S exn A :=
  match db_fault env op with
  | Some e => raise e
  | None => k
  end.

Definition save (op : DbOp) (i : BlueprintInstance) : Task unit :=
  db_call op (modify (fun w => with_objects (db_save i (objects w)) w)).

(** [apply_blueprint.delay(pk)] *)
Definition delay (instance_pk : string) : Task unit :=
  modify (fun w => {| objects := objects w;
                      queue := (queue w ++ [instance_pk])%list;
                      uuid_draws := uuid_draws w; task := task w |}).

Definition report (r : Report) : Task unit :=
  modify (fun w =>
    with_task {| save_on_success := save_on_success (task w);
                 reports := (reports (task w) ++ [r])%list |} w).

(** The primary key drawn when an instance is constructed. *)
Definition draw_pk : Task string :=
  fun w => ({| objects := objects w; queue := queue w;
               uuid_draws := S (uuid_draws w); task := task w |},
            inr (uuid4 env (uuid_draws w))).

(** [blueprint.meta and
     blueprint.meta.labels.get(LABEL_AUTHENTIK_INSTANTIATE, "").lower() == "false"] *)
Definition instantiate_false (blueprint : BlueprintFile) : bool :=
  match meta blueprint with
  | Some m =>
      bool_decide
        (Py.lower (default "" (labels m !! LABEL_AUTHENTIK_INSTANTIATE)) = "false")
  | None => false
  end.

Definition check_blueprint_v1_file (blueprint : BlueprintFile) : Task unit :=
  found ← db_call OpFilterPath
    (w ← get ;
     mret (by_path (path blueprint) (objects w))) ;
  if instantiate_false blueprint then mret tt
  else
    inst ← match found with
           | Some i => mret i
           | None =>
               new_pk ← draw_pk ;
               let i := new_instance new_pk blueprint in
               save OpSaveCreated i ;;
               mret i
           end ;
    when (negb (bool_decide (last_applied_hash inst = hash blueprint)))
      (delay (pk inst)).

(** The loop of [blueprints_discovery]; [path_filter] is its [path]
    argument. *)
Fixpoint blueprints_discovery_loop (path_filter : option string)
  (blueprints : list BlueprintFile) (count : Z) : Task Z :=
  match blueprints with
  | [] => mret count
  | blueprint :: rest =>
      if (Py.truthy_opt path_filter
          && negb (bool_decide (Some (path blueprint) = path_filter)))%bool
      then blueprints_discovery_loop path_filter rest count
      else
        check_blueprint_v1_file blueprint ;;
        blueprints_discovery_loop path_filter rest (count + 1)
  end.

(** [blueprints_discovery(path)], given what [blueprints_find()] returned. *)
Definition blueprints_discovery (found : exn + list BlueprintFile)
  (path_filter : option string) : Task unit :=
  match found with
  | inl e => raise e
  | inr blueprints =>
      count ← blueprints_discovery_loop path_filter blueprints 0 ;
      report (SetStatus TS_SUCCESSFUL
                ["Successfully imported " +:+ pretty count +:+ " files."])
  end.

(** *** [apply_blueprint] *)

Definition lift {A} (m : Task A) : Body A :=
  fun f =>
    match m (world f) with
    | (w, r) => ({| world := w; instance := instance f |}, r)
    end.

Definition set_instance (i : option BlueprintInstance) : Body unit :=
  modify (fun f => {| world := world f; instance := i |}).

(** An assignment to a field of the local [instance]. *)
Definition update_instance (g : BlueprintInstance -> BlueprintInstance)
  : Body unit :=
  modify (fun f => {| world := world f; instance := g <$> instance f |}).

(** [instance.save()] on the local [instance]. *)
Definition save_instance (op : DbOp) : Body unit :=
  f ← get ;
  match instance f with
  | Some i => lift (save op i)
  | None => mret tt
  end.

Definition of_outcome {A} (r : exn + A) : Body A :=
  match r with
  | inl e => raise e
  | inr a => mret a
  end.

(** The body of the [try] block. *)
Definition apply_blueprint_try (instance_pk : string) : Body unit :=
  found ← db_call OpFilterPk
    (f ← get ;
     mret (by_pk instance_pk (objects (world f)))) ;
  set_instance found ;;
  match found with
  | None => mret tt
  | Some i =>
      if negb (enabled i) then mret tt
      else
        lift (report (SetUid (slugify (name i)))) ;;
        blueprint_content ← of_outcome (retrieve env i) ;
        let file_hash := sha512_hexdigest blueprint_content in
        importer ← of_outcome (from_string env blueprint_content (context i)) ;
        match blueprint_metadata importer with
        | Some m => update_instance (with_metadata (Some m))
        | None => mret tt
        end ;;
        '(valid, logs) ← of_outcome (validate importer) ;
        if negb valid then
          update_instance (with_status ERROR) ;;
          save_instance OpSaveInvalid ;;
          lift (report (SetStatus TS_ERROR logs))
        else
          '(applied, logs) ← of_outcome (apply importer) ;
          if negb applied then
            update_instance (with_status ERROR) ;;
            save_instance OpSaveNotApplied ;;
            lift (report (SetStatus TS_ERROR logs))
          else
            update_instance (with_status SUCCESSFUL) ;;
            update_instance (with_last_applied file_hash (now env)) ;;
            lift (report (SetStatus TS_SUCCESSFUL []))
  end.

(** The [except] clause: the handler for a recognized class. *)
Definition apply_blueprint_except (exc : exn) : option (Body unit) :=
  if recognized exc
  then Some (update_instance (with_status ERROR) ;;
             lift (report (SetError exc)))
  else None.

Definition apply_blueprint_local (instance_pk : string) : Body unit :=
  lift (modify (fun w =>
    with_task {| save_on_success := false; reports := reports (task w) |} w)) ;;
  set_instance None ;;
  try_finally
    (try_except (apply_blueprint_try instance_pk) apply_blueprint_except)
    (save_instance OpSaveFinally).

(** [apply_blueprint(instance_pk)] *)
Definition apply_blueprint (instance_pk : string) : Task unit :=
  fun w =>
    match apply_blueprint_local instance_pk {| world := w; instance := None |} with
    | (f, r) => (world f, r)
    end.

End Tasks.

(** The frame in which the [try] block of [apply_blueprint] is entered. *)
Definition entered (w : World) : Frame :=
  {| world :=
       with_task {| save_on_success := false; reports := reports (task w) |} w;
     instance := None |}.

(** The primary keys of the table are distinct, and the keys still to be
    drawn are not in it. *)
Definition keys_ok (env : Collaborators) (w : World) : Prop :=
  NoDup (pk <$> objects w)
  /\ forall n, (uuid_draws w <= n)%nat -> uuid4 env n ∉ pk <$> objects w.

(** The collaborators let a run on instance [i] go through: the store
    answers, retrieval gives [content], and the importer parses, validates
    and applies it. *)
Definition apply_succeeds (env : Collaborators) (i : BlueprintInstance)
  (content : string) : Prop :=
  db_fault env OpFilterPk = None
  /\ db_fault env OpSaveFinally = None
  /\ retrieve env i = inr content
  /\ exists importer logs logs',
       from_string env content (context i) = inr importer
       /\ validate importer = inr (true, logs)
       /\ apply importer = inr (true, logs').

End Blueprints.


(** ** Concrete configurations used by the examples *)

Module Samples.
Import Identification.

Definition PENDING_USER : string := "pending_user".

Definition PENDING_USER_IDENTIFIER : string := "pending_user_identifier".

(** A store that folds the ASCII letters and no other. *)
Definition ascii_store : Collation.
Proof.
  refine {| UPPER := Py.upper |}.
  induction s as [|c s IH]; simpl; [reflexivity|].
  rewrite IH. f_equal. by destruct c as [[] [] [] [] [] [] [] []].
Defined.

Definition alice : User :=
  {| user_pk := Some 1; username := "alice"; email := "alice@example.org";
     attributes_upn := None |}.

Definition a_request : Request := {| client_ip := "203.0.113.7" |}.

Definition a_captcha : CaptchaStage :=
  {| js_url := "https://captcha.example.org/api.js"; public_key := "site-key";
     interactive := false |}.

Definition inbuilt : PasswordStage :=
  {| backends := ["authentik.core.auth.InbuiltBackend"];
     allow_show_password := false |}.

(** A verifier that accepts every token, and one that rejects every token. *)
Definition captcha_accepts (_ : CaptchaStage) (_ : option string) (_ : string)
  : option exn := None.

Definition captcha_rejects (_ : CaptchaStage) (_ : option string) (_ : string)
  : option exn := Some (ValidationError "Invalid captcha response").

(** Backends that know alice's password, and backends that deny her. *)
Definition backends_check (_ : Request) (_ : list string)
  (_ : IdentificationStage) (user : string) (pw : option string)
  : exn + option User :=
  if (String.eqb user "alice" && bool_decide (pw = Some "correct horse"))%bool
  then inr (Some alice) else inr None.

Definition backends_deny (_ : Request) (_ : list string)
  (_ : IdentificationStage) (_ : string) (_ : option string)
  : exn + option User :=
  inl (PermissionDenied "Account locked").

(** Identify by username, do not show the matched user. *)
Definition stage_hidden : IdentificationStage :=
  {| user_fields := [F_username]; case_insensitive_matching := false;
     show_matched_user := false; pretend_user_exists := false;
     password_stage := None; captcha_stage := None |}.

(** Identify by username or email and check the password. *)
Definition stage_password : IdentificationStage :=
  {| user_fields := [F_username; F_email]; case_insensitive_matching := true;
     show_matched_user := true; pretend_user_exists := true;
     password_stage := Some inbuilt; captcha_stage := None |}.

(** The same behind a captcha. *)
Definition stage_password_captcha : IdentificationStage :=
  {| user_fields := [F_username; F_email]; case_insensitive_matching := true;
     show_matched_user := true; pretend_user_exists := true;
     password_stage := Some inbuilt; captcha_stage := Some a_captcha |}.

(** No user field, pretend that the user exists, no password stage. *)
Definition stage_no_fields_pretend : IdentificationStage :=
  {| user_fields := []; case_insensitive_matching := false;
     show_matched_user := true; pretend_user_exists := true;
     password_stage := None; captcha_stage := None |}.

(** A captcha stage and nothing else. *)
Definition stage_captcha : IdentificationStage :=
  {| user_fields := [F_username]; case_insensitive_matching := false;
     show_matched_user := true; pretend_user_exists := false;
     password_stage := None; captcha_stage := Some a_captcha |}.

Definition alice_attrs : Attrs :=
  {| uid_field := "alice"; password := None; captcha_token := None |}.

Definition alice_wrong_password : Attrs :=
  {| uid_field := "Alice"; password := Some "hunter2"; captcha_token := None |}.

Definition mallory_attrs : Attrs :=
  {| uid_field := "mallory"; password := Some "hunter2";
     captcha_token := Some "token" |}.

End Samples.


Module BlueprintSamples.
Import Blueprints.

Definition INSTANTIATE : string := "blueprints.goauthentik.io/instantiate".

(** Stand-ins for the digest and for [slugify]. *)
Definition toy_digest (content : string) : string := "sha512:" +:+ content.

Definition toy_slugify (s : string) : string := Py.lower s.

Definition flow_instance : BlueprintInstance :=
  {| pk := "6a0c"; name := "Default Flow";
     instance_path := "flows/default.yaml"; context := ∅; status := UNKNOWN;
     enabled := true; managed_models := []; metadata := None;
     last_applied_hash := ""; last_applied := None |}.

Definition disabled_instance : BlueprintInstance :=
  {| pk := "77f1"; name := "Old Flow";
     instance_path := "flows/old.yaml"; context := ∅; status := SUCCESSFUL;
     enabled := false; managed_models := []; metadata := None;
     last_applied_hash := "sha512:old"; last_applied := Some 1700000000 |}.

Definition a_task : SystemTask := {| save_on_success := true; reports := [] |}.

Definition a_world : World :=
  {| objects := [disabled_instance; flow_instance]; queue := [];
     uuid_draws := 0; task := a_task |}.

Definition good_importer : Importer :=
  {| blueprint_metadata :=
       Some {| meta_name := "Default Flow"; labels := ∅ |};
     validate := inr (true, []);
     apply := inr (true, []) |}.

Definition uuids (n : nat) : string := "uuid-" +:+ pretty n.

(** Retrieval, parsing, validation and apply all go through. *)
Definition env_ok : Collaborators :=
  {| retrieve := fun _ => inr "version: 1";
     from_string := fun _ _ => inr good_importer;
     now := 1800000000;
     db_fault := fun _ => None;
     uuid4 := uuids |}.

(** The same a while later. *)
Definition env_ok_later : Collaborators :=
  {| retrieve := fun _ => inr "version: 1";
     from_string := fun _ _ => inr good_importer;
     now := 1800000600;
     db_fault := fun _ => None;
     uuid4 := uuids |}.



(** The store fails when the validation error is written. *)
Definition env_invalid_db_down : Collaborators :=
  {| retrieve := fun _ => inr "version: 1";
     from_string := fun _ _ =>
       inr {| blueprint_metadata := None;
              validate := inr (false, ["entry 0 is invalid"]);
              apply := inr (true, []) |};
     now := 1800000000;
     db_fault := fun op =>
       match op with OpSaveInvalid => Some DatabaseError | _ => None end;
     uuid4 := uuids |}.

Definition flow_descriptor : BlueprintFile :=
  {| path := "flows/default.yaml"; version := 1; hash := "sha512:version: 1";
     last_m := 1799999000; meta := None |}.

Definition new_descriptor : BlueprintFile :=
  {| path := "system/bootstrap.yaml"; version := 1; hash := "sha512:boot";
     last_m := 1799999000;
     meta := Some {| meta_name := "Bootstrap"; labels := ∅ |} |}.

(** A discovery-only blueprint for the path of [flow_instance]. *)
Definition discovery_only_descriptor : BlueprintFile :=
  {| path := "flows/default.yaml"; version := 1; hash := "sha512:version: 1";
     last_m := 1799999000;
     meta := Some {| meta_name := "Default Flow";
                     labels := {[ INSTANTIATE := "False" ]} |} |}.

Definition a_document : RawBlueprint :=
  {| raw_metadata := None; raw_version := Some 1 |}.

(** The same file below a plain root and below a dotted root. *)
Definition plain_root : Path := ["/"; "blueprints"].

Definition dotted_root : Path := ["/"; "data"; ".blueprints"].

Definition candidate_below (root : Path) : Candidate :=
  {| parts := root ++ ["flows"; "default.yaml"];
     load := Loaded (Some a_document);
     read_bytes := "version: 1";
     st_mtime := 1799999000 |}.

Definition hidden_candidate : Candidate :=
  {| parts := plain_root ++ [".git"; "hook.yaml"];
     load := Loaded (Some a_document);
     read_bytes := "version: 1";
     st_mtime := 1799999000 |}.

(** The world after one run of [apply_blueprint] on [flow_instance], and
    the row it leaves. *)
Definition applied_once : World :=
  (apply_blueprint toy_digest toy_slugify env_ok "6a0c" a_world).1.

Definition applied_instance : BlueprintInstance :=
  {| pk := "6a0c"; name := "Default Flow";
     instance_path := "flows/default.yaml"; context := ∅;
     status := SUCCESSFUL; enabled := true; managed_models := [];
     metadata := Some {| meta_name := "Default Flow"; labels := ∅ |};
     last_applied_hash := "sha512:version: 1";
     last_applied := Some 1800000000 |}.

End BlueprintSamples.


(** ** The lookup of the identification stage, field by field *)

Module Lookup.
Import Identification.

(** The column that a searchable field reads. *)
Definition field_value (f : UserField) (u : User) : option string :=
  match f with
  | F_email => Some (email u)
  | F_username => Some (username u)
  | F_upn => attributes_upn u
  end.

(** [u] carries [uid] in field [f]: exactly, or up to the case folding of
    the store. *)
Definition field_matches (collation : Collation) (insensitive : bool)
  (f : UserField) (uid : string) (u : User) : bool :=
  match field_value f u with
  | Some x =>
      if insensitive
      then String.eqb (UPPER collation x) (UPPER collation uid)
      else String.eqb x uid
  | None => false
  end.

(** [u] carries [uid] in one of the fields the stage searches. *)
Definition matches (collation : Collation) (stage : IdentificationStage)
  (uid : string) (u : User) : bool :=
  existsb
    (fun f => field_matches collation (case_insensitive_matching stage) f uid u)
    (user_fields stage).

(** What [get_user] does to the outside world. *)
Definition lookup_events (collation : Collation) (stage : IdentificationStage)
  (users : list User) (uid : string) : list Event :=
  match build_query stage uid with
  | [] => [EvLog "debug" "Empty user query"]
  | q =>
      EvQuery q ::
      match objects_filter_first collation users q with
      | Some _ => [EvLog "debug" "Found user"]
      | None => []
      end
  end.

(** What the captcha check of [validate] does to the outside world. *)
Definition captcha_events (stage : IdentificationStage) (request : Request)
  (attrs : Attrs) : list Event :=
  match captcha_stage stage with
  | Some _ =>
      (if Py.truthy_opt (captcha_token attrs) then []
       else [EvLog "warning" "Token not set for captcha attempt"])
      ++ [EvVerifyCaptcha (captcha_token attrs) (client_ip request)]
  | None => []
  end.

(** What the password check of [validate] does to the outside world for the
    matched user [u]. *)
Definition password_events (stage : IdentificationStage) (u : User)
  (attrs : Attrs) : list Event :=
  match password_stage stage with
  | Some _ =>
      (if Py.truthy_opt (password attrs) then []
       else [EvLog "warning" "Password not set for ident+auth attempt"])
      ++ [EvAuthenticate (username u) (password attrs)]
  | None => []
  end.

Definition is_authenticate (e : Event) : bool :=
  match e with EvAuthenticate _ _ => true | _ => false end.

Definition is_identification_failed (e : Event) : bool :=
  match e with EvIdentificationFailed _ => true | _ => false end.

(** The pending user that [validate] builds for an unknown identifier. *)
Definition placeholder (uid : string) : User :=
  {| user_pk := None; username := uid; email := uid; attributes_upn := None |}.

End Lookup.

(** ** Predicates on descriptors, candidates and rows *)

Module Facts.
Import Blueprints.

(** The scan passes over the candidate: it is hidden, cannot be parsed, is
    an empty document, or declares another version than 1. *)
Definition skipped (c : Candidate) : bool :=
  (is_hidden (parts c)
   || match load c with
      | LoadYAMLError => true
      | Loaded None => true
      | Loaded (Some raw) => negb (bool_decide (default 1 (raw_version raw) = 1))
      end)%bool.

(** [blueprints_discovery] looks at the descriptor: there is no path
    filter, or the filter is the empty string, or it is the descriptor's
    path. *)
Definition considered (path_filter : option string) (b : BlueprintFile)
  : bool :=
  negb (Py.truthy_opt path_filter
        && negb (bool_decide (Some (path b) = path_filter)))%bool.

(** [i'] is the row [i] up to the fields that [apply_blueprint] assigns
    ([status], [metadata], [last_applied_hash], [last_applied]). *)
Definition same_row (i i' : BlueprintInstance) : Prop :=
  pk i' = pk i
  /\ name i' = name i
  /\ instance_path i' = instance_path i
  /\ context i' = context i
  /\ enabled i' = enabled i
  /\ managed_models i' = managed_models i.

End Facts.

(** ** The stale-blueprint cleaner *)

Module Cleaner.
Import Eff Blueprints.

(** [Model.delete()]: the row with this primary key goes. *)
Definition db_delete (i : BlueprintInstance) (tbl : list BlueprintInstance)
  : list BlueprintInstance :=
  List.filter (fun j => negb (String.eqb (pk j) (pk i))) tbl.

Section Cleaner.
Variable OCI_PREFIX : string.
Variable env : Collaborators.

(** [BlueprintInstance.objects.exclude(path__startswith=OCI_PREFIX)] *)
Definition exclude_oci (tbl : list BlueprintInstance)
  : list BlueprintInstance :=
  List.filter (fun i => negb (Py.startswith OCI_PREFIX (instance_path i))) tbl.

(** The body of the loop: [retrieve], and [delete] on
    [BlueprintRetrievalFailed]. *)
Definition clear_one (blueprint : BlueprintInstance) : M World exn unit :=
  try_except
    (match retrieve env blueprint with
     | inl e => raise e
     | inr _ => mret tt
     end)
    (fun exc =>
       match exc with
       | BlueprintRetrievalFailed =>
           Some (modify (fun w => with_objects (db_delete blueprint (objects w)) w))
       | _ => None
       end).

Fixpoint clear_loop (rows : list BlueprintInstance) : M World exn unit :=
  match rows with
  | [] => mret tt
  | blueprint :: rest => clear_one blueprint ;; clear_loop rest
  end.

(** [clear_failed_blueprints()]; the queryset is read when the loop
    starts. *)
Definition clear_failed_blueprints : M World exn unit :=
  w ← get ;
  clear_loop (exclude_oci (objects w)).

(** Retrieval of [r] fails with [BlueprintRetrievalFailed]. *)
Definition fails (r : BlueprintInstance) : bool :=
  bool_decide (retrieve env r = inl BlueprintRetrievalFailed).

(** What one iteration does to the table when it does not raise. *)
Definition sweep (tbl : list BlueprintInstance) (r : BlueprintInstance)
  : list BlueprintInstance :=
  if fails r then db_delete r tbl else tbl.

(** Retrieval of [r] succeeds or fails with [BlueprintRetrievalFailed]. *)
Definition tame (r : BlueprintInstance) : Prop :=
  forall e, retrieve env r = inl e -> e = BlueprintRetrievalFailed.

(** The row [j] is not deleted by a sweep over [rows]. *)
Definition survives (rows : list BlueprintInstance) (j : BlueprintInstance)
  : bool :=
  forallb (fun r => negb (fails r && String.eqb (pk j) (pk r))) rows.

(** The row is kept by the cleaner: it is remote, or its content can be
    retrieved or fails with something else than
    [BlueprintRetrievalFailed]. *)
Definition kept (i : BlueprintInstance) : bool :=
  (Py.startswith OCI_PREFIX (instance_path i)
   || negb (bool_decide (retrieve env i = inl BlueprintRetrievalFailed)))%bool.

End Cleaner.

End Cleaner.

(** ** The file-system watcher *)

Module Watcher.
Import Blueprints.

(** The event types of [watchdog.events]. *)
Inductive EventType :=
| EVENT_TYPE_MOVED
| EVENT_TYPE_DELETED
| EVENT_TYPE_CREATED
| EVENT_TYPE_MODIFIED
| EVENT_TYPE_CLOSED
| EVENT_TYPE_OPENED.

Record FileSystemEvent := {
  event_type : EventType;
  is_directory : bool;
  src_path : Path
}.

(** The event classes given as [event_filter]. *)
Inductive EventClass := FileCreatedEvent | FileModifiedEvent.

(** A call of [observer.schedule]. *)
Record Watch := {
  watch_path : string;
  recursive : bool;
  event_filter : option (list EventClass)
}.

(** The module-level flag and the observers started by this process. *)
Record Process := {
  _file_watcher_started : bool;
  observers : list Watch
}.

Definition fresh_process : Process :=
  {| _file_watcher_started := false; observers := [] |}.

(** [start_blueprint_watcher()], given [sys.platform] and the configured
    [blueprints_dir]. *)
Definition start_blueprint_watcher (platform blueprints_dir : string)
  (p : Process) : Process :=
  if _file_watcher_started p then p
  else
    let kwargs :=
      if Py.startswith "linux" platform
      then Some [FileCreatedEvent; FileModifiedEvent]
      else None in
    {| _file_watcher_started := true;
       observers :=
         observers p ++ [{| watch_path := blueprints_dir; recursive := true;
                            event_filter := kwargs |}] |}.

(** A tenant with its own instance table. *)
Record Tenant := {
  schema_name : string;
  ready : bool;
  tenant_objects : list BlueprintInstance
}.

(** A task handed to the queue inside a tenant. *)
Inductive Message :=
| Discovery                      (* [blueprints_discovery.delay()] *)
| Apply (instance_pk : string).  (* [apply_blueprint.delay(pk)] *)

#[global] Instance Message_eq_dec : EqDecision Message.
Proof. solve_decision. Defined.

(** [uuid.hex]: the text of the key without its dashes. *)
Fixpoint hex (s : string) : string :=
  match s with
  | EmptyString => EmptyString
  | String c s' => if Ascii.eqb c "-" then hex s' else String c (hex s')
  end.

Section Handler.
(** [Path(CONFIG.get("blueprints_dir")).absolute()] *)
Variable root : Path.
(** [Tenant.objects], in the store's order. *)
Variable tenants : list Tenant.

(** [Tenant.objects.filter(ready=True)] *)
Definition ready_tenants : list Tenant := List.filter ready tenants.

(** [on_created]: a discovery in every ready tenant. *)
Definition on_created (event : FileSystemEvent)
  : exn + list (string * Message) :=
  inr (List.map (fun tenant => (schema_name tenant, Discovery)) ready_tenants).

(** [on_modified]: an apply for every enabled instance of the file's
    relative path, in every ready tenant. *)
Definition on_modified (event : FileSystemEvent)
  : exn + list (string * Message) :=
  match relative_to (src_path event) root with
  | None => inl (OtherError "ValueError")
  | Some rel =>
      let rel_path := str_path rel in
      inr (List.flat_map
             (fun tenant =>
                List.map
                  (fun i => (schema_name tenant, Apply (hex (pk i))))
                  (List.filter
                     (fun i => (String.eqb (instance_path i) rel_path
                                && enabled i)%bool)
                     (tenant_objects tenant)))
             ready_tenants)
  end.

(** [FileSystemEventHandler.dispatch] of watchdog: the method of the event's
    type; the handler overrides [on_created] and [on_modified] only. *)
Definition super_dispatch (event : FileSystemEvent)
  : exn + list (string * Message) :=
  match event_type event with
  | EVENT_TYPE_CREATED => on_created event
  | EVENT_TYPE_MODIFIED => on_modified event
  | _ => inr []
  end.

(** [BlueprintEventHandler.dispatch] *)
Definition dispatch (event : FileSystemEvent)
  : exn + list (string * Message) :=
  if is_directory event then inr [] else super_dispatch event.

End Handler.

End Watcher.

(** ** More concrete configurations *)

Module LoginSamples.
Import Identification Samples.

(** Identify by username and check the password, without showing the
    matched user. *)
Definition stage_hidden_password : IdentificationStage :=
  {| user_fields := [F_username]; case_insensitive_matching := false;
     show_matched_user := false; pretend_user_exists := false;
     password_stage := Some inbuilt; captcha_stage := None |}.

Definition alice_password : Attrs :=
  {| uid_field := "alice"; password := Some "correct horse";
     captcha_token := None |}.

(** A store that also folds the accented letters of Latin-1, which UTF-8
    writes in two bytes, the first of them 195: the second byte of a small
    letter is 32 above that of its capital. *)
Definition upper_after_195 (c : ascii) : ascii :=
  let n := nat_of_ascii c in
  if ((160 <=? n)%nat && (n <=? 190)%nat && negb (n =? 183)%nat)%bool
  then ascii_of_nat (n - 32) else Py.ascii_upper c.

Fixpoint latin_upper (after_195 : bool) (s : string) : string :=
  match s with
  | EmptyString => EmptyString
  | String c s' =>
      String (if after_195 then upper_after_195 c else Py.ascii_upper c)
        (latin_upper (if after_195 then false else Ascii.eqb c "195") s')
  end.

Definition latin_store : Collation.
Proof.
  refine {| UPPER := latin_upper false |}.
  intros s. generalize false.
  induction s as [|c s IH]; intros after_195; simpl; [reflexivity|].
  rewrite <- IH.
  by destruct after_195; destruct c as [[] [] [] [] [] [] [] []].
Defined.

Definition emile : User :=
  {| user_pk := Some 2; username := "émile"; email := "emile@example.org";
     attributes_upn := None |}.

(** Alice signs in with her e-mail address, in capitals. *)
Definition alice_login : Attrs :=
  {| uid_field := "ALICE@example.org"; password := Some "correct horse";
     captcha_token := None |}.

(** The account that a directory backend returns for alice. *)
Definition alice_ldap : User :=
  {| user_pk := Some 7; username := "alice"; email := "alice@corp.example.org";
     attributes_upn := Some "alice@corp.example.org" |}.

Definition backends_ldap (_ : Request) (_ : list string)
  (_ : IdentificationStage) (user : string) (_ : option string)
  : exn + option User :=
  if String.eqb user "alice" then inr (Some alice_ldap) else inr None.

End LoginSamples.

Module MoreSamples.
Import Blueprints Watcher.

Definition OCI : string := "oci://".

Definition oci_instance : BlueprintInstance :=
  {| pk := "0c1d"; name := "Remote";
     instance_path := "oci://registry.example.org/blueprints:latest";
     context := ∅; status := SUCCESSFUL; enabled := true;
     managed_models := []; metadata := None;
     last_applied_hash := "sha512:remote"; last_applied := Some 1700000000 |}.

Definition gone_instance : BlueprintInstance :=
  {| pk := "dead"; name := "Gone"; instance_path := "flows/gone.yaml";
     context := ∅; status := SUCCESSFUL; enabled := true;
     managed_models := []; metadata := None;
     last_applied_hash := "sha512:gone"; last_applied := Some 1700000000 |}.

(** Only the file of [flow_instance] can be retrieved. *)
Definition env_only_flow : Collaborators :=
  {| retrieve := fun i =>
       if String.eqb (pk i) "6a0c" then inr "version: 1"
       else inl BlueprintRetrievalFailed;
     from_string := fun _ _ => inr BlueprintSamples.good_importer;
     now := 1800000000;
     db_fault := fun _ => None;
     uuid4 := BlueprintSamples.uuids |}.

(** The file of [gone_instance] is gone, that of [flow_instance] cannot be
    read. *)
Definition env_io_error : Collaborators :=
  {| retrieve := fun i =>
       if String.eqb (pk i) "6a0c" then inl OSError
       else inl BlueprintRetrievalFailed;
     from_string := fun _ _ => inr BlueprintSamples.good_importer;
     now := 1800000000;
     db_fault := fun _ => None;
     uuid4 := BlueprintSamples.uuids |}.

Definition cleaner_world : World :=
  {| objects := [oci_instance; gone_instance; BlueprintSamples.flow_instance];
     queue := []; uuid_draws := 0; task := BlueprintSamples.a_task |}.

(** Validation rejects the blueprint. *)
Definition bad_importer : Importer :=
  {| blueprint_metadata :=
       Some {| meta_name := "Renamed Flow"; labels := ∅ |};
     validate := inr (false, ["entry 0 is invalid"]);
     apply := inr (true, []) |}.

Definition env_invalid : Collaborators :=
  {| retrieve := fun _ => inr "version: 1";
     from_string := fun _ _ => inr bad_importer;
     now := 1800000000;
     db_fault := fun _ => None;
     uuid4 := BlueprintSamples.uuids |}.

(** The row of [flow_instance] after the rejected run. *)
Definition renamed_error_instance : BlueprintInstance :=
  with_status ERROR
    (with_metadata (Some {| meta_name := "Renamed Flow"; labels := ∅ |})
       BlueprintSamples.flow_instance).

(** Retrieval fails with an exception that [apply_blueprint] does not
    name. *)
Definition env_yaml_error : Collaborators :=
  {| retrieve := fun _ => inl YAMLError;
     from_string := fun _ _ => inr BlueprintSamples.good_importer;
     now := 1800000000;
     db_fault := fun _ => None;
     uuid4 := BlueprintSamples.uuids |}.

(** The store fails at the last write. *)
Definition env_final_save_fails : Collaborators :=
  {| retrieve := fun _ => inr "version: 1";
     from_string := fun _ _ => inr BlueprintSamples.good_importer;
     now := 1800000000;
     db_fault := fun op =>
       match op with OpSaveFinally => Some DatabaseError | _ => None end;
     uuid4 := BlueprintSamples.uuids |}.

(** The apply step reports failure. *)
Definition failing_importer : Importer :=
  {| blueprint_metadata := None;
     validate := inr (true, []);
     apply := inr (false, ["could not apply entry 0"]) |}.

Definition env_not_applied : Collaborators :=
  {| retrieve := fun _ => inr "version: 1";
     from_string := fun _ _ => inr failing_importer;
     now := 1800000000;
     db_fault := fun _ => None;
     uuid4 := BlueprintSamples.uuids |}.

Definition tenant_a : Tenant :=
  {| schema_name := "public"; ready := true;
     tenant_objects := objects BlueprintSamples.a_world |}.

Definition tenant_b : Tenant :=
  {| schema_name := "t_staging"; ready := false;
     tenant_objects := objects BlueprintSamples.a_world |}.

Definition modified_event : FileSystemEvent :=
  {| event_type := EVENT_TYPE_MODIFIED; is_directory := false;
     src_path := BlueprintSamples.plain_root ++ ["flows"; "default.yaml"] |}.

(** A document of another version, and one whose metadata cannot be
    decoded. *)
Definition v2_candidate : Candidate :=
  {| parts := BlueprintSamples.plain_root ++ ["flows"; "v2.yaml"];
     load := Loaded (Some {| raw_metadata := None; raw_version := Some 2 |});
     read_bytes := "version: 2";
     st_mtime := 1799999000 |}.

Definition broken_candidate : Candidate :=
  {| parts := BlueprintSamples.plain_root ++ ["flows"; "broken.yaml"];
     load := LoadYAMLError;
     read_bytes := "{";
     st_mtime := 1799999000 |}.

Definition bad_metadata_candidate : Candidate :=
  {| parts := BlueprintSamples.plain_root ++ ["flows"; "meta.yaml"];
     load := Loaded (Some {| raw_metadata := Some (inl (OtherError "MissingValueError"));
                             raw_version := None |});
     read_bytes := "metadata: {labels: {}}";
     st_mtime := 1799999000 |}.

End MoreSamples.


(** ** Properties of the identification stage *)

Module IdentificationSpec.
Import Eff Identification.

Section Properties.
Variable collation : Collation.
Variable PLAN_CONTEXT_PENDING_USER : string.
Variable PLAN_CONTEXT_PENDING_USER_IDENTIFIER : string.
Variable verify_captcha_token :
  CaptchaStage -> option string -> string -> option exn.
Variable authenticate :
  Request -> list string -> IdentificationStage -> string -> option string ->
  exn + option User.
Variable request : Request.
Variable current_stage : IdentificationStage.
Variable users : list User.
Variable entropy : Z.

Abbreviation get_user' := (get_user collation current_stage users).
Abbreviation validate' :=
  (validate collation PLAN_CONTEXT_PENDING_USER
      PLAN_CONTEXT_PENDING_USER_IDENTIFIER
     verify_captcha_token authenticate request current_stage users entropy).

Ltac run :=
  unfold attempt, challenge_valid, mbind, M_bind, mret, M_ret, bind, ret,
    raise, when, sleep_30ms, emit, set_context, set_pre_user, modify, get,
    try_except;
  simpl.

Ltac run_in H :=
  unfold attempt, challenge_valid, mbind, M_bind, mret, M_ret, bind, ret,
    raise, when, sleep_30ms, emit, set_context, set_pre_user, modify, get,
    try_except in H;
  simpl in H.

Lemma get_user_run uid s :
  exists evs r,
    get_user' uid s =
      ({| plan_context := plan_context s; pre_user := pre_user s;
          events := events s ++ evs |}, inr r)
    /\ Forall (fun e => is_sleep e = false /\ is_verify_captcha e = false) evs
    /\ (user_fields current_stage = [] ->
        r = None /\ Forall (fun e => is_query e = false) evs).
Proof.
  unfold get_user.
  destruct (build_query current_stage uid) as [|kw q] eqn:Hq.
  - exists [EvLog "debug" "Empty user query"], None. 
    split; [reflexivity|]. split; [repeat constructor|].
    intros _. split; [reflexivity| repeat constructor].
  - destruct (objects_filter_first collation users (kw :: q)) as [u|] eqn:Hf.
    + exists [EvQuery (kw :: q); EvLog "debug" "Found user"], (Some u).
      split. { run. rewrite <- app_assoc. reflexivity. }
      split; [repeat constructor|].
      intros Hnil. unfold build_query in Hq. rewrite Hnil in Hq. discriminate.
    + exists [EvQuery (kw :: q)], None.
      split. { reflexivity. }
      split; [repeat constructor|].
      intros Hnil. unfold build_query in Hq. rewrite Hnil in Hq. discriminate.
Qed.

Lemma get_user_keeps uid s :
  plan_context (get_user' uid s).1 = plan_context s
  /\ pre_user (get_user' uid s).1 = pre_user s.
Proof.
  destruct (get_user_run uid s) as (evs & r & -> & _). split; reflexivity.
Qed.

(** [validate] when the lookup finds nobody. *)
Lemma validate_no_match attrs s s1 :
  get_user' (uid_field attrs) s = (s1, inr None) ->
  let uid := uid_field attrs in
  let placeholder :=
    {| user_pk := None; username := uid; email := uid;
       attributes_upn := None |} in
  validate' attrs s =
    ({| plan_context :=
          (if show_matched_user current_stage
           then <[PLAN_CONTEXT_PENDING_USER := VUser placeholder]> (plan_context s1)
           else <[PLAN_CONTEXT_PENDING_USER_IDENTIFIER := VStr uid]>
                  (<[PLAN_CONTEXT_PENDING_USER := VUser placeholder]>
                     (plan_context s1)));
        pre_user := Some placeholder;
        events := events s1 ++ [EvSleep (30 * Py.randint 3 7 entropy); EvLog
            "info" "invalid_login";
                                EvIdentificationFailed uid] |},
     if (pretend_user_exists current_stage
         && negb (bool_decide (is_Some (password_stage current_stage))))%bool
     then inr attrs
     else inl (ValidationError "Failed to authenticate.")).
Proof.
  intros Hget uid placeholder. subst uid placeholder. unfold validate.
  cbv zeta. unfold mbind at 1, M_bind at 1, bind at 1. rewrite Hget.
  run. rewrite <- !app_assoc. simpl.
  destruct (show_matched_user current_stage); simpl;
    destruct (pretend_user_exists current_stage
              && negb (bool_decide (is_Some (password_stage current_stage))))%bool;
    reflexivity.
Qed.

Lemma state_events_nil c p (e : list Event) :
  {| plan_context := c; pre_user := p; events := e |} =
  {| plan_context := c; pre_user := p; events := e ++ [] |}.
Proof. by rewrite app_nil_r. Qed.

(** [validate] when the lookup finds [u]: the flow-plan context is not
    written, the pending user is [u] or the authenticated user, and the
    outcome is decided by the captcha verifier and the backends. *)
Lemma validate_match attrs s s1 u :
  get_user' (uid_field attrs) s = (s1, inr (Some u)) ->
  exists evs fin,
    (validate' attrs s).1 =
      {| plan_context := plan_context s1; pre_user := Some fin;
         events := events s1 ++ evs |}
    /\ (password_stage current_stage = None -> fin = u)
    /\ (forall a, (validate' attrs s).2 = inr a -> a = attrs)
    /\ (captcha_passes verify_captcha_token request current_stage attrs ->
        (validate' attrs s).2 =
          match password_stage current_stage with
          | None => inr attrs
          | Some ps =>
              match authenticate request (backends ps) current_stage
                      (username u) (password attrs) with
              | inl (PermissionDenied m) => inl (ValidationError m)
              | inl e => inl e
              | inr None => inl (ValidationError "Failed to authenticate.")
              | inr (Some _) => inr attrs
              end
          end)
    /\ (forall c e,
          captcha_stage current_stage = Some c ->
          verify_captcha_token c (captcha_token attrs) (get_client_ip request)
            = Some e ->
          (validate' attrs s).2 = inl e).
Proof.
  intros Hget. destruct (validate' attrs s) as [s' r] eqn:Hval. simpl.
  unfold validate in Hval. cbv zeta in Hval.
  unfold mbind at 1, M_bind at 1, bind at 1 in Hval. rewrite Hget in Hval.
  unfold captcha_passes.
  destruct (captcha_stage current_stage) as [c|] eqn:Hc;
    [destruct (verify_captcha_token c (captcha_token attrs)
                 (get_client_ip request)) as [e|] eqn:Hv|];
    (destruct (password_stage current_stage) as [ps|] eqn:Hp;
     [destruct (authenticate request (backends ps) current_stage (username u)
                  (password attrs)) as [[m|m|m]|[au|]] eqn:Ha|]);
    destruct (Py.truthy_opt (captcha_token attrs));
    destruct (Py.truthy_opt (password attrs));
    run_in Hval; rewrite ?Hv, ?Ha in Hval; simpl in Hval;
    injection Hval as <- <-;
    eexists _, _;
    (split; [first [rewrite <- ?app_assoc; reflexivity
                   | apply state_events_nil]|]);
    (split; [intros; first [discriminate | reflexivity | congruence]|]);
    (split; [intros a ?; first [discriminate | congruence]|]);
    (split; [intros; first [discriminate | reflexivity | congruence]|]);
    intros c' e' Hc' He'; congruence.
Qed.

(** When [validate] returns for a matched user, the captcha check has
    passed and the pending user is the matched user or, with a password
    stage, the user that the backends returned. *)
Lemma validate_match_returns attrs s s1 u s2 a :
  get_user' (uid_field attrs) s = (s1, inr (Some u)) ->
  validate' attrs s = (s2, inr a) ->
  captcha_passes verify_captcha_token request current_stage attrs
  /\ match password_stage current_stage with
     | None => pre_user s2 = Some u
     | Some ps =>
         exists au,
           authenticate request (backends ps) current_stage (username u)
             (password attrs) = inr (Some au)
           /\ pre_user s2 = Some au
     end.
Proof.
  intros Hget Hval.
  unfold validate in Hval. cbv zeta in Hval.
  unfold mbind at 1, M_bind at 1, bind at 1 in Hval. rewrite Hget in Hval.
  unfold captcha_passes.
  destruct (captcha_stage current_stage) as [c|] eqn:Hc;
    [destruct (verify_captcha_token c (captcha_token attrs)
                 (get_client_ip request)) as [e|] eqn:Hv|];
    (destruct (password_stage current_stage) as [ps|] eqn:Hp;
     [destruct (authenticate request (backends ps) current_stage (username u)
                  (password attrs)) as [[m|m|m]|[au|]] eqn:Ha|]);
    destruct (Py.truthy_opt (captcha_token attrs));
    destruct (Py.truthy_opt (password attrs));
    run_in Hval; rewrite ?Hv, ?Ha in Hval; simpl in Hval;
    try discriminate;
    injection Hval as <- <-; simpl;
    (split; [done|]); first [reflexivity | by exists au].
Qed.

Lemma slept_ms_app evs evs' :
  slept_ms (evs ++ evs') = slept_ms evs + slept_ms evs'.
Proof.
  induction evs as [|e evs IH]; simpl; [lia|].
  fold (slept_ms (evs ++ evs')). fold (slept_ms evs).
  rewrite IH. destruct e; lia.
Qed.

(** The events that [validate] adds when the lookup finds nobody. *)
Lemma validate_no_match_events attrs s :
  (get_user' (uid_field attrs) s).2 = inr None ->
  exists evs,
    events (validate' attrs s).1 =
      events s ++ evs ++ [EvSleep (30 * Py.randint 3 7 entropy); EvLog "info"
          "invalid_login";
                          EvIdentificationFailed (uid_field attrs)]
    /\ Forall (fun e => is_sleep e = false /\ is_verify_captcha e = false) evs
    /\ (user_fields current_stage = [] ->
        Forall (fun e => is_query e = false) evs).
Proof.
  intros Hnone.
  destruct (get_user_run (uid_field attrs) s) as (evs & r & Hrun & Hevs & Hq).
  rewrite Hrun in Hnone. simpl in Hnone. injection Hnone as ->.
  rewrite (validate_no_match _ _ _ Hrun). simpl.
  exists evs. rewrite <- app_assoc. split; [reflexivity|]. split; [exact Hevs|].
  intros Hnil. apply Hq, Hnil.
Qed.

(** C1 (as amended): with [show_matched_user] off and a matching
    identifier, a validated attempt leaves in the flow-plan context the raw
    identifier under the pending-user-identifier key and, next to it, a user
    object under the pending-user key: the matched user when no password
    stage is configured, and with a password stage the user that the
    backends returned for the matched user's name and the submitted
    password; no other key is written. *)
Theorem hidden_match_stores_identifier_and_user attrs s u s' r :
  show_matched_user current_stage = false ->
  PLAN_CONTEXT_PENDING_USER <> PLAN_CONTEXT_PENDING_USER_IDENTIFIER ->
  (get_user' (uid_field attrs) s).2 = inr (Some u) ->
  attempt collation PLAN_CONTEXT_PENDING_USER
      PLAN_CONTEXT_PENDING_USER_IDENTIFIER
    verify_captcha_token authenticate request current_stage users entropy
    attrs s = (s', inr r) ->
  plan_context s' !! PLAN_CONTEXT_PENDING_USER_IDENTIFIER
    = Some (VStr (uid_field attrs))
  /\ (exists fin,
        pre_user s' = Some fin
        /\ plan_context s' !! PLAN_CONTEXT_PENDING_USER = Some (VUser fin)
        /\ (password_stage current_stage = None -> fin = u)
        /\ (forall ps,
              password_stage current_stage = Some ps ->
              authenticate request (backends ps) current_stage (username u)
                (password attrs) = inr (Some fin)))
  /\ (forall k,
        k <> PLAN_CONTEXT_PENDING_USER ->
        k <> PLAN_CONTEXT_PENDING_USER_IDENTIFIER ->
        plan_context s' !! k = plan_context s !! k).
Proof.
  intros Hshow Hne Hsome Hrun.
  destruct (get_user' (uid_field attrs) s) as [s1 r1] eqn:Hget.
  simpl in Hsome. subst r1.
  destruct (validate_match attrs s s1 u Hget)
    as (evs & fin & Hst & Hfin & Hret & _ & _).
  pose proof (get_user_keeps (uid_field attrs) s) as [Hctx _].
  rewrite Hget in Hctx. simpl in Hctx.
  unfold attempt in Hrun.
  unfold mbind at 1, M_bind at 1, bind at 1 in Hrun.
  destruct (validate' attrs s) as [s2 [e|a]] eqn:Hval; [discriminate|].
  destruct (validate_match_returns attrs s s1 u s2 a Hget Hval) as [_ Hpre].
  simpl in Hst, Hret. specialize (Hret a eq_refl). subst a s2.
  simpl in Hpre.
  run_in Hrun. rewrite Hshow in Hrun. simpl in Hrun.
  injection Hrun as <- _. simpl.
  split; [by rewrite lookup_insert_eq|].
  split.
  - exists fin. split; [reflexivity|].
    split; [rewrite lookup_insert_ne by congruence; by rewrite
        lookup_insert_eq|].
    split; [exact Hfin|].
    intros ps Hps. rewrite Hps in Hpre.
    destruct Hpre as (au & Hauth & [= ->]). exact Hauth.
  - intros k Hk1 Hk2.
    rewrite !lookup_insert_ne by congruence. by rewrite Hctx.
Qed.

(** C2 (as amended): with a password stage configured and the captcha
    check passing, an identifier that matches nobody fails with
    ["Failed to authenticate."], and so does a matching identifier whose
    password the backends reject; a permission denial of the backends fails
    validation with the denial's own message. *)
Theorem wrong_password_same_failure_as_no_match ps attrs s u attrs0 s0 :
  password_stage current_stage = Some ps ->
  (get_user' (uid_field attrs) s).2 = inr (Some u) ->
  captcha_passes verify_captcha_token request current_stage attrs ->
  (get_user' (uid_field attrs0) s0).2 = inr None ->
  (validate' attrs0 s0).2 = inl (ValidationError "Failed to authenticate.")
  /\ match authenticate request (backends ps) current_stage (username u)
            (password attrs) with
     | inr None =>
         (validate' attrs s).2 = inl (ValidationError "Failed to authenticate.")
         /\ (validate' attrs s).2 = (validate' attrs0 s0).2
     | inl (PermissionDenied m) =>
         (validate' attrs s).2 = inl (ValidationError m)
     | _ => True
     end.
Proof.
  intros Hps Hsome Hcap Hnone.
  assert ((validate' attrs0 s0).2
          = inl (ValidationError "Failed to authenticate.")) as Hno.
  { destruct (get_user' (uid_field attrs0) s0) as [s1 r1] eqn:Hget.
    simpl in Hnone. subst r1.
    rewrite (validate_no_match _ _ _ Hget). simpl. rewrite Hps.
    rewrite bool_decide_eq_true_2 by eauto.
    by rewrite andb_false_r. }
  split; [exact Hno|].
  destruct (get_user' (uid_field attrs) s) as [s1 r1] eqn:Hget.
  simpl in Hsome. subst r1.
  destruct (validate_match attrs s s1 u Hget)
    as (evs & fin & _ & _ & _ & Hres & _).
  specialize (Hres Hcap). rewrite Hps in Hres.
  destruct (authenticate request (backends ps) current_stage (username u)
              (password attrs)) as [[m|m|m]|[au|]]; try exact I.
  - exact Hres.
  - split; [exact Hres|]. by rewrite Hres, Hno.
Qed.

(** The events of the no-match branch, whatever number is drawn. *)
Lemma validate_no_match_at e attrs s s1 :
  get_user' (uid_field attrs) s = (s1, inr None) ->
  events
    (validate collation PLAN_CONTEXT_PENDING_USER
       PLAN_CONTEXT_PENDING_USER_IDENTIFIER verify_captcha_token authenticate
       request current_stage users e attrs s).1
  = events s1 ++ [EvSleep (30 * Py.randint 3 7 e); EvLog "info" "invalid_login";
                  EvIdentificationFailed (uid_field attrs)].
Proof.
  intros Hget. unfold validate.
  cbv zeta. unfold mbind at 1, M_bind at 1, bind at 1. rewrite Hget.
  run. rewrite <- !app_assoc. simpl.
  destruct (show_matched_user current_stage); simpl;
    destruct (pretend_user_exists current_stage
              && negb (bool_decide (is_Some (password_stage current_stage))))%bool;
    reflexivity.
Qed.

(** The five outcomes of [randint(3, 7)], and nothing else. *)
Lemma randint_3_7 e : 3 <= Py.randint 3 7 e <= 7.
Proof.
  unfold Py.randint. change (7 - 3 + 1) with 5.
  pose proof (Z.mod_pos_bound e 5 ltac:(lia)). lia.
Qed.

(** Among five consecutive numbers drawn, exactly one gives the outcome
    [3 + r]. *)
Lemma randint_3_7_window k r :
  0 <= r < 5 ->
  exists j, 0 <= j < 5
    /\ forall j', 0 <= j' < 5 -> Py.randint 3 7 (k + j') = 3 + r <-> j' = j.
Proof.
  intros Hr. exists ((r - k) `mod` 5).
  split; [apply Z.mod_pos_bound; lia|].
  intros j' Hj'. unfold Py.randint.
  change (7 - 3 + 1) with 5.
  pose proof (Z.mod_pos_bound (r - k) 5 ltac:(lia)).
  pose proof (Z.mod_pos_bound (k + j') 5 ltac:(lia)).
  pose proof (Z.div_mod (r - k) 5 ltac:(lia)).
  pose proof (Z.div_mod (k + j') 5 ltac:(lia)).
  lia.
Qed.

Lemma slept_ms_no_sleep evs :
  Forall (fun e => is_sleep e = false) evs -> slept_ms evs = 0.
Proof.
  induction 1 as [|e l He _ IH]; [reflexivity|].
  simpl. fold (slept_ms l). rewrite IH. by destruct e.
Qed.

(** C3: when the identifier matches nobody, [validate] sleeps once, for
    30 ms times the outcome of [randint(3, 7)]: one of 90, 120, 150, 180 and
    210 ms, so that at least 90 ms and at most 210 ms are added to the time
    slept.  The choice is uniform: whatever five consecutive numbers the
    generator may draw, each of the five durations is slept for exactly one
    of them. *)
Theorem invalid_identifier_sleeps_90_to_210_ms attrs s :
  (get_user' (uid_field attrs) s).2 = inr None ->
  let slept e :=
    slept_ms
      (events
         (validate collation PLAN_CONTEXT_PENDING_USER
            PLAN_CONTEXT_PENDING_USER_IDENTIFIER verify_captcha_token
            authenticate request current_stage users e attrs s).1)
    - slept_ms (events s) in
  (exists before after d,
     events (validate' attrs s).1 = events s ++ before ++ EvSleep d :: after
     /\ Forall (fun e => is_sleep e = false) (before ++ after)
     /\ d = 30 * Py.randint 3 7 entropy
     /\ d ∈ [90; 120; 150; 180; 210]
     /\ (30 | d)
     /\ 90 <= d <= 210
     /\ slept entropy = d)
  /\ (forall e, slept e ∈ [90; 120; 150; 180; 210])
  /\ (forall k d,
        d ∈ [90; 120; 150; 180; 210] ->
        exists j, 0 <= j < 5
          /\ forall j', 0 <= j' < 5 -> slept (k + j') = d <-> j' = j).
Proof.
  intros Hnone slept.
  assert (forall e, slept e = 30 * Py.randint 3 7 e) as Hslept.
  { intros e. subst slept. cbv beta.
    destruct (get_user' (uid_field attrs) s) as [s1 r1] eqn:Hget.
    simpl in Hnone. subst r1.
    destruct (get_user_run (uid_field attrs) s) as (evs & r & Hrun & Hevs & _).
    rewrite Hget in Hrun. injection Hrun as -> <-.
    rewrite (validate_no_match_at e attrs s _ Hget). simpl.
    rewrite !slept_ms_app. simpl.
    rewrite (slept_ms_no_sleep evs); [lia|].
    eapply Forall_impl; [exact Hevs|]. by intros x [? _]. }
  assert (forall e, 30 * Py.randint 3 7 e ∈ [90; 120; 150; 180; 210]) as Hin.
  { intros e. pose proof (randint_3_7 e) as Hb.
    assert (Py.randint 3 7 e = 3 \/ Py.randint 3 7 e = 4
            \/ Py.randint 3 7 e = 5 \/ Py.randint 3 7 e = 6
            \/ Py.randint 3 7 e = 7) as Hcase by lia.
    rewrite !elem_of_cons. lia. }
  split; [|split].
  - destruct (validate_no_match_events attrs s Hnone) as (evs & Hev & Hevs & _).
    assert (Forall (fun e => is_sleep e = false) evs) as Hns.
    { eapply Forall_impl; [exact Hevs|]. by intros e [? _]. }
    exists evs, [EvLog "info" "invalid_login";
                 EvIdentificationFailed (uid_field attrs)],
      (30 * Py.randint 3 7 entropy).
    split; [exact Hev|].
    split. { apply Forall_app. split; [exact Hns|]. repeat constructor. }
    split; [reflexivity|].
    split; [apply Hin|].
    split. { exists (Py.randint 3 7 entropy). lia. }
    split; [pose proof (randint_3_7 entropy); lia|].
    apply Hslept.
  - intros e. rewrite Hslept. apply Hin.
  - intros k d Hd.
    assert (exists r, 0 <= r < 5 /\ d = 30 * (3 + r)) as (r & Hr & ->).
    { rewrite !elem_of_cons in Hd.
      destruct Hd as [->|[->|[->|[->|[->|Hd]]]]];
        [exists 0|exists 1|exists 2|exists 3|exists 4|by apply elem_of_nil in
            Hd];
        lia. }
    destruct (randint_3_7_window k r Hr) as (j & Hj & Huniq).
    exists j. split; [exact Hj|].
    intros j' Hj'. rewrite Hslept, <- (Huniq j' Hj'). lia.
Qed.

(** C9 (as amended): with no user field configured, [validate] issues no
    query against the user table; it logs the empty query, sleeps the delay
    of the no-match branch (30 ms times the outcome of [randint(3, 7)],
    between 90 and 210 ms), logs and signals the failed identification, and
    then raises ["Failed to authenticate."] -- unless the stage pretends
    that the user exists and has no password stage, in which case it returns
    the attributes. *)
Theorem empty_user_fields_no_lookup attrs s :
  user_fields current_stage = [] ->
  exists evs,
    events (validate' attrs s).1 = events s ++ evs
    /\ Forall (fun e => is_query e = false) evs
    /\ evs = [EvLog "debug" "Empty user query";
              EvSleep (30 * Py.randint 3 7 entropy);
              EvLog "info" "invalid_login";
              EvIdentificationFailed (uid_field attrs)]
    /\ 90 <= slept_ms evs <= 210
    /\ (validate' attrs s).2 =
         if (pretend_user_exists current_stage
             && negb (bool_decide (is_Some (password_stage current_stage))))%bool
         then inr attrs
         else inl (ValidationError "Failed to authenticate.").
Proof.
  intros Hnil.
  assert (get_user' (uid_field attrs) s =
            ({| plan_context := plan_context s; pre_user := pre_user s;
                events := events s ++ [EvLog "debug" "Empty user query"] |},
             inr None)) as Hrun.
  { unfold get_user, build_query. rewrite Hnil. reflexivity. }
  rewrite (validate_no_match _ _ _ Hrun). simpl.
  eexists. rewrite <- app_assoc. split; [reflexivity|].
  split; [repeat constructor|].
  split; [reflexivity|].
  split; [|reflexivity].
  simpl. pose proof (randint_3_7 entropy). lia.
Qed.

(** C10: when the identifier matches nobody, [validate] never calls the
    captcha verifier, whatever the captcha stage and the submitted token. *)
Theorem no_match_never_verifies_captcha attrs s :
  (get_user' (uid_field attrs) s).2 = inr None ->
  exists evs,
    events (validate' attrs s).1 = events s ++ evs
    /\ Forall (fun e => is_verify_captcha e = false) evs.
Proof.
  intros Hnone.
  destruct (validate_no_match_events attrs s Hnone) as (evs & Hev & Hevs & _).
  eexists. split; [exact Hev|].
  apply Forall_app. split; [|repeat constructor].
  eapply Forall_impl; [exact Hevs|]. by intros e [_ ?].
Qed.

(** The verifier is called only in the branch of a matched user. *)
Lemma verify_captcha_implies_match attrs s evs :
  events (validate' attrs s).1 = events s ++ evs ->
  Exists (fun e => is_verify_captcha e = true) evs ->
  exists u, (get_user' (uid_field attrs) s).2 = inr (Some u).
Proof.
  intros Hev Hex.
  destruct (get_user_run (uid_field attrs) s) as (evs0 & [u|] & Hrun & _).
  - exists u. by rewrite Hrun.
  - exfalso.
    assert ((get_user' (uid_field attrs) s).2 = inr None) as Hnone
      by (by rewrite Hrun).
    destruct (validate_no_match_events attrs s Hnone) as (evs1 & Hev1 & Hevs1 & _).
    rewrite Hev1 in Hev. apply app_inv_head in Hev. subst evs.
    apply Exists_app in Hex as [Hex|Hex].
    + apply Exists_exists in Hex as (e & Hin & He).
      rewrite Forall_forall in Hevs1. destruct (Hevs1 e Hin) as [_ Hf].
      congruence.
    + repeat (apply Exists_cons in Hex as [Hex|Hex]; [discriminate|]).
      by apply Exists_nil in Hex.
Qed.

(** With a captcha stage configured, a matched user does reach the
    verifier. *)
Lemma match_verifies_captcha attrs s u c :
  (get_user' (uid_field attrs) s).2 = inr (Some u) ->
  captcha_stage current_stage = Some c ->
  EvVerifyCaptcha (captcha_token attrs) (get_client_ip request)
    ∈ events (validate' attrs s).1.
Proof.
  intros Hsome Hc.
  destruct (get_user' (uid_field attrs) s) as [s1 r1] eqn:Hget.
  simpl in Hsome. subst r1.
  destruct (validate' attrs s) as [s' r] eqn:Hval. simpl.
  unfold validate in Hval. cbv zeta in Hval.
  unfold mbind at 1, M_bind at 1, bind at 1 in Hval. rewrite Hget in Hval.
  rewrite Hc in Hval.
  destruct (verify_captcha_token c (captcha_token attrs)
              (get_client_ip request)) as [e|] eqn:Hv;
    (destruct (password_stage current_stage) as [ps|];
     [destruct (authenticate request (backends ps) current_stage (username u)
                  (password attrs)) as [[m|m|m]|[au|]] eqn:Ha|]);
    destruct (Py.truthy_opt (captcha_token attrs));
    destruct (Py.truthy_opt (password attrs));
    run_in Hval; rewrite ?Hv, ?Ha in Hval; simpl in Hval;
    injection Hval as <- _; simpl; set_solver.
Qed.

End Properties.

(** *** Concrete runs *)

Import Samples LoginSamples.

(** C1, as stated, fails: with [show_matched_user] off and a matching
    identifier, the context after the attempt holds the resolved user
    object under the pending-user key. *)
Lemma hidden_match_context_holds_user_object :
  let s' := (attempt ascii_store PENDING_USER PENDING_USER_IDENTIFIER
      captcha_accepts
               backends_check a_request stage_hidden [alice] 5 alice_attrs
               initial).1 in
  show_matched_user stage_hidden = false
  /\ (get_user ascii_store stage_hidden [alice] (uid_field alice_attrs)
      initial).2
      = inr (Some alice)
  /\ plan_context s' !! PENDING_USER = Some (VUser alice)
  /\ ~ (forall k, plan_context s' !! k <> Some (VUser alice)).
Proof.
  repeat split; try (vm_compute; reflexivity).
  intros H. apply (H PENDING_USER). vm_compute. reflexivity.
Qed.

Lemma hidden_match_stores_identifier_and_user_witness :
  let s' := (attempt ascii_store PENDING_USER PENDING_USER_IDENTIFIER
               captcha_accepts backends_ldap a_request stage_hidden_password
               [alice] 5 alice_password initial).1 in
  show_matched_user stage_hidden_password = false
  /\ PENDING_USER <> PENDING_USER_IDENTIFIER
  /\ (get_user ascii_store stage_hidden_password [alice]
        (uid_field alice_password) initial).2
     = inr (Some alice)
  /\ attempt ascii_store PENDING_USER PENDING_USER_IDENTIFIER captcha_accepts
       backends_ldap a_request stage_hidden_password [alice] 5 alice_password
       initial
     = (s', inr tt)
  /\ plan_context s' !! PENDING_USER_IDENTIFIER = Some (VStr "alice")
  /\ (exists fin,
        pre_user s' = Some fin
        /\ plan_context s' !! PENDING_USER = Some (VUser fin)
        /\ (password_stage stage_hidden_password = None -> fin = alice)
        /\ (forall ps,
              password_stage stage_hidden_password = Some ps ->
              backends_ldap a_request (backends ps) stage_hidden_password
                (username alice) (password alice_password)
              = inr (Some fin)))
  /\ (forall k,
        k <> PENDING_USER -> k <> PENDING_USER_IDENTIFIER ->
        plan_context s' !! k = plan_context initial !! k).
Proof.
  intros s'.
  split; [reflexivity|]. split; [discriminate|].
  split; [vm_compute; reflexivity|]. split; [vm_compute; reflexivity|].
  apply (hidden_match_stores_identifier_and_user ascii_store PENDING_USER
           PENDING_USER_IDENTIFIER captcha_accepts backends_ldap a_request
           stage_hidden_password [alice] 5 alice_password initial alice s' tt).
  - reflexivity.
  - discriminate.
  - vm_compute. reflexivity.
  - vm_compute. reflexivity.
Defined.

(** The user object that this run stores is the one the backends returned,
    not the matched one. *)
Example hidden_match_stores_backend_user :
  plan_context
    (attempt ascii_store PENDING_USER PENDING_USER_IDENTIFIER captcha_accepts
       backends_ldap a_request stage_hidden_password [alice] 5 alice_password
       initial).1
  = {[ PENDING_USER := VUser alice_ldap;
       PENDING_USER_IDENTIFIER := VStr "alice" ]}.
Proof. vm_compute. reflexivity. Qed.

(** C2, as stated, fails twice: a permission denial of the backends is
    reported with its own message, and with a rejecting captcha an existing
    identifier fails with the captcha's message; an unknown identifier gets
    ["Failed to authenticate."] in both configurations. *)
Lemma permission_denied_message_differs :
  let run auth captcha stage attrs :=
    (validate ascii_store PENDING_USER PENDING_USER_IDENTIFIER captcha auth
        a_request
       stage [alice] 5 attrs initial).2 in
  run backends_deny captcha_accepts stage_password alice_wrong_password
    = inl (ValidationError "Account locked")
  /\ run backends_deny captcha_accepts stage_password mallory_attrs
     = inl (ValidationError "Failed to authenticate.")
  /\ run backends_check captcha_rejects stage_password_captcha
       alice_wrong_password
     = inl (ValidationError "Invalid captcha response")
  /\ run backends_check captcha_rejects stage_password_captcha mallory_attrs
     = inl (ValidationError "Failed to authenticate.")
  /\ ~ (forall auth captcha stage,
          is_Some (password_stage stage) ->
          run auth captcha stage alice_wrong_password
          = run auth captcha stage mallory_attrs).
Proof.
  repeat split; try (vm_compute; reflexivity).
  intros H.
  specialize (H backends_deny captcha_accepts stage_password (mk_is_Some _ _ eq_refl)).
  vm_compute in H. discriminate.
Qed.

Lemma wrong_password_same_failure_as_no_match_witness :
  let run attrs :=
    (validate ascii_store PENDING_USER PENDING_USER_IDENTIFIER captcha_accepts
       backends_check a_request stage_password [alice] 5 attrs initial).2 in
  password_stage stage_password = Some inbuilt
  /\ (get_user ascii_store stage_password [alice] (uid_field
      alice_wrong_password)
        initial).2 = inr (Some alice)
  /\ captcha_passes captcha_accepts a_request stage_password
       alice_wrong_password
  /\ (get_user ascii_store stage_password [alice] (uid_field mallory_attrs)
      initial).2
     = inr None
  /\ run mallory_attrs = inl (ValidationError "Failed to authenticate.")
  /\ run alice_wrong_password = inl (ValidationError "Failed to authenticate.")
  /\ run alice_wrong_password = run mallory_attrs.
Proof.
  intros run.
  split; [reflexivity|]. split; [vm_compute; reflexivity|].
  split; [exact I|]. split; [vm_compute; reflexivity|].
  apply (wrong_password_same_failure_as_no_match ascii_store PENDING_USER
           PENDING_USER_IDENTIFIER captcha_accepts backends_check
           a_request stage_password [alice] 5 inbuilt
           alice_wrong_password initial alice mallory_attrs initial).
  - reflexivity.
  - vm_compute. reflexivity.
  - exact I.
  - vm_compute. reflexivity.
Defined.

Lemma invalid_identifier_sleeps_90_to_210_ms_witness :
  let run e :=
    validate ascii_store PENDING_USER PENDING_USER_IDENTIFIER captcha_accepts
      backends_check a_request stage_password [alice] e mallory_attrs initial in
  let slept e := slept_ms (events (run e).1) - slept_ms (events initial) in
  (get_user ascii_store stage_password [alice] (uid_field mallory_attrs)
     initial).2 = inr None
  /\ (exists before after d,
        events (run 2026).1 = events initial ++ before ++ EvSleep d :: after
        /\ Forall (fun e => is_sleep e = false) (before ++ after)
        /\ d = 30 * Py.randint 3 7 2026
        /\ d ∈ [90; 120; 150; 180; 210]
        /\ (30 | d)
        /\ 90 <= d <= 210
        /\ slept 2026 = d)
  /\ (forall e, slept e ∈ [90; 120; 150; 180; 210])
  /\ (forall k d,
        d ∈ [90; 120; 150; 180; 210] ->
        exists j, 0 <= j < 5
          /\ forall j', 0 <= j' < 5 -> slept (k + j') = d <-> j' = j).
Proof.
  intros run slept.
  split; [vm_compute; reflexivity|].
  apply (invalid_identifier_sleeps_90_to_210_ms ascii_store PENDING_USER
           PENDING_USER_IDENTIFIER captcha_accepts backends_check a_request
           stage_password [alice] 2026 mallory_attrs initial).
  vm_compute. reflexivity.
Defined.

(** The five durations, for five consecutive numbers drawn. *)
Example five_draws_five_durations :
  List.map
    (fun e =>
       events
         (validate ascii_store PENDING_USER PENDING_USER_IDENTIFIER
            captcha_accepts backends_check a_request stage_hidden [alice] e
            mallory_attrs initial).1)
    [2025; 2026; 2027; 2028; 2029]
  = List.map
      (fun d => [EvQuery [("username__exact", "mallory")]; EvSleep d;
                 EvLog "info" "invalid_login"; EvIdentificationFailed
                     "mallory"])
      [90; 120; 150; 180; 210].
Proof. vm_compute. reflexivity. Qed.

(** C9, as stated, fails: with no user field, a stage that pretends the
    user exists and has no password stage accepts the identifier. *)
Lemma empty_user_fields_pretend_accepts :
  user_fields stage_no_fields_pretend = []
  /\ (validate ascii_store PENDING_USER PENDING_USER_IDENTIFIER captcha_accepts
        backends_check a_request stage_no_fields_pretend [alice] 3
        mallory_attrs initial).2 = inr mallory_attrs.
Proof. split; vm_compute; reflexivity. Qed.

Lemma empty_user_fields_no_lookup_witness :
  user_fields stage_no_fields_pretend = []
  /\ exists evs,
    events (validate ascii_store PENDING_USER PENDING_USER_IDENTIFIER
              captcha_accepts backends_check a_request stage_no_fields_pretend
              [alice] 3 mallory_attrs initial).1 = events initial ++ evs
    /\ Forall (fun e => is_query e = false) evs
    /\ evs = [EvLog "debug" "Empty user query";
              EvSleep (30 * Py.randint 3 7 3);
              EvLog "info" "invalid_login";
              EvIdentificationFailed (uid_field mallory_attrs)]
    /\ 90 <= slept_ms evs <= 210
    /\ (validate ascii_store PENDING_USER PENDING_USER_IDENTIFIER
          captcha_accepts backends_check a_request stage_no_fields_pretend
          [alice] 3 mallory_attrs initial).2 = inr mallory_attrs.
Proof.
  split; [reflexivity|].
  apply (empty_user_fields_no_lookup ascii_store PENDING_USER
           PENDING_USER_IDENTIFIER captcha_accepts backends_check a_request
           stage_no_fields_pretend [alice] 3 mallory_attrs initial).
  reflexivity.
Defined.

(** Without the pretence the same stage rejects, after the delay. *)
Example empty_user_fields_rejects_after_delay :
  let out :=
    validate ascii_store PENDING_USER PENDING_USER_IDENTIFIER captcha_accepts
      backends_check a_request
      {| user_fields := []; case_insensitive_matching := false;
         show_matched_user := true; pretend_user_exists := false;
         password_stage := None; captcha_stage := None |}
      [alice] 3 mallory_attrs initial in
  out.2 = inl (ValidationError "Failed to authenticate.")
  /\ events out.1 = [EvLog "debug" "Empty user query"; EvSleep 180;
                     EvLog "info" "invalid_login";
                     EvIdentificationFailed "mallory"].
Proof. vm_compute. by split. Qed.

Lemma no_match_never_verifies_captcha_witness :
  captcha_stage stage_captcha = Some a_captcha
  /\ captcha_token mallory_attrs = Some "token"
  /\ (get_user ascii_store stage_captcha [alice] (uid_field mallory_attrs)
      initial).2
     = inr None
  /\ exists evs,
    events (validate ascii_store PENDING_USER PENDING_USER_IDENTIFIER
        captcha_rejects
              backends_check a_request stage_captcha [alice] 7 mallory_attrs
              initial).1 = events initial ++ evs
    /\ Forall (fun e => is_verify_captcha e = false) evs.
Proof.
  split; [reflexivity|]. split; [reflexivity|].
  split; [vm_compute; reflexivity|].
  apply (no_match_never_verifies_captcha ascii_store PENDING_USER
      PENDING_USER_IDENTIFIER
           captcha_rejects backends_check a_request stage_captcha [alice] 7
           mallory_attrs initial).
  vm_compute. reflexivity.
Defined.

(** The same stage does call the verifier for alice. *)
Example alice_reaches_captcha :
  events (validate ascii_store PENDING_USER PENDING_USER_IDENTIFIER
      captcha_rejects
            backends_check a_request stage_captcha [alice] 7 alice_attrs
            initial).1
  = [EvQuery [("username__exact", "alice")]; EvLog "debug" "Found user";
     EvLog "warning" "Token not set for captcha attempt";
     EvVerifyCaptcha None "203.0.113.7"].
Proof. vm_compute. reflexivity. Qed.

End IdentificationSpec.


(** ** Properties of the blueprint tasks *)

Module BlueprintsSpec.
Import Eff Blueprints.

(** *** Letter case *)

Lemma ascii_lower_eq_iff (c x : ascii) :
  Py.is_lower_letter c = true ->
  Py.ascii_lower x = c <-> x = c \/ x = Py.ascii_upper c.
Proof.
  unfold Py.is_lower_letter, Py.ascii_lower, Py.ascii_upper.
  intros Hc. rewrite Hc.
  apply andb_true_iff in Hc as [Hc1 Hc2].
  apply Nat.leb_le in Hc1, Hc2.
  pose proof (nat_ascii_bounded x) as Hx.
  destruct (65 <=? nat_of_ascii x)%nat eqn:E1;
    destruct (nat_of_ascii x <=? 90)%nat eqn:E2; simpl;
    try apply Nat.leb_le in E1; try apply Nat.leb_le in E2;
    try apply Nat.leb_gt in E1; try apply Nat.leb_gt in E2.
  - split.
    + intros H. right.
      apply (f_equal nat_of_ascii) in H.
      rewrite nat_ascii_embedding in H by lia.
      rewrite <- (ascii_nat_embedding x). f_equal. lia.
    + intros [->| ->]; [lia|].
      rewrite nat_ascii_embedding by lia.
      replace (nat_of_ascii c - 32 + 32)%nat with (nat_of_ascii c) by lia.
      apply ascii_nat_embedding.
  - split; [by left|]. intros [->| ->]; [done|].
    rewrite nat_ascii_embedding in E2 by lia. lia.
  - split; [by left|]. intros [->| ->]; [done|].
    rewrite nat_ascii_embedding in E1 by lia. lia.
  - split; [by left|]. intros [->| ->]; [done|].
    rewrite nat_ascii_embedding in E1 by lia. lia.
Qed.

(** [v.lower() == t], for [t] in lower-case letters, says that [v] is [t]
    up to letter case. *)
Lemma lower_eq_iff (t : string) :
  Py.all_lower_letters t = true ->
  forall v, Py.lower v = t <-> Py.equal_ignoring_case t v.
Proof.
  induction t as [|c t IH]; intros Ht v.
  - destruct v; simpl; [done|]. split; [discriminate|done].
  - simpl in Ht. apply andb_true_iff in Ht as [Hc Ht].
    destruct v as [|x v]; simpl; [split; [discriminate|done]|].
    rewrite <- (IH Ht v), <- (ascii_lower_eq_iff c x Hc).
    split; [by intros [= -> ->] | by intros [-> ->]].
Qed.

Lemma lower_false_iff v :
  Py.lower v = "false" <-> Py.equal_ignoring_case "false" v.
Proof. by apply lower_eq_iff. Qed.

(** *** The instance table *)

Lemma by_pk_Some k tbl i : by_pk k tbl = Some i -> pk i = k /\ i ∈ tbl.
Proof.
  unfold by_pk. intros H. apply find_some in H as [Hin Heq].
  split; [by apply String.eqb_eq | by apply list_elem_of_In].
Qed.

Lemma by_pk_db_save i tbl : by_pk (pk i) (db_save i tbl) = Some i.
Proof.
  unfold by_pk. induction tbl as [|j tbl IH]; simpl.
  - by rewrite String.eqb_refl.
  - destruct (String.eqb (pk j) (pk i)) eqn:E; simpl.
    + by rewrite String.eqb_refl.
    + by rewrite E.
Qed.

Lemma by_pk_db_save_ne k i tbl :
  k <> pk i -> by_pk k (db_save i tbl) = by_pk k tbl.
Proof.
  intros Hne. unfold by_pk. induction tbl as [|j tbl IH]; simpl.
  - destruct (String.eqb_spec (pk i) k); congruence.
  - destruct (String.eqb_spec (pk j) (pk i)) as [E|E]; simpl.
    + destruct (String.eqb_spec (pk i) k); [congruence|].
      destruct (String.eqb_spec (pk j) k); congruence.
    + destruct (String.eqb_spec (pk j) k); congruence.
Qed.

(** Saving a row as it was read leaves the table as it is. *)
Lemma db_save_unchanged k i tbl : by_pk k tbl = Some i -> db_save i tbl = tbl.
Proof.
  unfold by_pk. induction tbl as [|j tbl IH]; simpl; [discriminate|].
  destruct (String.eqb_spec (pk j) k) as [E|E].
  - intros [= ->]. by rewrite String.eqb_refl.
  - intros H. pose proof (by_pk_Some k tbl i H) as [Hk _].
    destruct (String.eqb_spec (pk j) (pk i)); [congruence|].
    by rewrite IH.
Qed.

Lemma db_save_elem i tbl : i ∈ db_save i tbl.
Proof.
  induction tbl as [|j tbl IH]; simpl; [set_solver|].
  destruct (String.eqb (pk j) (pk i)); set_solver.
Qed.

Ltac run :=
  unfold apply_blueprint, apply_blueprint_local, apply_blueprint_except,
    save_instance, update_instance, set_instance, of_outcome, lift, save,
    delay, report, draw_pk, db_call, try_finally, try_except, mbind, M_bind,
    mret, M_ret, bind, ret, raise, when, modify, get;
  simpl.

Ltac run_in H :=
  unfold apply_blueprint, apply_blueprint_local, apply_blueprint_except,
    save_instance, update_instance, set_instance, of_outcome, lift, save,
    delay, report, draw_pk, db_call, try_finally, try_except, mbind, M_bind,
    mret, M_ret, bind, ret, raise, when, modify, get in H;
  simpl in H.

Section Apply.
Variable sha512_hexdigest : string -> string.
Variable slugify : string -> string.

Abbreviation apply_blueprint' := (apply_blueprint sha512_hexdigest slugify).
Abbreviation apply_blueprint_try' := (apply_blueprint_try sha512_hexdigest slugify).

(** [apply_blueprint] is its [try] block under the [except] clause, followed
    by the [finally] block. *)
Lemma apply_blueprint_unfold env instance_pk w :
  apply_blueprint' env instance_pk w =
    match try_finally
            (try_except (apply_blueprint_try' env instance_pk)
               (apply_blueprint_except))
            (save_instance env OpSaveFinally) (entered w) with
    | (f, r) => (world f, r)
    end.
Proof. reflexivity. Qed.


Lemma try_disabled env instance_pk w i :
  db_fault env OpFilterPk = None ->
  by_pk instance_pk (objects w) = Some i ->
  enabled i = false ->
  apply_blueprint_try' env instance_pk (entered w) =
    ({| world := world (entered w); instance := Some i |}, inr tt).
Proof.
  intros Hdb Hsome Hen. unfold apply_blueprint_try. run. rewrite Hdb. simpl.
  rewrite Hsome, Hen. reflexivity.
Qed.

(** The frame after a run that goes through. *)
Lemma try_succeeds env instance_pk w i content :
  by_pk instance_pk (objects w) = Some i ->
  enabled i = true ->
  apply_succeeds env i content ->
  exists m logs,
    apply_blueprint_try' env instance_pk (entered w) =
      ({| world :=
            with_task
              {| save_on_success := false;
                 reports := reports (task w)
                            ++ [SetUid (slugify (name i)); SetStatus TS_SUCCESSFUL logs] |}
              w;
          instance :=
            Some (with_last_applied (sha512_hexdigest content) (now env)
                    (with_status SUCCESSFUL (with_metadata m i))) |},
       inr tt)
    /\ logs = [].
Proof.
  intros Hsome Hen (Hdb & _ & Hret & imp & logs & logs' & Himp & Hval & Happ).
  unfold apply_blueprint_try. run. rewrite Hdb. simpl.
  rewrite Hsome, Hen. simpl. rewrite Hret. simpl. rewrite Himp. simpl.
  destruct (blueprint_metadata imp) as [m|]; simpl; rewrite Hval; simpl;
    rewrite Happ; simpl.
  - exists (Some m), []. rewrite <- app_assoc. split; reflexivity.
  - exists (metadata i), []. rewrite <- app_assoc. split; [|reflexivity].
    by destruct i.
Qed.

(** A run that goes through writes the new digest and [SUCCESSFUL]. *)
Lemma apply_blueprint_success env instance_pk w i content :
  by_pk instance_pk (objects w) = Some i ->
  enabled i = true ->
  apply_succeeds env i content ->
  exists i',
    (apply_blueprint' env instance_pk w).2 = inr tt
    /\ by_pk instance_pk (objects (apply_blueprint' env instance_pk w).1)
       = Some i'
    /\ status i' = SUCCESSFUL
    /\ last_applied_hash i' = sha512_hexdigest content
    /\ last_applied i' = Some (now env)
    /\ enabled i' = true.
Proof.
  intros Hsome Hen Hok.
  destruct (try_succeeds env instance_pk w i content Hsome Hen Hok)
    as (m & logs & Htry & _).
  destruct Hok as (_ & Hfin & _).
  pose proof (by_pk_Some _ _ _ Hsome) as [Hpk _].
  eexists. rewrite apply_blueprint_unfold.
  unfold try_finally, try_except. rewrite Htry.
  run. rewrite Hfin. simpl.
  split; [reflexivity|].
  split.
  { rewrite <- Hpk.
    exact (by_pk_db_save
             (with_last_applied (sha512_hexdigest content) (now env)
                (with_status SUCCESSFUL (with_metadata m i))) (objects w)). }
  by repeat split.
Qed.

(** C4: a second run on content of the same digest, after a first run that
    went through, leaves [last_applied_hash] as the first run wrote it and
    the status [SUCCESSFUL]. *)
Theorem reapply_unchanged_keeps_hash_and_status
  env1 env2 instance_pk w i content1 i1 content2 :
  by_pk instance_pk (objects w) = Some i ->
  enabled i = true ->
  apply_succeeds env1 i content1 ->
  let w1 := (apply_blueprint' env1 instance_pk w).1 in
  by_pk instance_pk (objects w1) = Some i1 ->
  apply_succeeds env2 i1 content2 ->
  sha512_hexdigest content2 = sha512_hexdigest content1 ->
  let w2 := (apply_blueprint' env2 instance_pk w1).1 in
  status i1 = SUCCESSFUL
  /\ last_applied_hash i1 = sha512_hexdigest content1
  /\ (apply_blueprint' env2 instance_pk w1).2 = inr tt
  /\ exists i2,
       by_pk instance_pk (objects w2) = Some i2
       /\ status i2 = SUCCESSFUL
       /\ last_applied_hash i2 = last_applied_hash i1.
Proof.
  intros Hsome Hen Hok1 w1 Hsome1 Hok2 Hdigest w2.
  destruct (apply_blueprint_success env1 instance_pk w i content1 Hsome Hen Hok1)
    as (i1' & _ & Hby1 & Hst1 & Hh1 & _ & Hen1).
  fold w1 in Hby1. rewrite Hsome1 in Hby1. injection Hby1 as <-.
  destruct (apply_blueprint_success env2 instance_pk w1 i1 content2 Hsome1 Hen1 Hok2)
    as (i2 & Hr2 & Hby2 & Hst2 & Hh2 & _ & _).
  split; [exact Hst1|]. split; [exact Hh1|]. split; [exact Hr2|].
  exists i2. split; [exact Hby2|]. split; [exact Hst2|]. congruence.
Qed.




(** Retrieval fails with a recognized exception: the row gets status
    [ERROR], the exception is reported and not propagated. *)
Lemma retrieval_failure_is_recorded env instance_pk w i e :
  db_fault env OpFilterPk = None ->
  db_fault env OpSaveFinally = None ->
  by_pk instance_pk (objects w) = Some i ->
  enabled i = true ->
  retrieve env i = inl e ->
  recognized e = true ->
  let out := apply_blueprint' env instance_pk w in
  out.2 = inr tt
  /\ by_pk instance_pk (objects out.1) = Some (with_status ERROR i)
  /\ reports (task out.1)
     = reports (task w) ++ [SetUid (slugify (name i)); SetError e].
Proof.
  intros Hdb Hfin Hsome Hen Hret Hrec out. subst out.
  pose proof (by_pk_Some _ _ _ Hsome) as [Hpk _].
  rewrite apply_blueprint_unfold.
  unfold try_finally, try_except, apply_blueprint_try, apply_blueprint_except.
  run. rewrite Hdb. simpl. rewrite Hsome, Hen. simpl. rewrite Hret. simpl.
  rewrite Hrec. simpl. rewrite Hfin. simpl. rewrite <- app_assoc.
  split; [reflexivity|]. split; [|reflexivity].
  rewrite <- Hpk. exact (by_pk_db_save (with_status ERROR i) (objects w)).
Qed.

(** An exception outside the recognized classes propagates; the [finally]
    block still writes the row, as it was read. *)
Lemma unrecognized_exception_propagates env instance_pk w i e :
  db_fault env OpFilterPk = None ->
  db_fault env OpSaveFinally = None ->
  by_pk instance_pk (objects w) = Some i ->
  enabled i = true ->
  retrieve env i = inl e ->
  recognized e = false ->
  let out := apply_blueprint' env instance_pk w in
  out.2 = inl e
  /\ objects out.1 = objects w
  /\ reports (task out.1) = reports (task w) ++ [SetUid (slugify (name i))].
Proof.
  intros Hdb Hfin Hsome Hen Hret Hrec out. subst out.
  rewrite apply_blueprint_unfold.
  unfold try_finally, try_except, apply_blueprint_try, apply_blueprint_except.
  run. rewrite Hdb. simpl. rewrite Hsome, Hen. simpl. rewrite Hret. simpl.
  rewrite Hrec. simpl. rewrite Hfin. simpl.
  rewrite (db_save_unchanged _ _ _ Hsome). by repeat split.
Qed.

(** When the write of the [finally] block fails, its exception leaves the
    task, whatever happened before. *)
Lemma failing_final_save_propagates env instance_pk w i e :
  db_fault env OpFilterPk = None ->
  db_fault env OpSaveFinally = Some e ->
  by_pk instance_pk (objects w) = Some i ->
  enabled i = false ->
  (apply_blueprint' env instance_pk w).2 = inl e.
Proof.
  intros Hdb Hfin Hsome Hen.
  rewrite apply_blueprint_unfold. unfold try_finally, try_except.
  rewrite (try_disabled env instance_pk w i Hdb Hsome Hen).
  run. by rewrite Hfin.
Qed.

End Apply.

(** *** Reconciliation *)

Section Reconcile.
Variable LABEL_AUTHENTIK_INSTANTIATE : string.
Variable env : Collaborators.

Abbreviation check_blueprint_v1_file' :=
  (check_blueprint_v1_file LABEL_AUTHENTIK_INSTANTIATE env).

(** C7: a descriptor whose [instantiate] label is ["false"] in any letter
    case leaves the world as it is: no instance is created and nothing is
    queued, whether or not an instance for its path exists. *)
Theorem instantiate_false_is_skipped blueprint m v w :
  meta blueprint = Some m ->
  labels m !! LABEL_AUTHENTIK_INSTANTIATE = Some v ->
  Py.equal_ignoring_case "false" v ->
  (check_blueprint_v1_file' blueprint w).1 = w
  /\ (db_fault env OpFilterPath = None ->
      (check_blueprint_v1_file' blueprint w).2 = inr tt).
Proof.
  intros Hmeta Hlabel Hlower. apply lower_false_iff in Hlower.
  assert (instantiate_false LABEL_AUTHENTIK_INSTANTIATE blueprint = true) as Hskip.
  { unfold instantiate_false. rewrite Hmeta, Hlabel. simpl.
    by apply bool_decide_eq_true_2. }
  unfold check_blueprint_v1_file. run.
  destruct (db_fault env OpFilterPath); simpl; [done|].
  rewrite Hskip. simpl. done.
Qed.

(** C6 (as amended): for a descriptor that is not marked
    [instantiate: false], with the store answering, the check queues one
    apply for the instance of the descriptor's path (the stored one, or the
    one it creates) when that instance's [last_applied_hash] differs from
    the descriptor's digest, and none when they are equal. *)
Theorem changed_hash_schedules_one_apply blueprint w :
  instantiate_false LABEL_AUTHENTIK_INSTANTIATE blueprint = false ->
  db_fault env OpFilterPath = None ->
  db_fault env OpSaveCreated = None ->
  let out := check_blueprint_v1_file' blueprint w in
  let inst := match by_path (path blueprint) (objects w) with
              | Some i => i
              | None => new_instance (uuid4 env (uuid_draws w)) blueprint
              end in
  out.2 = inr tt
  /\ inst ∈ objects out.1
  /\ queue out.1 =
       queue w ++ (if bool_decide (last_applied_hash inst = hash blueprint)
                   then [] else [pk inst]).
Proof.
  intros Hskip Hdb1 Hdb2 out inst. subst out inst.
  unfold check_blueprint_v1_file. run. rewrite Hdb1. simpl.
  rewrite Hskip.
  destruct (by_path (path blueprint) (objects w)) as [i|] eqn:Hfind; simpl.
  - assert (i ∈ objects w) as Hin.
    { unfold by_path in Hfind. apply find_some in Hfind as [Hin _].
      by apply list_elem_of_In. }
    case_bool_decide; simpl; rewrite ?app_nil_r; by repeat split.
  - rewrite Hdb2. simpl.
    pose proof (db_save_elem (new_instance (uuid4 env (uuid_draws w)) blueprint)
                  (objects w)) as Hin.
    case_bool_decide; simpl; rewrite ?app_nil_r; by repeat split.
Qed.

(** **** A whole pass *)

Hypothesis store_answers :
  db_fault env OpFilterPath = None /\ db_fault env OpSaveCreated = None.
Hypothesis uuid4_inj : Inj (=) (=) (uuid4 env).

Lemma by_path_Some p tbl i :
  by_path p tbl = Some i -> instance_path i = p /\ i ∈ tbl.
Proof.
  unfold by_path. intros H. apply find_some in H as [Hin Heq].
  split; [by apply String.eqb_eq | by apply list_elem_of_In].
Qed.

Lemma by_path_app p tbl i :
  by_path p (tbl ++ [i]) =
    match by_path p tbl with
    | Some j => Some j
    | None => if String.eqb (instance_path i) p then Some i else None
    end.
Proof.
  unfold by_path. induction tbl as [|j tbl IH]; simpl; [done|].
  by destruct (String.eqb (instance_path j) p).
Qed.

Lemma db_save_fresh i tbl : pk i ∉ pk <$> tbl -> db_save i tbl = tbl ++ [i].
Proof.
  induction tbl as [|j tbl IH]; simpl; [done|].
  intros Hnot. apply not_elem_of_cons in Hnot as [Hne Hnot].
  destruct (String.eqb_spec (pk j) (pk i)); [congruence|].
  by rewrite IH.
Qed.

Lemma pk_determines_row tbl i j :
  NoDup (pk <$> tbl) -> i ∈ tbl -> j ∈ tbl -> pk i = pk j -> i = j.
Proof.
  induction tbl as [|x tbl IH]; simpl; intros Hnd Hi Hj Hpk.
  - by apply elem_of_nil in Hi.
  - apply NoDup_cons in Hnd as [Hx Hnd].
    apply elem_of_cons in Hi as [->|Hi]; apply elem_of_cons in Hj as [->|Hj].
    + reflexivity.
    + exfalso. apply Hx. rewrite Hpk. by apply list_elem_of_fmap_2.
    + exfalso. apply Hx. rewrite <- Hpk. by apply list_elem_of_fmap_2.
    + by apply IH.
Qed.

Lemma filter_none (k : string) (msgs : list string) :
  k ∉ msgs -> length (filter (fun m => m = k) msgs) = 0%nat.
Proof.
  induction msgs as [|m msgs IH]; [done|].
  intros Hnot. apply not_elem_of_cons in Hnot as [Hne Hnot].
  rewrite filter_cons_False by congruence. by apply IH.
Qed.

(** One descriptor, with the table's keys in order. *)
Lemma check_blueprint_v1_file_run blueprint w :
  keys_ok env w ->
  exists w' msgs,
    check_blueprint_v1_file' blueprint w = (w', inr tt)
    /\ queue w' = queue w ++ msgs
    /\ keys_ok env w'
    /\ (forall p i, by_path p (objects w) = Some i ->
                   by_path p (objects w') = Some i)
    /\ (forall i, i ∈ objects w -> i ∈ objects w')
    /\ (instantiate_false LABEL_AUTHENTIK_INSTANTIATE blueprint = true ->
        msgs = [])
    /\ (instantiate_false LABEL_AUTHENTIK_INSTANTIATE blueprint = false ->
        exists inst,
          by_path (path blueprint) (objects w') = Some inst
          /\ msgs = if bool_decide (last_applied_hash inst = hash blueprint)
                    then [] else [pk inst]).
Proof.
  intros [Hnd Hfresh]. destruct store_answers as [Hdb1 Hdb2].
  unfold check_blueprint_v1_file. run. rewrite Hdb1. simpl.
  destruct (instantiate_false LABEL_AUTHENTIK_INSTANTIATE blueprint) eqn:Hskip.
  { exists w, []. rewrite app_nil_r. by do 6 (split; [done|]). }
  destruct (by_path (path blueprint) (objects w)) as [i|] eqn:Hfind; simpl.
  - case_bool_decide as Hh; simpl.
    + exists w, []. rewrite app_nil_r.
      do 6 (split; [done|]).
      intros _. exists i. by rewrite bool_decide_eq_true_2.
    + eexists _, [pk i].
      do 6 (split; [done|]).
      intros _. exists i. by rewrite bool_decide_eq_false_2.
  - rewrite Hdb2. simpl.
    set (i := new_instance (uuid4 env (uuid_draws w)) blueprint).
    assert (pk i ∉ pk <$> objects w) as Hnew by (apply Hfresh; lia).
    rewrite (db_save_fresh i (objects w) Hnew).
    assert (by_path (path blueprint) (objects w ++ [i]) = Some i) as Hby.
    { rewrite by_path_app, Hfind. simpl. by rewrite String.eqb_refl. }
    assert (NoDup (pk <$> objects w ++ [i])
            /\ forall n, (S (uuid_draws w) <= n)%nat ->
                         uuid4 env n ∉ pk <$> objects w ++ [i]) as Hkeys.
    { rewrite fmap_app. simpl. split.
      - apply NoDup_app. split; [exact Hnd|]. split.
        + intros x Hx Hx'. apply list_elem_of_singleton in Hx'. by subst x.
        + apply NoDup_singleton.
      - intros n Hn Hin. apply elem_of_app in Hin as [Hin|Hin].
        + apply (Hfresh n); [lia | exact Hin].
        + apply list_elem_of_singleton in Hin. apply uuid4_inj in Hin. lia. }
    assert (forall p j, by_path p (objects w) = Some j ->
                        by_path p (objects w ++ [i]) = Some j) as Hkeep.
    { intros p j Hj. by rewrite by_path_app, Hj. }
    assert (forall j, j ∈ objects w -> j ∈ objects w ++ [i]) as Hsub.
    { intros j Hj. apply elem_of_app. by left. }
    case_bool_decide as Hh; simpl.
    + eexists _, []. rewrite app_nil_r.
      split; [reflexivity|]. split; [reflexivity|]. split; [exact Hkeys|].
      split; [exact Hkeep|]. split; [exact Hsub|]. split; [done|].
      intros _. exists i. split; [exact Hby|]. by rewrite bool_decide_eq_true_2.
    + eexists _, [pk i].
      split; [reflexivity|]. split; [reflexivity|]. split; [exact Hkeys|].
      split; [exact Hkeep|]. split; [exact Hsub|]. split; [done|].
      intros _. exists i. split; [exact Hby|]. by rewrite bool_decide_eq_false_2.
Qed.

(** The loop of [blueprints_discovery] without a path filter. *)
Lemma blueprints_discovery_loop_run blueprints :
  forall w count,
    keys_ok env w ->
    NoDup (path <$> blueprints) ->
    exists w' msgs,
      blueprints_discovery_loop LABEL_AUTHENTIK_INSTANTIATE env None
        blueprints count w
      = (w', inr (count + Z.of_nat (length blueprints)))
      /\ queue w' = queue w ++ msgs
      /\ keys_ok env w'
      /\ (forall p i, by_path p (objects w) = Some i ->
                     by_path p (objects w') = Some i)
      /\ (forall i, i ∈ objects w -> i ∈ objects w')
      /\ (forall m, m ∈ msgs ->
            exists b i, b ∈ blueprints
                        /\ by_path (path b) (objects w') = Some i /\ m = pk i)
      /\ (forall b,
            b ∈ blueprints ->
            instantiate_false LABEL_AUTHENTIK_INSTANTIATE b = false ->
            exists inst,
              by_path (path b) (objects w') = Some inst
              /\ length (filter (fun m => m = pk inst) msgs)
                 = if bool_decide (last_applied_hash inst = hash b)
                   then 0%nat else 1%nat).
Proof.
  induction blueprints as [|b0 bs IH]; intros w count Hkeys Hnd.
  - exists w, []. simpl. rewrite app_nil_r, Z.add_0_r.
    do 5 (split; [done|]). split.
    + intros m Hm. by apply elem_of_nil in Hm.
    + intros b Hb. by apply elem_of_nil in Hb.
  - rewrite fmap_cons in Hnd. apply NoDup_cons in Hnd as [Hb0 Hnd].
    destruct (check_blueprint_v1_file_run b0 w Hkeys)
      as (w1 & msgs0 & Hrun0 & Hq0 & Hkeys1 & Hkeep0 & Hsub0 & Hskip0 & Hdo0).
    destruct (IH w1 (count + 1) Hkeys1 Hnd)
      as (w' & msgs & Hrun & Hq & Hkeys' & Hkeep & Hsub & Hmsgs & Hcount).
    (* whatever the loop queues later is not for the instance of [b0] *)
    assert (forall inst0, by_path (path b0) (objects w') = Some inst0 ->
                          pk inst0 ∉ msgs) as Hlater.
    { intros inst0 Hby0 Hin.
      destruct (Hmsgs _ Hin) as (b' & i' & Hb' & Hby' & Hpk).
      destruct (by_path_Some _ _ _ Hby0) as [Hp0 Hin0].
      destruct (by_path_Some _ _ _ Hby') as [Hp' Hin'].
      assert (inst0 = i') as ->
        by (eapply pk_determines_row; [apply Hkeys'| done..]).
      apply Hb0. rewrite <- Hp0, Hp'. by apply list_elem_of_fmap_2. }
    exists w', (msgs0 ++ msgs).
    split.
    { simpl. unfold mbind, M_bind, bind. rewrite Hrun0, Hrun. f_equal. f_equal.
      rewrite Nat2Z.inj_succ. lia. }
    split. { by rewrite Hq, Hq0, app_assoc. }
    split; [exact Hkeys'|].
    split. { intros p i Hi. by apply Hkeep, Hkeep0. }
    split. { intros i Hi. by apply Hsub, Hsub0. }
    split.
    { intros m Hm. apply elem_of_app in Hm as [Hm|Hm].
      - destruct (instantiate_false LABEL_AUTHENTIK_INSTANTIATE b0) eqn:Hs.
        + rewrite (Hskip0 eq_refl) in Hm. by apply elem_of_nil in Hm.
        + destruct (Hdo0 eq_refl) as (inst0 & Hby0 & Hm0).
          rewrite Hm0 in Hm. case_bool_decide; [by apply elem_of_nil in Hm|].
          apply list_elem_of_singleton in Hm. subst m.
          exists b0, inst0. split; [by left|]. split; [by apply Hkeep|done].
      - destruct (Hmsgs _ Hm) as (b' & i' & Hb' & Hby' & Hpk).
        exists b', i'. split; [by right|done]. }
    intros b Hb Hs. apply elem_of_cons in Hb as [->|Hb].
    + destruct (Hdo0 Hs) as (inst0 & Hby0 & Hm0).
      apply Hkeep in Hby0. exists inst0. split; [exact Hby0|].
      rewrite filter_app, length_app, (filter_none _ msgs (Hlater _ Hby0)).
      rewrite Hm0. case_bool_decide; [done|].
      by rewrite filter_cons_True.
    + destruct (Hcount b Hb Hs) as (inst & Hby & Hlen).
      exists inst. split; [exact Hby|].
      rewrite filter_app, length_app, Hlen.
      rewrite filter_none; [done|].
      intros Hin.
      destruct (instantiate_false LABEL_AUTHENTIK_INSTANTIATE b0) eqn:Hs0.
      * rewrite (Hskip0 eq_refl) in Hin. by apply elem_of_nil in Hin.
      * destruct (Hdo0 eq_refl) as (inst0 & Hby0 & Hm0).
        rewrite Hm0 in Hin. case_bool_decide; [by apply elem_of_nil in Hin|].
        apply list_elem_of_singleton in Hin.
        apply Hkeep in Hby0.
        destruct (by_path_Some _ _ _ Hby0) as [Hp0 Hin0].
        destruct (by_path_Some _ _ _ Hby) as [Hp Hin'].
        assert (inst = inst0) as ->
          by (eapply pk_determines_row; [apply Hkeys'| done..]).
        apply Hb0. rewrite <- Hp0, Hp. by apply list_elem_of_fmap_2.
Qed.

(** Reconciliation does not touch the task object. *)
Lemma check_blueprint_v1_file_task blueprint w :
  task (check_blueprint_v1_file' blueprint w).1 = task w.
Proof.
  unfold check_blueprint_v1_file. run.
  destruct (db_fault env OpFilterPath); simpl; [done|].
  destruct (instantiate_false LABEL_AUTHENTIK_INSTANTIATE blueprint); [done|].
  destruct (by_path (path blueprint) (objects w)); simpl.
  - by case_bool_decide.
  - destruct (db_fault env OpSaveCreated); simpl; [done|].
    by case_bool_decide.
Qed.

Lemma blueprints_discovery_loop_task path_filter blueprints :
  forall count w,
    task (blueprints_discovery_loop LABEL_AUTHENTIK_INSTANTIATE env path_filter
            blueprints count w).1 = task w.
Proof.
  induction blueprints as [|b bs IH]; intros count w; simpl; [done|].
  destruct (Py.truthy_opt path_filter
            && negb (bool_decide (Some (path b) = path_filter)))%bool;
    [apply IH|].
  unfold mbind, M_bind, bind.
  pose proof (check_blueprint_v1_file_task b w) as Ht.
  destruct (check_blueprint_v1_file' b w) as [w1 [e|[]]]; simpl in *.
  - exact Ht.
  - by rewrite IH.
Qed.

(** A whole pass over descriptors of distinct paths queues exactly one apply
    for the instance of each descriptor that is not discovery-only and whose
    digest differs from the instance's, and none for the others; it reports
    the number of descriptors. *)
Lemma blueprints_discovery_schedules_once blueprints b w :
  keys_ok env w ->
  NoDup (path <$> blueprints) ->
  b ∈ blueprints ->
  instantiate_false LABEL_AUTHENTIK_INSTANTIATE b = false ->
  exists w' msgs inst,
    blueprints_discovery LABEL_AUTHENTIK_INSTANTIATE env (inr blueprints) None w
    = (w', inr tt)
    /\ queue w' = queue w ++ msgs
    /\ by_path (path b) (objects w') = Some inst
    /\ length (filter (fun m => m = pk inst) msgs)
       = (if bool_decide (last_applied_hash inst = hash b)
          then 0%nat else 1%nat)
    /\ reports (task w') =
         reports (task w)
         ++ [SetStatus TS_SUCCESSFUL
               ["Successfully imported "
                +:+ pretty (Z.of_nat (length blueprints)) +:+ " files."]].
Proof.
  intros Hkeys Hnd Hb Hs.
  destruct (blueprints_discovery_loop_run blueprints w 0 Hkeys Hnd)
    as (w' & msgs & Hrun & Hq & _ & _ & _ & _ & Hcount).
  destruct (Hcount b Hb Hs) as (inst & Hby & Hlen).
  pose proof (blueprints_discovery_loop_task None blueprints 0 w) as Htask.
  rewrite Hrun in Htask. simpl in Htask.
  eexists _, msgs, inst. unfold blueprints_discovery.
  unfold mbind, M_bind, bind. rewrite Hrun. run.
  rewrite Z.add_0_l, Htask. by repeat split.
Qed.

End Reconcile.

(** *** The scanner *)

Lemma startswith_dot_truthy part :
  Py.startswith "." part = true -> Py.truthy part = true.
Proof. by destruct part. Qed.

Lemma is_hidden_spec path :
  is_hidden path = true
  <-> exists part, part ∈ path /\ Py.startswith "." part = true.
Proof.
  unfold is_hidden, Py.any. rewrite existsb_exists. split.
  - intros (part & Hin & _). apply filter_In in Hin as [Hin Hdot].
    exists part. split; [by apply list_elem_of_In | exact Hdot].
  - intros (part & Hin & Hdot). exists part. split.
    + apply filter_In. split; [by apply list_elem_of_In | exact Hdot].
    + by apply startswith_dot_truthy.
Qed.

Lemma is_hidden_app (root rel : Path) :
  is_hidden (root ++ rel) = (is_hidden root || is_hidden rel)%bool.
Proof. unfold is_hidden, Py.any. by rewrite List.filter_app, existsb_app. Qed.

Lemma relative_to_app (root rel : Path) :
  relative_to (root ++ rel) root = Some rel.
Proof.
  induction root as [|r root IH]; simpl; [by destruct rel|].
  by rewrite String.eqb_refl.
Qed.

(** C8 (as amended): the scan tests the segments of the path as the walk
    yields it, the root's segments included.  A candidate is skipped as
    hidden exactly when one of those segments begins with a dot; when no
    segment of the root does, that is exactly when a segment of the relative
    path does.  A candidate that is not hidden and holds a version-1
    document without metadata is reported under its relative path. *)
Theorem hidden_iff_dot_segment_of_walked_path (root rel : Path) :
  (is_hidden (root ++ rel) = true
   <-> exists part, part ∈ root ++ rel /\ Py.startswith "." part = true)
  /\ (is_hidden root = false ->
      (is_hidden (root ++ rel) = true
       <-> exists part, part ∈ rel /\ Py.startswith "." part = true))
  /\ (forall sha512_hexdigest blueprints c,
        parts c = root ++ rel ->
        (is_hidden (root ++ rel) = true ->
         blueprints_find_step sha512_hexdigest root blueprints c
         = inr blueprints)
        /\ (is_hidden (root ++ rel) = false ->
            forall raw,
              load c = Loaded (Some raw) ->
              default 1 (raw_version raw) = 1 ->
              raw_metadata raw = None ->
              blueprints_find_step sha512_hexdigest root blueprints c
              = inr (blueprints ++
                     [{| path := str_path rel; version := 1;
                         hash := sha512_hexdigest (read_bytes c);
                         last_m := st_mtime c; meta := None |}]))).
Proof.
  split; [apply is_hidden_spec|]. split.
  - intros Hroot. rewrite is_hidden_app, Hroot. simpl. apply is_hidden_spec.
  - intros sha bs c Hparts. unfold blueprints_find_step.
    rewrite Hparts, relative_to_app. split.
    + by intros ->.
    + intros -> raw -> Hv ->. rewrite Hv. simpl. reflexivity.
Qed.

(** *** Concrete runs *)

Import BlueprintSamples.

(** C8, as stated, fails: below a root with a dotted segment, a file whose
    relative path has no dotted segment is skipped; below a plain root the
    same file is found. *)
Lemma dotted_root_hides_plain_file :
  relative_to (parts (candidate_below dotted_root)) dotted_root
    = Some ["flows"; "default.yaml"]
  /\ (forall part,
        part ∈ ["flows"; "default.yaml"] -> Py.startswith "." part = false)
  /\ blueprints_find toy_digest dotted_root [candidate_below dotted_root]
     = inr []
  /\ blueprints_find toy_digest plain_root [candidate_below plain_root]
     = inr [flow_descriptor].
Proof.
  split; [reflexivity|]. split; [|split; reflexivity].
  intros part Hin.
  apply elem_of_cons in Hin as [->|Hin]; [reflexivity|].
  apply elem_of_cons in Hin as [->|Hin]; [reflexivity|].
  by apply elem_of_nil in Hin.
Qed.

(** A dotted segment below the root hides the file. *)
Example hidden_candidate_is_skipped :
  blueprints_find toy_digest plain_root
    [hidden_candidate; candidate_below plain_root] = inr [flow_descriptor].
Proof. reflexivity. Qed.

(** C6, as stated, fails: the stored instance's digest differs from the
    descriptor's, yet nothing is queued, because the descriptor is marked
    [instantiate: False]. *)
Lemma instantiate_false_blocks_changed_hash :
  by_path (path discovery_only_descriptor) (objects a_world)
    = Some flow_instance
  /\ last_applied_hash flow_instance <> hash discovery_only_descriptor
  /\ (check_blueprint_v1_file INSTANTIATE env_ok discovery_only_descriptor
        a_world).2 = inr tt
  /\ queue (check_blueprint_v1_file INSTANTIATE env_ok
              discovery_only_descriptor a_world).1 = [].
Proof. repeat split; try (vm_compute; reflexivity). discriminate. Qed.

Lemma changed_hash_schedules_one_apply_witness :
  instantiate_false INSTANTIATE flow_descriptor = false
  /\ db_fault env_ok OpFilterPath = None
  /\ db_fault env_ok OpSaveCreated = None
  /\ (check_blueprint_v1_file INSTANTIATE env_ok flow_descriptor a_world).2
     = inr tt
  /\ flow_instance
       ∈ objects (check_blueprint_v1_file INSTANTIATE env_ok flow_descriptor
                    a_world).1
  /\ queue (check_blueprint_v1_file INSTANTIATE env_ok flow_descriptor
              a_world).1 = ["6a0c"].
Proof.
  split; [reflexivity|]. split; [reflexivity|]. split; [reflexivity|].
  apply (changed_hash_schedules_one_apply INSTANTIATE env_ok flow_descriptor
           a_world); reflexivity.
Defined.

(** A descriptor without an instance gets one, and an apply is queued for
    it. *)
Example new_descriptor_is_created_and_queued :
  let out := (check_blueprint_v1_file INSTANTIATE env_ok new_descriptor
                a_world).1 in
  objects out = objects a_world ++ [new_instance "uuid-0" new_descriptor]
  /\ queue out = ["uuid-0"].
Proof. split; vm_compute; reflexivity. Qed.

Lemma instantiate_false_is_skipped_witness :
  meta discovery_only_descriptor
    = Some {| meta_name := "Default Flow";
              labels := {[ INSTANTIATE := "False" ]} |}
  /\ ({[ INSTANTIATE := "False" ]} : gmap string string) !! INSTANTIATE
     = Some "False"
  /\ Py.equal_ignoring_case "false" "False"
  /\ (check_blueprint_v1_file INSTANTIATE env_ok discovery_only_descriptor
        a_world).1 = a_world
  /\ (db_fault env_ok OpFilterPath = None ->
      (check_blueprint_v1_file INSTANTIATE env_ok discovery_only_descriptor
         a_world).2 = inr tt).
Proof.
  assert (Py.equal_ignoring_case "false" "False") as Hcase.
  { simpl. repeat split; (by left) || (by right). }
  split; [reflexivity|]. split; [reflexivity|]. split; [exact Hcase|].
  apply (instantiate_false_is_skipped INSTANTIATE env_ok
           discovery_only_descriptor
           {| meta_name := "Default Flow";
              labels := {[ INSTANTIATE := "False" ]} |} "False" a_world);
    [reflexivity | reflexivity | exact Hcase].
Defined.

Lemma env_ok_succeeds i : apply_succeeds env_ok i "version: 1".
Proof.
  repeat split. exists good_importer, [], []. by repeat split.
Qed.

Lemma env_ok_later_succeeds i : apply_succeeds env_ok_later i "version: 1".
Proof.
  repeat split. exists good_importer, [], []. by repeat split.
Qed.

Lemma reapply_unchanged_keeps_hash_and_status_witness :
  by_pk "6a0c" (objects a_world) = Some flow_instance
  /\ enabled flow_instance = true
  /\ by_pk "6a0c" (objects applied_once) = Some applied_instance
  /\ toy_digest "version: 1" = toy_digest "version: 1"
  /\ status applied_instance = SUCCESSFUL
  /\ last_applied_hash applied_instance = toy_digest "version: 1"
  /\ (apply_blueprint toy_digest toy_slugify env_ok_later "6a0c"
        applied_once).2 = inr tt
  /\ exists i2,
       by_pk "6a0c"
         (objects (apply_blueprint toy_digest toy_slugify env_ok_later "6a0c"
                     applied_once).1) = Some i2
       /\ status i2 = SUCCESSFUL
       /\ last_applied_hash i2 = last_applied_hash applied_instance.
Proof.
  split; [reflexivity|]. split; [reflexivity|].
  split; [vm_compute; reflexivity|]. split; [reflexivity|].
  apply (reapply_unchanged_keeps_hash_and_status toy_digest toy_slugify
           env_ok env_ok_later "6a0c" a_world flow_instance "version: 1"
           applied_instance "version: 1").
  - reflexivity.
  - reflexivity.
  - apply env_ok_succeeds.
  - vm_compute. reflexivity.
  - apply env_ok_later_succeeds.
  - reflexivity.
Defined.



(** A disabled instance and an unknown key: nothing happens. *)
Example disabled_instance_is_left_alone :
  let out := apply_blueprint toy_digest toy_slugify env_ok "77f1" a_world in
  out.2 = inr tt /\ objects out.1 = objects a_world
  /\ reports (task out.1) = [].
Proof. vm_compute. by repeat split. Qed.

Example unknown_key_is_left_alone :
  let out := apply_blueprint toy_digest toy_slugify env_ok "0000" a_world in
  out.2 = inr tt /\ objects out.1 = objects a_world
  /\ reports (task out.1) = [].
Proof. vm_compute. by repeat split. Qed.

(** The store fails while the validation error is written: the [except]
    clause reports it and the [finally] block writes the instance. *)
Example database_error_while_saving_is_reported :
  let out := apply_blueprint toy_digest toy_slugify env_invalid_db_down "6a0c"
               a_world in
  out.2 = inr tt
  /\ by_pk "6a0c" (objects out.1) = Some (with_status ERROR flow_instance)
  /\ reports (task out.1) = [SetUid "default flow"; SetError DatabaseError].
Proof. vm_compute. by repeat split. Qed.

End BlueprintsSpec.
(** ** Further properties of the identification stage *)

Module IdentificationExtra.
Import Eff Identification Lookup.

Ltac run_in H :=
  unfold attempt, challenge_valid, mbind, M_bind, mret, M_ret, bind, ret,
    raise, when, sleep_30ms, emit, set_context, set_pre_user, modify, get,
    try_except in H;
  simpl in H.

(** *** The lookup *)

Lemma foldl_snoc_map {A B} (g : A -> B) (l : list A) (acc : list B) :
  foldl (fun q x => q ++ [g x]) acc l = acc ++ List.map g l.
Proof.
  revert acc. induction l as [|x l IH]; intros acc; simpl.
  - by rewrite app_nil_r.
  - by rewrite IH, <- app_assoc.
Qed.

Lemma build_query_map stage uid :
  build_query stage uid =
    List.map
      (fun f =>
         (model_field_of f +:+
            (if case_insensitive_matching stage then "__iexact" else "__exact"),
          uid))
      (user_fields stage).
Proof.
  unfold build_query.
  rewrite <- (app_nil_l (List.map _ _)), <- foldl_snoc_map.
  f_equal. by destruct (case_insensitive_matching stage).
Qed.

Lemma lookup_matches_field collation (insensitive : bool) f uid u :
  lookup_matches collation
    (model_field_of f +:+ (if insensitive then "__iexact" else "__exact"), uid) u
  = field_matches collation insensitive f uid u.
Proof. by destruct f, insensitive. Qed.

Lemma query_matches collation stage uid u :
  existsb (fun kw => lookup_matches collation kw u) (build_query stage uid)
  = matches collation stage uid u.
Proof.
  rewrite build_query_map. unfold matches.
  induction (user_fields stage) as [|f fs IH]; [done|].
  cbn [List.map existsb]. by rewrite lookup_matches_field, IH.
Qed.

Lemma find_ext {A} (f g : A -> bool) (l : list A) :
  (forall x, f x = g x) -> List.find f l = List.find g l.
Proof.
  intros Hfg. induction l as [|x l IH]; simpl; [done|].
  by rewrite Hfg, IH.
Qed.

Lemma objects_filter_first_matches collation stage users uid :
  objects_filter_first collation users (build_query stage uid)
  = List.find (matches collation stage uid) users.
Proof. apply find_ext. intros u. apply query_matches. Qed.

(** [get_user] as a whole: the state after it and what it returns. *)
Lemma get_user_trace collation stage users uid s :
  get_user collation stage users uid s =
    ({| plan_context := plan_context s; pre_user := pre_user s;
        events := events s ++ lookup_events collation stage users uid |},
     inr (List.find (matches collation stage uid) users)).
Proof.
  rewrite <- objects_filter_first_matches.
  unfold get_user, lookup_events.
  destruct (build_query stage uid) as [|kw q] eqn:Hq.
  - assert (user_fields stage = []) as Hnil.
    { rewrite build_query_map in Hq. by destruct (user_fields stage). }
    unfold objects_filter_first.
    assert (List.find
              (fun u : User =>
                 existsb (fun kw => lookup_matches collation kw u) [])
              users = None) as ->.
    { induction users as [|u us IH]; simpl; [done|exact IH]. }
    reflexivity.
  - destruct (objects_filter_first collation users (kw :: q)) as [u|];
      unfold mbind, M_bind, bind, emit, modify, mret, M_ret, ret; simpl;
      by rewrite <- ?app_assoc.
Qed.

Section Properties.
Variable collation : Collation.
Variable PLAN_CONTEXT_PENDING_USER : string.
Variable PLAN_CONTEXT_PENDING_USER_IDENTIFIER : string.
Variable verify_captcha_token :
  CaptchaStage -> option string -> string -> option exn.
Variable authenticate :
  Request -> list string -> IdentificationStage -> string -> option string ->
  exn + option User.
Variable request : Request.
Variable current_stage : IdentificationStage.
Variable users : list User.
Variable entropy : Z.

Abbreviation get_user' := (get_user collation current_stage users).
Abbreviation validate' :=
  (validate collation PLAN_CONTEXT_PENDING_USER
      PLAN_CONTEXT_PENDING_USER_IDENTIFIER
     verify_captcha_token authenticate request current_stage users entropy).
Abbreviation attempt' :=
  (attempt collation PLAN_CONTEXT_PENDING_USER
      PLAN_CONTEXT_PENDING_USER_IDENTIFIER
     verify_captcha_token authenticate request current_stage users entropy).

(** What it is for a user to carry the identifier. *)
Lemma matches_iff stage uid u :
  matches collation stage uid u = true
  <-> exists f x,
        f ∈ user_fields stage
        /\ field_value f u = Some x
        /\ if case_insensitive_matching stage
           then UPPER collation x = UPPER collation uid
           else x = uid.
Proof.
  unfold matches. rewrite existsb_exists. split.
  - intros (f & Hin & Hm). unfold field_matches in Hm.
    destruct (field_value f u) as [x|] eqn:Hx; [|discriminate].
    exists f, x. split; [by apply list_elem_of_In|]. split; [exact Hx|].
    destruct (case_insensitive_matching stage); by apply String.eqb_eq.
  - intros (f & x & Hin & Hx & Hm). exists f.
    split; [by apply list_elem_of_In|].
    unfold field_matches. rewrite Hx.
    destruct (case_insensitive_matching stage); by apply String.eqb_eq.
Qed.

(** X1: [get_user] returns the first user of the table, in the store's
    order, that carries the identifier in one of the configured fields, and
    [None] exactly when there is none.  A user carries the identifier when
    one of the configured fields has a value that is the identifier, or,
    with case-insensitive matching, a value that the store's [UPPER] folds
    to what it folds the identifier to. *)
Theorem get_user_returns_first_match uid s :
  (get_user' uid s).2
    = inr (List.find (matches collation current_stage uid) users)
  /\ (forall u, (get_user' uid s).2 = inr (Some u) ->
                u ∈ users /\ matches collation current_stage uid u = true)
  /\ ((get_user' uid s).2 = inr None <->
      forall u, u ∈ users -> matches collation current_stage uid u = false)
  /\ (forall u,
        (get_user' uid s).2 = inr (Some u) ->
        exists before after,
          users = before ++ u :: after
          /\ forall v, v ∈ before ->
                       matches collation current_stage uid v = false)
  /\ (forall u,
        matches collation current_stage uid u = true
        <-> exists f x,
              f ∈ user_fields current_stage
              /\ field_value f u = Some x
              /\ if case_insensitive_matching current_stage
                 then UPPER collation x = UPPER collation uid
                 else x = uid).
Proof.
  rewrite get_user_trace. simpl. split; [reflexivity|]. split; [|split;
      [|split]].
  - intros u [= Hfind]. apply find_some in Hfind as [Hin Hm].
    split; [by apply list_elem_of_In | exact Hm].
  - split.
    + intros [= Hfind] u Hin.
      apply (find_none _ _ Hfind). by apply list_elem_of_In.
    + intros Hnone. f_equal.
      destruct (List.find (matches collation current_stage uid) users)
        as [u|] eqn:Hfind; [|reflexivity].
      apply find_some in Hfind as [Hin Hm].
      rewrite (Hnone u) in Hm; [discriminate | by apply list_elem_of_In].
  - intros u [= Hfind].
    induction users as [|v vs IH]; [discriminate|].
    simpl in Hfind.
    destruct (matches collation current_stage uid v) eqn:Hv.
    + injection Hfind as ->. exists [], vs. split; [reflexivity|].
      intros v Hin. by apply elem_of_nil in Hin.
    + destruct (IH Hfind) as (before & after & -> & Hbefore).
      exists (v :: before), after. split; [reflexivity|].
      intros v' Hin. apply elem_of_cons in Hin as [->|Hin]; [exact Hv|].
      by apply Hbefore.
  - intros u. apply matches_iff.
Qed.

(** X2: with case-insensitive matching, two identifiers that differ only in
    the case of ASCII letters find the same user: the store's [UPPER] does
    not tell them apart ([UPPER_ascii]), and every lookup of the query
    compares under it. *)
Theorem case_insensitive_lookup_ignores_case uid uid' s s' :
  case_insensitive_matching current_stage = true ->
  Py.lower uid = Py.lower uid' ->
  (get_user' uid s).2 = (get_user' uid' s').2.
Proof.
  intros Hci Hlow. rewrite !get_user_trace. simpl. f_equal.
  apply find_ext. intros u. unfold matches. rewrite Hci.
  induction (user_fields current_stage) as [|f fs IH]; [done|].
  cbn [existsb]. rewrite IH. f_equal.
  unfold field_matches. destruct (field_value f u); [|done].
  by rewrite <- (UPPER_ascii collation uid), Hlow, UPPER_ascii.
Qed.

Lemma get_user_found uid s r :
  (get_user' uid s).2 = inr r ->
  get_user' uid s =
    ({| plan_context := plan_context s; pre_user := pre_user s;
        events := events s ++ lookup_events collation current_stage users uid
            |}, inr r).
Proof. rewrite get_user_trace. simpl. by intros [= ->]. Qed.

(** [validate] for a matched user, event by event. *)
Lemma validate_match_trace attrs s u :
  (get_user' (uid_field attrs) s).2 = inr (Some u) ->
  let s' := (validate' attrs s).1 in
  let seen := events s ++ lookup_events collation current_stage users (uid_field
      attrs) in
  plan_context s' = plan_context s
  /\ (captcha_passes verify_captcha_token request current_stage attrs ->
      events s' = seen ++ captcha_events current_stage request attrs
                       ++ password_events current_stage u attrs
      /\ pre_user s' =
           Some match password_stage current_stage with
                | Some ps =>
                    match authenticate request (backends ps) current_stage
                            (username u) (password attrs) with
                    | inr (Some au) => au
                    | _ => u
                    end
                | None => u
                end)
  /\ (forall c e,
        captcha_stage current_stage = Some c ->
        verify_captcha_token c (captcha_token attrs) (get_client_ip request)
          = Some e ->
        events s' = seen ++ captcha_events current_stage request attrs
        /\ pre_user s' = Some u
        /\ (validate' attrs s).2 = inl e).
Proof.
  intros Hget s' seen. subst s' seen. apply get_user_found in Hget.
  destruct (validate' attrs s) as [s' r] eqn:Hval. simpl.
  unfold validate in Hval. cbv zeta in Hval.
  unfold mbind at 1, M_bind at 1, bind at 1 in Hval. rewrite Hget in Hval.
  unfold captcha_passes, captcha_events, password_events, get_client_ip.
  destruct (captcha_stage current_stage) as [c|] eqn:Hc;
    [destruct (verify_captcha_token c (captcha_token attrs)
                 (client_ip request)) as [e|] eqn:Hv|];
    (destruct (password_stage current_stage) as [ps|] eqn:Hp;
     [destruct (authenticate request (backends ps) current_stage (username u)
                  (password attrs)) as [[m|m|m]|[au|]] eqn:Ha|]);
    destruct (Py.truthy_opt (captcha_token attrs));
    destruct (Py.truthy_opt (password attrs));
    run_in Hval; unfold get_client_ip in Hval;
    rewrite ?Hv, ?Ha in Hval; simpl in Hval;
    injection Hval as <- <-; simpl;
    (split; [reflexivity|]);
    (split; [intros; first [discriminate
                           | split; [by rewrite <- ?app_assoc, ?app_nil_r
                                    | reflexivity]]|]);
    intros c' e' Hc' He';
    first [discriminate
          | (assert (c' = c) as -> by congruence; rewrite Hv in He';
             first [discriminate
                   | injection He' as <-;
                     by rewrite <- ?app_assoc, ?app_nil_r])].
Qed.

(** X3: for a matched identifier whose captcha check passes, [validate]
    performs in this order the lookup, the captcha verification when a
    captcha stage is configured (a missing token is logged and still
    verified), and the authentication with the matched user's username when a
    password stage is configured (a missing password is logged and still
    checked).  It neither sleeps nor signals a failed identification, and it
    leaves the flow-plan context alone. *)
Theorem matched_identifier_trace attrs s u :
  (get_user' (uid_field attrs) s).2 = inr (Some u) ->
  captcha_passes verify_captcha_token request current_stage attrs ->
  let s' := (validate' attrs s).1 in
  let added :=
    lookup_events collation current_stage users (uid_field attrs)
    ++ captcha_events current_stage request attrs
    ++ password_events current_stage u attrs in
  events s' = events s ++ added
  /\ Forall (fun e => is_sleep e = false /\ is_identification_failed e = false)
       added
  /\ plan_context s' = plan_context s.
Proof.
  intros Hget Hcap s' added. subst s' added.
  destruct (validate_match_trace attrs s u Hget) as (Hctx & Hpass & _).
  destruct (Hpass Hcap) as [Hev _].
  split; [by rewrite Hev, <- app_assoc|]. split; [|exact Hctx].
  unfold lookup_events, captcha_events, password_events.
  destruct (build_query current_stage (uid_field attrs));
    [|destruct (objects_filter_first collation users _)];
    destruct (captcha_stage current_stage);
    destruct (password_stage current_stage);
    destruct (Py.truthy_opt (captcha_token attrs));
    destruct (Py.truthy_opt (password attrs));
    simpl; repeat constructor.
Qed.

(** X4: when the captcha verifier raises for a matched identifier, its
    exception is the outcome of [validate]; the trace ends with the
    verification, the backends are not consulted, and the pending user
    stays the matched one. *)
Theorem captcha_failure_stops_before_authenticate attrs s u c e :
  (get_user' (uid_field attrs) s).2 = inr (Some u) ->
  captcha_stage current_stage = Some c ->
  verify_captcha_token c (captcha_token attrs) (get_client_ip request) = Some e ->
  let s' := (validate' attrs s).1 in
  let added :=
    lookup_events collation current_stage users (uid_field attrs)
    ++ captcha_events current_stage request attrs in
  (validate' attrs s).2 = inl e
  /\ events s' = events s ++ added
  /\ Forall (fun e => is_authenticate e = false) added
  /\ pre_user s' = Some u
  /\ plan_context s' = plan_context s.
Proof.
  intros Hget Hc Hv s' added. subst s' added.
  destruct (validate_match_trace attrs s u Hget) as (Hctx & _ & Hfail).
  destruct (Hfail c e Hc Hv) as (Hev & Hpre & Hres).
  split; [exact Hres|]. split; [by rewrite Hev, <- app_assoc|].
  split; [|by split].
  unfold lookup_events, captcha_events. rewrite Hc.
  destruct (build_query current_stage (uid_field attrs));
    [|destruct (objects_filter_first collation users _)];
    destruct (Py.truthy_opt (captcha_token attrs));
    simpl; repeat constructor.
Qed.

(** X5: for an unknown identifier, whether [validate] then returns or
    raises, the pending user is a placeholder that carries the identifier as
    user name and as e-mail address; it is stored under the pending-user key
    of the flow-plan context, the identifier itself is stored under the
    identifier key exactly when the matched user is not to be shown, no other
    key is written, and one failed identification is signalled, after the
    sleep. *)
Theorem unknown_identifier_leaves_placeholder attrs s :
  (get_user' (uid_field attrs) s).2 = inr None ->
  PLAN_CONTEXT_PENDING_USER <> PLAN_CONTEXT_PENDING_USER_IDENTIFIER ->
  let s' := (validate' attrs s).1 in
  let uid := uid_field attrs in
  pre_user s' = Some (placeholder uid)
  /\ plan_context s' !! PLAN_CONTEXT_PENDING_USER
     = Some (VUser (placeholder uid))
  /\ plan_context s' !! PLAN_CONTEXT_PENDING_USER_IDENTIFIER
     = (if show_matched_user current_stage
        then plan_context s !! PLAN_CONTEXT_PENDING_USER_IDENTIFIER
        else Some (VStr uid))
  /\ (forall k,
        k <> PLAN_CONTEXT_PENDING_USER ->
        k <> PLAN_CONTEXT_PENDING_USER_IDENTIFIER ->
        plan_context s' !! k = plan_context s !! k)
  /\ events s' =
       events s ++ lookup_events collation current_stage users uid
       ++ [EvSleep (30 * Py.randint 3 7 entropy); EvLog "info" "invalid_login";
           EvIdentificationFailed uid].
Proof.
  intros Hget Hne s' uid. subst s' uid. apply get_user_found in Hget.
  rewrite (IdentificationSpec.validate_no_match _ _ _ _ _ _ _ _ _ _ _ _ Hget).
  simpl. split; [reflexivity|].
  destruct (show_matched_user current_stage); simpl.
  - split; [by rewrite lookup_insert_eq|].
    split; [by rewrite lookup_insert_ne|].
    split; [|by rewrite <- app_assoc].
    intros k Hk _. by rewrite lookup_insert_ne.
  - split; [by rewrite lookup_insert_ne, lookup_insert_eq|].
    split; [by rewrite lookup_insert_eq|].
    split; [|by rewrite <- app_assoc].
    intros k Hk1 Hk2. by rewrite !lookup_insert_ne.
Qed.

(** X6: a stage that pretends the user exists, with neither a password
    stage nor a captcha stage, validates every response, whether or not the
    identifier is known. *)
Theorem pretend_never_rejects attrs s :
  pretend_user_exists current_stage = true ->
  password_stage current_stage = None ->
  captcha_stage current_stage = None ->
  (validate collation PLAN_CONTEXT_PENDING_USER
      PLAN_CONTEXT_PENDING_USER_IDENTIFIER
     verify_captcha_token authenticate request current_stage users entropy
     attrs s).2 = inr attrs.
Proof.
  intros Hpretend Hps Hc.
  destruct (List.find (matches collation current_stage (uid_field attrs)) users)
    as [u|] eqn:Hfind.
  - assert ((get_user' (uid_field attrs) s).2 = inr (Some u)) as Hget
      by (by rewrite get_user_trace, Hfind).
    destruct (get_user' (uid_field attrs) s) as [s1 r1] eqn:Hrun.
    simpl in Hget. subst r1.
    destruct (IdentificationSpec.validate_match collation
        PLAN_CONTEXT_PENDING_USER
                PLAN_CONTEXT_PENDING_USER_IDENTIFIER verify_captcha_token
                authenticate request current_stage users entropy attrs s s1 u
                Hrun)
      as (evs & fin & _ & _ & _ & Hres & _).
    rewrite Hres, Hps; [reflexivity|].
    unfold captcha_passes. by rewrite Hc.
  - assert (get_user' (uid_field attrs) s =
              ({| plan_context := plan_context s; pre_user := pre_user s;
                  events := events s
                            ++ lookup_events collation current_stage users
                                (uid_field attrs) |},
               inr None)) as Hget
      by (by rewrite get_user_trace, Hfind).
    rewrite (IdentificationSpec.validate_no_match _ _ _ _ _ _ _ _ _ _ _ _ Hget).
    simpl. by rewrite Hpretend, Hps.
Qed.

(** X7: when the backends accept the password, the user they return
    becomes the pending user of the attempt and is what the flow-plan
    context holds afterwards, whoever the lookup had found. *)
Theorem authenticated_user_is_pending_user attrs s u ps au :
  (get_user' (uid_field attrs) s).2 = inr (Some u) ->
  captcha_passes verify_captcha_token request current_stage attrs ->
  password_stage current_stage = Some ps ->
  authenticate request (backends ps) current_stage (username u)
    (password attrs) = inr (Some au) ->
  PLAN_CONTEXT_PENDING_USER <> PLAN_CONTEXT_PENDING_USER_IDENTIFIER ->
  let out := attempt' attrs s in
  out.2 = inr tt
  /\ pre_user out.1 = Some au
  /\ plan_context out.1 !! PLAN_CONTEXT_PENDING_USER = Some (VUser au).
Proof.
  intros Hget Hcap Hps Hauth Hne out. subst out.
  destruct (validate_match_trace attrs s u Hget) as (Hctx & Hpass & _).
  destruct (Hpass Hcap) as [_ Hpre]. rewrite Hps, Hauth in Hpre.
  destruct (get_user' (uid_field attrs) s) as [s1 r1] eqn:Hrun.
  simpl in Hget. subst r1.
  destruct (IdentificationSpec.validate_match collation
      PLAN_CONTEXT_PENDING_USER
              PLAN_CONTEXT_PENDING_USER_IDENTIFIER verify_captcha_token
              authenticate request current_stage users entropy attrs s s1 u
              Hrun)
    as (evs & fin & _ & _ & _ & Hres & _).
  specialize (Hres Hcap). rewrite Hps, Hauth in Hres.
  unfold attempt, challenge_valid, mbind, M_bind, bind, get, set_context,
    modify, when, mret, M_ret, ret.
  destruct (validate' attrs s) as [s2 r2]. simpl in *. subst r2.
  destruct (show_matched_user current_stage); simpl; rewrite Hpre;
    (split; [reflexivity|]); (split; [reflexivity|]).
  - by rewrite lookup_insert_eq.
  - by rewrite lookup_insert_ne, lookup_insert_eq.
Qed.

(** X8: with [show_matched_user] on, an attempt never writes the
    identifier key of the flow-plan context, whatever its outcome. *)
Theorem shown_match_leaves_identifier_key attrs s :
  show_matched_user current_stage = true ->
  PLAN_CONTEXT_PENDING_USER <> PLAN_CONTEXT_PENDING_USER_IDENTIFIER ->
  plan_context
    (attempt collation PLAN_CONTEXT_PENDING_USER
        PLAN_CONTEXT_PENDING_USER_IDENTIFIER
       verify_captcha_token authenticate request current_stage users entropy
       attrs s).1 !! PLAN_CONTEXT_PENDING_USER_IDENTIFIER
  = plan_context s !! PLAN_CONTEXT_PENDING_USER_IDENTIFIER.
Proof.
  intros Hshow Hne.
  unfold attempt, challenge_valid, mbind, M_bind, bind, get, set_context,
    modify, when, mret, M_ret, ret.
  destruct (List.find (matches collation current_stage (uid_field attrs)) users)
    as [u|] eqn:Hfind.
  - assert ((get_user' (uid_field attrs) s).2 = inr (Some u)) as Hget
      by (by rewrite get_user_trace, Hfind).
    destruct (validate_match_trace attrs s u Hget) as (Hctx & _).
    destruct (validate' attrs s) as [s2 [e|a]]; simpl in *;
      [by rewrite Hctx|].
    rewrite Hshow. simpl.
    by rewrite lookup_insert_ne, Hctx.
  - assert (get_user' (uid_field attrs) s =
              ({| plan_context := plan_context s; pre_user := pre_user s;
                  events := events s
                            ++ lookup_events collation current_stage users
                                (uid_field attrs) |},
               inr None)) as Hget
      by (by rewrite get_user_trace, Hfind).
    rewrite (IdentificationSpec.validate_no_match _ _ _ _ _ _ _ _ _ _ _ _ Hget).
    rewrite !Hshow.
    destruct (pretend_user_exists current_stage
              && negb (bool_decide (is_Some (password_stage current_stage))))%bool;
      simpl.
    + by rewrite !lookup_insert_ne.
    + by rewrite lookup_insert_ne.
Qed.

End Properties.

(** *** Concrete runs *)

Import Samples LoginSamples.

(** A store that folds the accented letters finds émile by his name in
    capitals; a store that folds the ASCII letters only does not. *)
Example accented_name_is_folded_by_the_store :
  (get_user latin_store stage_password [alice; emile] "ÉMILE" initial).2
    = inr (Some emile)
  /\ (get_user ascii_store stage_password [alice; emile] "ÉMILE" initial).2
     = inr None
  /\ (get_user ascii_store stage_password [alice; emile] "éMILE" initial).2
     = inr (Some emile).
Proof. vm_compute. by repeat split. Qed.

Lemma case_insensitive_lookup_ignores_case_witness :
  case_insensitive_matching stage_password = true
  /\ Py.lower "ALICE" = Py.lower "alice"
  /\ (get_user ascii_store stage_password [alice] "ALICE" initial).2
     = (get_user ascii_store stage_password [alice] "alice" initial).2.
Proof.
  split; [reflexivity|]. split; [reflexivity|].
  apply (case_insensitive_lookup_ignores_case ascii_store stage_password [alice]
           "ALICE" "alice" initial initial); reflexivity.
Defined.

Lemma matched_identifier_trace_witness :
  let s' := (validate ascii_store PENDING_USER PENDING_USER_IDENTIFIER
      captcha_accepts
               backends_check a_request stage_password_captcha [alice] 5
               alice_login initial).1 in
  (get_user ascii_store stage_password_captcha [alice] (uid_field alice_login)
      initial).2
    = inr (Some alice)
  /\ captcha_passes captcha_accepts a_request stage_password_captcha alice_login
  /\ events s' =
       [EvQuery [("username__iexact", "ALICE@example.org");
                 ("email__iexact", "ALICE@example.org")];
        EvLog "debug" "Found user";
        EvLog "warning" "Token not set for captcha attempt";
        EvVerifyCaptcha None "203.0.113.7";
        EvAuthenticate "alice" (Some "correct horse")]
  /\ plan_context s' = plan_context initial.
Proof.
  intros s'.
  assert ((get_user ascii_store stage_password_captcha [alice] (uid_field
      alice_login)
             initial).2 = inr (Some alice)) as Hget by (vm_compute; reflexivity).
  assert (captcha_passes captcha_accepts a_request stage_password_captcha
            alice_login) as Hcap by reflexivity.
  split; [exact Hget|]. split; [exact Hcap|].
  destruct (matched_identifier_trace ascii_store PENDING_USER
      PENDING_USER_IDENTIFIER
              captcha_accepts backends_check a_request stage_password_captcha
              [alice] 5 alice_login initial alice Hget Hcap)
    as (Hev & _ & Hctx).
  split; [exact Hev|exact Hctx].
Defined.

Lemma captcha_failure_stops_before_authenticate_witness :
  let out := validate ascii_store PENDING_USER PENDING_USER_IDENTIFIER
      captcha_rejects
               backends_check a_request stage_password_captcha [alice] 5
               alice_login initial in
  (get_user ascii_store stage_password_captcha [alice] (uid_field alice_login)
      initial).2
    = inr (Some alice)
  /\ captcha_stage stage_password_captcha = Some a_captcha
  /\ captcha_rejects a_captcha (captcha_token alice_login)
       (get_client_ip a_request)
     = Some (ValidationError "Invalid captcha response")
  /\ out.2 = inl (ValidationError "Invalid captcha response")
  /\ events out.1 =
       [EvQuery [("username__iexact", "ALICE@example.org");
                 ("email__iexact", "ALICE@example.org")];
        EvLog "debug" "Found user";
        EvLog "warning" "Token not set for captcha attempt";
        EvVerifyCaptcha None "203.0.113.7"]
  /\ pre_user out.1 = Some alice.
Proof.
  intros out.
  assert ((get_user ascii_store stage_password_captcha [alice] (uid_field
      alice_login)
             initial).2 = inr (Some alice)) as Hget by (vm_compute; reflexivity).
  split; [exact Hget|]. split; [reflexivity|]. split; [reflexivity|].
  destruct (captcha_failure_stops_before_authenticate ascii_store PENDING_USER
              PENDING_USER_IDENTIFIER captcha_rejects backends_check a_request
              stage_password_captcha [alice] 5 alice_login initial alice
              a_captcha (ValidationError "Invalid captcha response")
              Hget eq_refl eq_refl)
    as (Hres & Hev & _ & Hpre & _).
  split; [exact Hres|]. split; [exact Hev|exact Hpre].
Defined.

Lemma unknown_identifier_leaves_placeholder_witness :
  let s' := (validate ascii_store PENDING_USER PENDING_USER_IDENTIFIER
      captcha_accepts
               backends_check a_request stage_hidden [alice] 2026 mallory_attrs
               initial).1 in
  (get_user ascii_store stage_hidden [alice] (uid_field mallory_attrs)
      initial).2 = inr None
  /\ PENDING_USER <> PENDING_USER_IDENTIFIER
  /\ pre_user s' = Some (placeholder "mallory")
  /\ plan_context s' !! PENDING_USER = Some (VUser (placeholder "mallory"))
  /\ plan_context s' !! PENDING_USER_IDENTIFIER = Some (VStr "mallory")
  /\ events s' =
       [EvQuery [("username__exact", "mallory")]; EvSleep 120;
        EvLog "info" "invalid_login"; EvIdentificationFailed "mallory"].
Proof.
  intros s'.
  assert ((get_user ascii_store stage_hidden [alice] (uid_field mallory_attrs)
      initial).2
          = inr None) as Hget by (vm_compute; reflexivity).
  assert (PENDING_USER <> PENDING_USER_IDENTIFIER) as Hne by discriminate.
  split; [exact Hget|]. split; [exact Hne|].
  destruct (unknown_identifier_leaves_placeholder ascii_store PENDING_USER
              PENDING_USER_IDENTIFIER captcha_accepts backends_check a_request
              stage_hidden [alice] 2026 mallory_attrs initial Hget Hne)
    as (Hpre & Hp & Hpi & _ & Hev).
  split; [exact Hpre|]. split; [exact Hp|]. split; [exact Hpi|exact Hev].
Defined.

Lemma pretend_never_rejects_witness :
  pretend_user_exists stage_no_fields_pretend = true
  /\ password_stage stage_no_fields_pretend = None
  /\ captcha_stage stage_no_fields_pretend = None
  /\ (validate ascii_store PENDING_USER PENDING_USER_IDENTIFIER captcha_rejects
        backends_deny a_request stage_no_fields_pretend [alice] 6
        mallory_attrs initial).2 = inr mallory_attrs.
Proof.
  split; [reflexivity|]. split; [reflexivity|]. split; [reflexivity|].
  apply (pretend_never_rejects ascii_store PENDING_USER PENDING_USER_IDENTIFIER
           captcha_rejects backends_deny a_request stage_no_fields_pretend
           [alice] 6 mallory_attrs initial); reflexivity.
Defined.

Lemma authenticated_user_is_pending_user_witness :
  let out := attempt ascii_store PENDING_USER PENDING_USER_IDENTIFIER
      captcha_accepts
               backends_ldap a_request stage_password [alice] 5 alice_login
               initial in
  (get_user ascii_store stage_password [alice] (uid_field alice_login)
      initial).2
    = inr (Some alice)
  /\ captcha_passes captcha_accepts a_request stage_password alice_login
  /\ password_stage stage_password = Some inbuilt
  /\ backends_ldap a_request (backends inbuilt) stage_password
       (username alice) (password alice_login) = inr (Some alice_ldap)
  /\ PENDING_USER <> PENDING_USER_IDENTIFIER
  /\ out.2 = inr tt
  /\ pre_user out.1 = Some alice_ldap
  /\ plan_context out.1 !! PENDING_USER = Some (VUser alice_ldap).
Proof.
  intros out.
  assert ((get_user ascii_store stage_password [alice] (uid_field alice_login)
      initial).2
          = inr (Some alice)) as Hget by (vm_compute; reflexivity).
  assert (PENDING_USER <> PENDING_USER_IDENTIFIER) as Hne by discriminate.
  split; [exact Hget|]. split; [exact I|]. split; [reflexivity|].
  split; [reflexivity|]. split; [exact Hne|].
  exact (authenticated_user_is_pending_user ascii_store PENDING_USER
           PENDING_USER_IDENTIFIER captcha_accepts backends_ldap a_request
           stage_password [alice] 5 alice_login initial alice inbuilt
           alice_ldap Hget I eq_refl eq_refl Hne).
Defined.

Lemma shown_match_leaves_identifier_key_witness :
  show_matched_user stage_password = true
  /\ PENDING_USER <> PENDING_USER_IDENTIFIER
  /\ plan_context
       (attempt ascii_store PENDING_USER PENDING_USER_IDENTIFIER captcha_accepts
          backends_check a_request stage_password [alice] 5 alice_login
          initial).1 !! PENDING_USER_IDENTIFIER
     = plan_context initial !! PENDING_USER_IDENTIFIER.
Proof.
  assert (PENDING_USER <> PENDING_USER_IDENTIFIER) as Hne by discriminate.
  split; [reflexivity|]. split; [exact Hne|].
  exact (shown_match_leaves_identifier_key ascii_store PENDING_USER
           PENDING_USER_IDENTIFIER captcha_accepts backends_check a_request
           stage_password [alice] 5 alice_login initial eq_refl Hne).
Defined.

End IdentificationExtra.


(** ** Further properties of the blueprint tasks *)

Module BlueprintsExtra.
Import Eff Blueprints Facts.

(** *** The scanner *)

(** [relative_to] succeeds exactly on the paths below the root, and gives
    back what follows the root. *)
Lemma relative_to_iff (p root rel : Path) :
  relative_to p root = Some rel <-> p = root ++ rel.
Proof.
  split; [|intros ->; apply BlueprintsSpec.relative_to_app].
  revert p. induction root as [|r root' IH]; intros p.
  - destruct p; simpl; by intros [= ->].
  - destruct p as [|x p']; simpl; [discriminate|].
    destruct (String.eqb_spec r x) as [->|]; [|discriminate].
    intros H. by rewrite (IH p' H).
Qed.

Section Scanner.
Variable sha512_hexdigest : string -> string.
Variable root : Path.

Abbreviation step := (blueprints_find_step sha512_hexdigest root).
Abbreviation loop := (blueprints_find_loop sha512_hexdigest root).

Lemma blueprints_find_loop_app acc l1 l2 :
  loop acc (l1 ++ l2) =
    match loop acc l1 with
    | inl e => inl e
    | inr acc' => loop acc' l2
    end.
Proof.
  revert acc. induction l1 as [|c l1 IH]; intros acc; simpl; [done|].
  destruct (step acc c); [done|apply IH].
Qed.

(** One candidate adds at most one descriptor, built from it. *)
Lemma blueprints_find_step_inv acc c acc' :
  step acc c = inr acc' ->
  acc' = acc
  \/ exists rel b,
       acc' = acc ++ [b]
       /\ parts c = root ++ rel
       /\ skipped c = false
       /\ version b = 1
       /\ path b = str_path rel
       /\ hash b = sha512_hexdigest (read_bytes c)
       /\ last_m b = st_mtime c.
Proof.
  unfold blueprints_find_step, skipped.
  destruct (relative_to (parts c) root) as [rel|] eqn:Hrel; [|discriminate].
  apply relative_to_iff in Hrel.
  destruct (is_hidden (parts c)); [intros [= <-]; by left|].
  destruct (load c) as [|[raw|]]; try (intros [= <-]; by left).
  simpl. case_bool_decide as Hv; simpl; [|intros [= <-]; by left].
  destruct (raw_metadata raw) as [[e|m]|]; [discriminate| |];
    intros [= <-]; right; eexists rel, _; by repeat split.
Qed.

(** X9: every descriptor of a scan has version 1 and comes from a
    candidate below the root that is not hidden: its path is the candidate's
    path relative to the root, its digest the digest of the candidate's raw
    bytes; the scan yields no more descriptors than there are candidates. *)
Theorem blueprints_find_yields_valid_descriptors candidates blueprints :
  blueprints_find sha512_hexdigest root candidates = inr blueprints ->
  Forall
    (fun b =>
       version b = 1
       /\ exists c rel,
            c ∈ candidates
            /\ parts c = root ++ rel
            /\ skipped c = false
            /\ path b = str_path rel
            /\ hash b = sha512_hexdigest (read_bytes c)
            /\ last_m b = st_mtime c)
    blueprints
  /\ (length blueprints <= length candidates)%nat.
Proof.
  unfold blueprints_find.
  assert (forall cands acc bs,
            loop acc cands = inr bs ->
            exists new,
              bs = acc ++ new
              /\ (length new <= length cands)%nat
              /\ Forall
                   (fun b =>
                      version b = 1
                      /\ exists c rel,
                           c ∈ cands
                           /\ parts c = root ++ rel
                           /\ skipped c = false
                           /\ path b = str_path rel
                           /\ hash b = sha512_hexdigest (read_bytes c)
                           /\ last_m b = st_mtime c)
                   new) as Hloop.
  { induction cands as [|c cands IH]; intros acc bs; simpl.
    - intros [= <-]. exists []. rewrite app_nil_r. by repeat split.
    - destruct (step acc c) as [e|acc'] eqn:Hstep; [discriminate|].
      intros Hrest. destruct (IH _ _ Hrest) as (new & -> & Hlen & Hall).
      assert (Forall
                (fun b =>
                   version b = 1
                   /\ exists c0 rel,
                        c0 ∈ c :: cands
                        /\ parts c0 = root ++ rel
                        /\ skipped c0 = false
                        /\ path b = str_path rel
                        /\ hash b = sha512_hexdigest (read_bytes c0)
                        /\ last_m b = st_mtime c0)
                new) as Hall'.
      { eapply Forall_impl; [exact Hall|].
        intros b (Hv & c0 & rel & Hin & Hrest').
        split; [exact Hv|]. exists c0, rel. split; [by right|exact Hrest']. }
      destruct (blueprints_find_step_inv _ _ _ Hstep)
        as [->|(rel & b & -> & Hp & Hs & Hv & Hpath & Hh & Hm)].
      + exists new. split; [done|]. split; [lia|exact Hall'].
      + exists (b :: new). rewrite <- app_assoc. split; [done|].
        split; [simpl; lia|]. constructor; [|exact Hall'].
        split; [exact Hv|]. exists c, rel. split; [by left|done]. }
  intros Hfind. destruct (Hloop _ _ _ Hfind) as (new & -> & Hlen & Hall).
  by split.
Qed.

Lemma blueprints_find_step_skipped acc c rel :
  parts c = root ++ rel -> skipped c = true -> step acc c = inr acc.
Proof.
  intros Hparts. unfold skipped, blueprints_find_step.
  rewrite Hparts, BlueprintsSpec.relative_to_app.
  destruct (is_hidden (root ++ rel)); [done|]. simpl.
  destruct (load c) as [|[raw|]]; try done.
  by intros ->.
Qed.

(** X10: a candidate below the root that is hidden, cannot be parsed, is
    empty or declares another version does not fail the scan and leaves no
    trace in it: the scan gives what it gives without that candidate. *)
Theorem skipped_candidate_leaves_no_trace before c after rel :
  parts c = root ++ rel ->
  skipped c = true ->
  blueprints_find sha512_hexdigest root (before ++ c :: after)
  = blueprints_find sha512_hexdigest root (before ++ after).
Proof.
  intros Hparts Hskip. unfold blueprints_find.
  rewrite !blueprints_find_loop_app.
  destruct (loop [] before) as [e|acc]; [done|]. simpl.
  by rewrite (blueprints_find_step_skipped acc c rel Hparts Hskip).
Qed.

(** X11: a candidate that passes the checks and whose metadata cannot be
    decoded fails the whole scan with the decoding error, whatever the
    candidates before it gave and whatever follows. *)
Theorem undecodable_metadata_fails_the_scan before c after rel raw e found :
  blueprints_find sha512_hexdigest root before = inr found ->
  parts c = root ++ rel ->
  skipped c = false ->
  load c = Loaded (Some raw) ->
  raw_metadata raw = Some (inl e) ->
  blueprints_find sha512_hexdigest root (before ++ c :: after) = inl e.
Proof.
  unfold blueprints_find. intros Hbefore Hparts Hskip Hload Hmeta.
  rewrite blueprints_find_loop_app, Hbefore. simpl.
  unfold blueprints_find_step, skipped in *.
  rewrite Hparts, BlueprintsSpec.relative_to_app.
  rewrite Hparts, Hload in Hskip.
  apply orb_false_iff in Hskip as [-> Hv].
  rewrite Hload. simpl. rewrite Hv, Hmeta. reflexivity.
Qed.

End Scanner.

(** *** The instance table *)

Lemma db_save_length i tbl :
  length (db_save i tbl) =
    match by_pk (pk i) tbl with
    | Some _ => length tbl
    | None => S (length tbl)
    end.
Proof.
  unfold by_pk. induction tbl as [|j tbl IH]; simpl; [done|].
  destruct (String.eqb (pk j) (pk i)); simpl; [done|].
  rewrite IH. by destruct (List.find _ tbl).
Qed.

Lemma db_save_pks i tbl :
  pk <$> db_save i tbl =
    match by_pk (pk i) tbl with
    | Some _ => pk <$> tbl
    | None => (pk <$> tbl) ++ [pk i]
    end.
Proof.
  unfold by_pk. induction tbl as [|j tbl IH]; [done|].
  cbn [db_save List.find].
  destruct (String.eqb_spec (pk j) (pk i)) as [E|E].
  - rewrite !fmap_cons. by rewrite E.
  - rewrite !fmap_cons, IH. by destruct (List.find _ tbl).
Qed.

Lemma by_pk_None k tbl : by_pk k tbl = None <-> k ∉ pk <$> tbl.
Proof.
  unfold by_pk. induction tbl as [|j tbl IH]; simpl.
  - split; [intros _; apply not_elem_of_nil | done].
  - rewrite not_elem_of_cons.
    destruct (String.eqb_spec (pk j) k) as [E|E].
    + split; [discriminate|]. intros [Hne _]. congruence.
    + rewrite IH. split; [intros H; split; [congruence|done] | by intros [_ H]].
Qed.

(** A saved row is what a lookup by its key returns, lookups by other keys
    see what they saw before, the table grows by one row exactly when the
    key is new, and distinct keys stay distinct. *)
Lemma db_save_then_lookup i tbl :
  (forall k,
     by_pk k (db_save i tbl) = if decide (k = pk i) then Some i else by_pk k tbl)
  /\ length (db_save i tbl) =
       (if decide (pk i ∈ pk <$> tbl) then length tbl else S (length tbl))
  /\ (NoDup (pk <$> tbl) -> NoDup (pk <$> db_save i tbl)).
Proof.
  split; [|split].
  - intros k. case_decide as Hk.
    + subst k. apply BlueprintsSpec.by_pk_db_save.
    + by apply BlueprintsSpec.by_pk_db_save_ne.
  - rewrite db_save_length.
    destruct (by_pk (pk i) tbl) as [j|] eqn:Hby.
    + rewrite decide_True; [done|].
      destruct (decide (pk i ∈ pk <$> tbl)) as [|Hn]; [done|].
      apply by_pk_None in Hn. congruence.
    + rewrite decide_False; [done|]. by apply by_pk_None.
  - intros Hnd. rewrite db_save_pks.
    destruct (by_pk (pk i) tbl) eqn:Hby; [done|].
    apply NoDup_app. split; [done|]. split; [|apply NoDup_singleton].
    intros x Hx Hx'. apply list_elem_of_singleton in Hx'. subst x.
    by apply by_pk_None in Hby.
Qed.

(** *** Reconciliation *)

Section Discovery.
Variable LABEL_AUTHENTIK_INSTANTIATE : string.
Variable env : Collaborators.

Abbreviation discovery_loop :=
  (blueprints_discovery_loop LABEL_AUTHENTIK_INSTANTIATE env).

(** X12: a pass with a path filter is the pass without filter over the
    descriptors of that path; the empty string as filter is no filter. *)
Theorem path_filter_selects_descriptors path_filter blueprints count w :
  discovery_loop path_filter blueprints count w
  = discovery_loop None (List.filter (considered path_filter) blueprints)
      count w
  /\ (path_filter = Some "" ->
      List.filter (considered path_filter) blueprints = blueprints)
  /\ (forall p b,
        path_filter = Some p -> p <> "" ->
        (b ∈ List.filter (considered path_filter) blueprints
         <-> b ∈ blueprints /\ path b = p)).
Proof.
  split; [|split].
  - revert count w. induction blueprints as [|b bs IH]; intros count w; [done|].
    cbn [blueprints_discovery_loop List.filter]. unfold considered at 1.
    destruct (Py.truthy_opt path_filter
              && negb (bool_decide (Some (path b) = path_filter)))%bool;
      simpl; [apply IH|].
    unfold mbind, M_bind, bind.
    destruct (check_blueprint_v1_file LABEL_AUTHENTIK_INSTANTIATE env b w)
      as [w1 [e|[]]]; [done|apply IH].
  - intros ->. induction blueprints as [|b bs IH]; [done|].
    cbn [List.filter]. unfold considered at 1. simpl. by rewrite IH.
  - intros p b -> Hp. rewrite !list_elem_of_In, filter_In.
    unfold considered. simpl.
    assert (Py.truthy p = true) as -> by (by destruct p).
    simpl. rewrite negb_involutive, bool_decide_eq_true.
    split; intros [Hin H]; (split; [done|]); congruence.
Qed.

(** X13: with the store answering, a pass reports the number of descriptors
    it looked at, those marked discovery-only included. *)
Theorem discovery_reports_descriptors_considered path_filter blueprints w :
  db_fault env OpFilterPath = None ->
  db_fault env OpSaveCreated = None ->
  let out := blueprints_discovery LABEL_AUTHENTIK_INSTANTIATE env
               (inr blueprints) path_filter w in
  out.2 = inr tt
  /\ reports (task out.1) =
       reports (task w)
       ++ [SetStatus TS_SUCCESSFUL
             ["Successfully imported "
              +:+ pretty (Z.of_nat
                            (length (List.filter (considered path_filter)
                                       blueprints)))
              +:+ " files."]].
Proof.
  intros Hdb1 Hdb2 out. subst out.
  assert (forall bs count w0,
            (discovery_loop path_filter bs count w0).2
            = inr (count + Z.of_nat (length (List.filter (considered path_filter)
                                               bs)))) as Hcount.
  { induction bs as [|b bs IH]; intros count w0.
    - simpl. f_equal. lia.
    - cbn [blueprints_discovery_loop List.filter]. unfold considered at 1.
      destruct (Py.truthy_opt path_filter
                && negb (bool_decide (Some (path b) = path_filter)))%bool;
        simpl; [apply IH|].
      unfold mbind, M_bind, bind.
      assert ((check_blueprint_v1_file LABEL_AUTHENTIK_INSTANTIATE env b w0).2
              = inr tt) as Hok.
      { unfold check_blueprint_v1_file, save, db_call, delay, draw_pk, when,
          mbind, M_bind, bind, mret, M_ret, ret, modify, get.
        rewrite Hdb1. simpl.
        destruct (instantiate_false LABEL_AUTHENTIK_INSTANTIATE b); [done|].
        destruct (by_path (path b) (objects w0)); simpl.
        - by case_bool_decide.
        - rewrite Hdb2. simpl. by case_bool_decide. }
      destruct (check_blueprint_v1_file LABEL_AUTHENTIK_INSTANTIATE env b w0)
        as [w1 [e|[]]]; [discriminate|].
      rewrite IH. f_equal. rewrite Nat2Z.inj_succ. lia. }
  pose proof (BlueprintsSpec.blueprints_discovery_loop_task
                LABEL_AUTHENTIK_INSTANTIATE env (conj Hdb1 Hdb2) path_filter
                blueprints 0 w)
    as Htask.
  specialize (Hcount blueprints 0 w).
  unfold blueprints_discovery, mbind, M_bind, bind.
  destruct (discovery_loop path_filter blueprints 0 w) as [w' r].
  simpl in *. subst r. unfold report, modify. simpl.
  rewrite Htask. by split.
Qed.

(** X14: with the store answering, distinct keys in the table and new keys
    drawn for new rows, one pass without path filter over descriptors of
    distinct paths queues, for every descriptor that is not discovery-only,
    exactly one apply for the instance of its path when that instance's
    digest differs from the descriptor's, and none when they are equal. *)
Theorem pass_schedules_one_apply_per_changed_descriptor blueprints b w :
  db_fault env OpFilterPath = None ->
  db_fault env OpSaveCreated = None ->
  Inj (=) (=) (uuid4 env) ->
  keys_ok env w ->
  NoDup (path <$> blueprints) ->
  b ∈ blueprints ->
  instantiate_false LABEL_AUTHENTIK_INSTANTIATE b = false ->
  exists w' msgs inst,
    blueprints_discovery LABEL_AUTHENTIK_INSTANTIATE env (inr blueprints) None w
    = (w', inr tt)
    /\ queue w' = queue w ++ msgs
    /\ by_path (path b) (objects w') = Some inst
    /\ length (filter (fun m => m = pk inst) msgs)
       = (if bool_decide (last_applied_hash inst = hash b)
          then 0%nat else 1%nat).
Proof.
  intros Hdb1 Hdb2 Hinj Hkeys Hnd Hb Hs.
  destruct (BlueprintsSpec.blueprints_discovery_schedules_once
              LABEL_AUTHENTIK_INSTANTIATE env (conj Hdb1 Hdb2) Hinj
              blueprints b w Hkeys Hnd Hb Hs)
    as (w' & msgs & inst & Hrun & Hq & Hby & Hlen & _).
  by exists w', msgs, inst.
Qed.

End Discovery.

(** *** Apply *)

Lemma db_save_twice i1 i2 tbl :
  pk i1 = pk i2 -> db_save i2 (db_save i1 tbl) = db_save i2 tbl.
Proof.
  intros Hpk. induction tbl as [|j tbl IH]; simpl.
  - destruct (String.eqb_spec (pk i1) (pk i2)); congruence.
  - destruct (String.eqb_spec (pk j) (pk i1)) as [E|E]; simpl.
    + destruct (String.eqb_spec (pk i1) (pk i2)); [|congruence].
      destruct (String.eqb_spec (pk j) (pk i2)); congruence.
    + destruct (String.eqb_spec (pk j) (pk i2)); [congruence|].
      by rewrite IH.
Qed.

Ltac unfold_apply :=
  unfold apply_blueprint, apply_blueprint_local, apply_blueprint_try,
    apply_blueprint_except, save_instance, update_instance, set_instance,
    of_outcome, lift, save, report, db_call, try_finally, try_except, mbind,
    M_bind, mret, M_ret, bind, ret, raise, when, modify, get.

Ltac split_cases :=
  repeat (simpl;
          match goal with
          | |- context [db_fault ?e ?o] => destruct (db_fault e o) eqn:?
          | |- context [by_pk ?k ?t] => destruct (by_pk k t) eqn:?
          | |- context [enabled ?i] => destruct (enabled i) eqn:?
          | |- context [retrieve ?e ?i] => destruct (retrieve e i) eqn:?
          | |- context [from_string ?e ?c ?x] =>
              destruct (from_string e c x) eqn:?
          | |- context [blueprint_metadata ?m] =>
              destruct (blueprint_metadata m) eqn:?
          | |- context [validate ?m] => destruct (validate m) eqn:?
          | |- context [apply ?m] => destruct (apply m) eqn:?
          | |- context [recognized ?e] => destruct (recognized e) eqn:?
          | |- context [let (_, _) := ?x in _] => is_var x; destruct x
          | |- context [if ?x then _ else _] => is_var x; destruct x
          | |- context [negb ?x] => is_var x; destruct x
          end).

Section Apply.
Variable sha512_hexdigest : string -> string.
Variable slugify : string -> string.

Abbreviation apply_blueprint' := (apply_blueprint sha512_hexdigest slugify).

(** Every run of [apply_blueprint], whatever the collaborators return: the
    table is as before, or the row of the key has been written once more. *)
Lemma apply_blueprint_outcome env instance_pk w :
  let out := apply_blueprint' env instance_pk w in
  queue out.1 = queue w
  /\ uuid_draws out.1 = uuid_draws w
  /\ save_on_success (task out.1) = false
  /\ (objects out.1 = objects w
      \/ exists i i',
           by_pk instance_pk (objects w) = Some i
           /\ objects out.1 = db_save i' (objects w)
           /\ same_row i i'
           /\ ((last_applied_hash i' = last_applied_hash i
                /\ last_applied i' = last_applied i
                /\ (status i' = status i \/ status i' = ERROR))
               \/ (status i' = SUCCESSFUL
                   /\ exists content,
                        retrieve env i = inr content
                        /\ last_applied_hash i' = sha512_hexdigest content
                        /\ last_applied i' = Some (now env)))).
Proof.
  unfold_apply. split_cases; simpl;
    (split; [reflexivity|]); (split; [reflexivity|]); (split; [reflexivity|]);
    first
      [ left; reflexivity
      | right; eexists _, _; split; [reflexivity|];
        split; [first [reflexivity | by rewrite db_save_twice]|];
        split; [by repeat split|];
        first [ left; by eauto
              | right; split; [reflexivity|]; eexists; by repeat split ] ].
Qed.

(** X16: [last_applied_hash] and [last_applied] change only in a run that
    ends with status [SUCCESSFUL]; they are then the digest of the content
    retrieved in that run and the time of the run. *)
Theorem hash_written_only_on_success env instance_pk w i i' :
  by_pk instance_pk (objects w) = Some i ->
  by_pk instance_pk (objects (apply_blueprint' env instance_pk w).1) = Some i' ->
  (last_applied_hash i' = last_applied_hash i
   /\ last_applied i' = last_applied i)
  \/ (status i' = SUCCESSFUL
      /\ exists content,
           retrieve env i = inr content
           /\ last_applied_hash i' = sha512_hexdigest content
           /\ last_applied i' = Some (now env)).
Proof.
  intros Hby Hby'.
  destruct (apply_blueprint_outcome env instance_pk w)
    as (_ & _ & _ & [Hsame|(j & j' & Hj & Hobj & Hrow & Hcase)]).
  - rewrite Hsame, Hby in Hby'. injection Hby' as <-. by left.
  - rewrite Hby in Hj. injection Hj as <-.
    destruct (BlueprintsSpec.by_pk_Some _ _ _ Hby) as [Hpk _].
    assert (pk j' = instance_pk) as Hpk' by (destruct Hrow; congruence).
    rewrite Hobj, <- Hpk', BlueprintsSpec.by_pk_db_save in Hby'.
    injection Hby' as <-.
    destruct Hcase as [(Hh & Hl & _)|Hok]; [by left|by right].
Qed.

(** X17: when validation rejects the blueprint, the row is written with
    status [ERROR] and with the parsed metadata, if any; its digest and
    time of last apply stay; the task reports [ERROR] with the validation
    log and returns. *)
Theorem invalid_blueprint_is_recorded env instance_pk w i content imp logs :
  db_fault env OpFilterPk = None ->
  db_fault env OpSaveInvalid = None ->
  db_fault env OpSaveFinally = None ->
  by_pk instance_pk (objects w) = Some i ->
  enabled i = true ->
  retrieve env i = inr content ->
  from_string env content (context i) = inr imp ->
  validate imp = inr (false, logs) ->
  let out := apply_blueprint' env instance_pk w in
  let m := match blueprint_metadata imp with
           | Some m => Some m
           | None => metadata i
           end in
  out.2 = inr tt
  /\ by_pk instance_pk (objects out.1)
     = Some (with_status ERROR (with_metadata m i))
  /\ reports (task out.1)
     = reports (task w) ++ [SetUid (slugify (name i)); SetStatus TS_ERROR logs].
Proof.
  intros Hdb1 Hdb2 Hdb3 Hby Hen Hret Himp Hval out m. subst out m.
  destruct (BlueprintsSpec.by_pk_Some _ _ _ Hby) as [Hpk _].
  unfold_apply. simpl. rewrite Hdb1. simpl. rewrite Hby, Hen. simpl.
  rewrite Hret. simpl. rewrite Himp. simpl.
  destruct (blueprint_metadata imp) as [m|]; simpl; rewrite Hval; simpl;
    rewrite Hdb2; simpl; rewrite Hdb3; simpl;
    (split; [reflexivity|]); rewrite <- app_assoc;
    (split; [|reflexivity]); rewrite db_save_twice by reflexivity;
    rewrite <- Hpk.
  - exact (BlueprintsSpec.by_pk_db_save
             (with_status ERROR (with_metadata (Some m) i)) (objects w)).
  - assert (with_status ERROR (with_metadata (metadata i) i)
            = with_status ERROR i) as -> by (by destruct i).
    exact (BlueprintsSpec.by_pk_db_save (with_status ERROR i) (objects w)).
Qed.

(** X18: when the apply step reports failure, the row is written with
    status [ERROR]; its digest and time of last apply stay; the task reports
    [ERROR] with the captured log and returns. *)
Theorem failed_apply_is_recorded env instance_pk w i content imp logs logs' :
  db_fault env OpFilterPk = None ->
  db_fault env OpSaveNotApplied = None ->
  db_fault env OpSaveFinally = None ->
  by_pk instance_pk (objects w) = Some i ->
  enabled i = true ->
  retrieve env i = inr content ->
  from_string env content (context i) = inr imp ->
  validate imp = inr (true, logs) ->
  apply imp = inr (false, logs') ->
  let out := apply_blueprint' env instance_pk w in
  let m := match blueprint_metadata imp with
           | Some m => Some m
           | None => metadata i
           end in
  out.2 = inr tt
  /\ by_pk instance_pk (objects out.1)
     = Some (with_status ERROR (with_metadata m i))
  /\ reports (task out.1)
     = reports (task w) ++ [SetUid (slugify (name i)); SetStatus TS_ERROR logs'].
Proof.
  intros Hdb1 Hdb2 Hdb3 Hby Hen Hret Himp Hval Happ out m. subst out m.
  destruct (BlueprintsSpec.by_pk_Some _ _ _ Hby) as [Hpk _].
  unfold_apply. simpl. rewrite Hdb1. simpl. rewrite Hby, Hen. simpl.
  rewrite Hret. simpl. rewrite Himp. simpl.
  destruct (blueprint_metadata imp) as [m|]; simpl; rewrite Hval; simpl;
    rewrite Happ; simpl;
    rewrite Hdb2; simpl; rewrite Hdb3; simpl;
    (split; [reflexivity|]); rewrite <- app_assoc;
    (split; [|reflexivity]); rewrite db_save_twice by reflexivity;
    rewrite <- Hpk.
  - exact (BlueprintsSpec.by_pk_db_save
             (with_status ERROR (with_metadata (Some m) i)) (objects w)).
  - assert (with_status ERROR (with_metadata (metadata i) i)
            = with_status ERROR i) as -> by (by destruct i).
    exact (BlueprintsSpec.by_pk_db_save (with_status ERROR i) (objects w)).
Qed.

(** X19: an exception that the [except] clause does not name leaves the
    task; the [finally] block has still written the row, which is as it was
    read, and nothing but the task's uid has been reported. *)
Theorem unnamed_exception_leaves_the_task env instance_pk w i e :
  db_fault env OpFilterPk = None ->
  db_fault env OpSaveFinally = None ->
  by_pk instance_pk (objects w) = Some i ->
  enabled i = true ->
  retrieve env i = inl e ->
  recognized e = false ->
  let out := apply_blueprint' env instance_pk w in
  out.2 = inl e
  /\ objects out.1 = objects w
  /\ reports (task out.1) = reports (task w) ++ [SetUid (slugify (name i))].
Proof.
  intros Hdb Hfin Hby Hen Hret Hrec out. subst out.
  unfold_apply. simpl. rewrite Hdb. simpl. rewrite Hby, Hen. simpl.
  rewrite Hret. simpl. rewrite Hrec. simpl. rewrite Hfin. simpl.
  rewrite (BlueprintsSpec.db_save_unchanged _ _ _ Hby). by repeat split.
Qed.

(** X20: when the write of the [finally] block fails for a bound instance,
    its exception is the outcome of the task, whatever happened in the
    [try] block and in the [except] clause. *)
Theorem final_save_failure_leaves_the_task env instance_pk w i e :
  db_fault env OpFilterPk = None ->
  by_pk instance_pk (objects w) = Some i ->
  db_fault env OpSaveFinally = Some e ->
  (apply_blueprint' env instance_pk w).2 = inl e.
Proof.
  intros Hdb Hby Hfin.
  unfold_apply. simpl. rewrite Hdb. simpl. rewrite Hby. simpl.
  rewrite ?Hfin.
  split_cases; simpl; rewrite ?Hfin; try reflexivity; congruence.
Qed.

(** *** Apply and reconciliation together *)

Lemma by_path_db_save p i i' tbl :
  by_pk (pk i) tbl = Some i ->
  by_path p tbl = Some i ->
  pk i' = pk i ->
  instance_path i' = p ->
  by_path p (db_save i' tbl) = Some i'.
Proof.
  intros Hpk Hpath Hpk' Hp'. unfold by_pk, by_path in *.
  induction tbl as [|j tbl IH]; simpl in *; [discriminate|].
  rewrite Hpk'.
  destruct (String.eqb_spec (pk j) (pk i)) as [E|E]; simpl.
  - by rewrite Hp', String.eqb_refl.
  - destruct (String.eqb_spec (instance_path j) p) as [E'|E'].
    + injection Hpath as ->. congruence.
    + by apply IH.
Qed.

(** The row of the key after a run is the first row of its path, as
    before. *)
Lemma apply_blueprint_keeps_path env instance_pk w i p i' :
  by_pk instance_pk (objects w) = Some i ->
  by_path p (objects w) = Some i ->
  by_pk instance_pk (objects (apply_blueprint' env instance_pk w).1) = Some i' ->
  by_path p (objects (apply_blueprint' env instance_pk w).1) = Some i'.
Proof.
  intros Hby Hpath Hby'.
  destruct (BlueprintsSpec.by_pk_Some _ _ _ Hby) as [Hpk _].
  destruct (BlueprintsSpec.by_path_Some _ _ _ Hpath) as [Hp _].
  destruct (apply_blueprint_outcome env instance_pk w)
    as (_ & _ & _ & [Hsame|(j & j' & Hj & Hobj & Hrow & _)]).
  - rewrite Hsame in *. congruence.
  - rewrite Hby in Hj. injection Hj as <-.
    destruct Hrow as (Hpk' & _ & Hp' & _).
    rewrite Hobj in *.
    assert (j' = i') as ->.
    { rewrite <- Hpk, <- Hpk', BlueprintsSpec.by_pk_db_save in Hby'.
      congruence. }
    apply (by_path_db_save p i i'); congruence.
Qed.

Section Together.
Variable LABEL_AUTHENTIK_INSTANTIATE : string.

(** X21: after a run that went through, the check of a descriptor of the
    same path whose digest is the digest of the applied content changes
    nothing: no row is written and no apply is queued. *)
Theorem applied_blueprint_is_not_scheduled_again
  env env' instance_pk w i content blueprint :
  by_pk instance_pk (objects w) = Some i ->
  by_path (path blueprint) (objects w) = Some i ->
  enabled i = true ->
  apply_succeeds env i content ->
  hash blueprint = sha512_hexdigest content ->
  db_fault env' OpFilterPath = None ->
  let w1 := (apply_blueprint' env instance_pk w).1 in
  check_blueprint_v1_file LABEL_AUTHENTIK_INSTANTIATE env' blueprint w1
  = (w1, inr tt).
Proof.
  intros Hby Hpath Hen Hok Hhash Hdb w1.
  destruct (BlueprintsSpec.apply_blueprint_success sha512_hexdigest slugify
              env instance_pk w i content Hby Hen Hok)
    as (i' & _ & Hby' & _ & Hh & _).
  pose proof (apply_blueprint_keeps_path env instance_pk w i _ i' Hby Hpath Hby')
    as Hpath'.
  fold w1 in Hpath'.
  unfold check_blueprint_v1_file, save, db_call, delay, draw_pk, when,
    mbind, M_bind, bind, mret, M_ret, ret, modify, get.
  rewrite Hdb. simpl.
  destruct (instantiate_false LABEL_AUTHENTIK_INSTANTIATE blueprint); [done|].
  rewrite Hpath'. simpl.
  by rewrite bool_decide_eq_true_2 by congruence.
Qed.

(** X22: when the digest of a descriptor differs from the one of its row,
    a run of [apply_blueprint] that does not end with status [SUCCESSFUL]
    leaves that so, and the next check of the descriptor queues the apply
    again. *)
Theorem unsuccessful_apply_is_scheduled_again
  env env' instance_pk w i blueprint i' :
  by_pk instance_pk (objects w) = Some i ->
  by_path (path blueprint) (objects w) = Some i ->
  last_applied_hash i <> hash blueprint ->
  instantiate_false LABEL_AUTHENTIK_INSTANTIATE blueprint = false ->
  db_fault env' OpFilterPath = None ->
  let w1 := (apply_blueprint' env instance_pk w).1 in
  by_pk instance_pk (objects w1) = Some i' ->
  status i' <> SUCCESSFUL ->
  let out := check_blueprint_v1_file LABEL_AUTHENTIK_INSTANTIATE env' blueprint
               w1 in
  out.2 = inr tt
  /\ queue out.1 = queue w ++ [instance_pk]
  /\ objects out.1 = objects w1.
Proof.
  intros Hby Hpath Hdiff Hinst Hdb w1 Hby' Hst out. subst out.
  pose proof (apply_blueprint_keeps_path env instance_pk w i _ i' Hby Hpath Hby')
    as Hpath'.
  fold w1 in Hpath'.
  assert (last_applied_hash i' = last_applied_hash i) as Hh.
  { destruct (apply_blueprint_outcome env instance_pk w)
      as (_ & _ & _ & [Hsame|(j & j' & Hj & Hobj & Hrow & Hcase)]).
    - fold w1 in Hsame. rewrite Hsame, Hby in Hby'. by injection Hby' as <-.
    - fold w1 in Hobj. rewrite Hby in Hj. injection Hj as <-.
      destruct (BlueprintsSpec.by_pk_Some _ _ _ Hby) as [Hpk _].
      assert (pk j' = instance_pk) as Hpk' by (destruct Hrow; congruence).
      rewrite Hobj, <- Hpk', BlueprintsSpec.by_pk_db_save in Hby'.
      injection Hby' as <-.
      destruct Hcase as [(Hh & _)|[Hs _]]; [exact Hh|congruence]. }
  destruct (BlueprintsSpec.by_pk_Some _ _ _ Hby') as [Hpk' _].
  destruct (apply_blueprint_outcome env instance_pk w) as (Hq & _).
  fold w1 in Hq.
  unfold check_blueprint_v1_file, save, db_call, delay, draw_pk, when,
    mbind, M_bind, bind, mret, M_ret, ret, modify, get.
  rewrite Hdb. simpl. rewrite Hinst, Hpath'. simpl.
  rewrite bool_decide_eq_false_2 by congruence. simpl.
  by rewrite Hq, Hpk'.
Qed.

End Together.

End Apply.

(** *** Concrete runs *)

Import BlueprintSamples MoreSamples.

Lemma blueprints_find_yields_valid_descriptors_witness :
  let candidates :=
    [hidden_candidate; v2_candidate; broken_candidate;
     candidate_below plain_root] in
  blueprints_find toy_digest plain_root candidates = inr [flow_descriptor]
  /\ Forall
       (fun b =>
          version b = 1
          /\ exists c rel,
               c ∈ candidates
               /\ parts c = plain_root ++ rel
               /\ skipped c = false
               /\ path b = str_path rel
               /\ hash b = toy_digest (read_bytes c)
               /\ last_m b = st_mtime c)
       [flow_descriptor]
  /\ (length [flow_descriptor] <= length candidates)%nat.
Proof.
  intros candidates. split; [reflexivity|].
  apply (blueprints_find_yields_valid_descriptors toy_digest plain_root
           candidates [flow_descriptor]).
  reflexivity.
Defined.

Lemma skipped_candidate_leaves_no_trace_witness :
  parts v2_candidate = plain_root ++ ["flows"; "v2.yaml"]
  /\ skipped v2_candidate = true
  /\ blueprints_find toy_digest plain_root
       ([hidden_candidate] ++ v2_candidate :: [candidate_below plain_root])
     = blueprints_find toy_digest plain_root
         ([hidden_candidate] ++ [candidate_below plain_root]).
Proof.
  split; [reflexivity|]. split; [reflexivity|].
  apply (skipped_candidate_leaves_no_trace toy_digest plain_root
           [hidden_candidate] v2_candidate [candidate_below plain_root]
           ["flows"; "v2.yaml"]); reflexivity.
Defined.

Lemma undecodable_metadata_fails_the_scan_witness :
  blueprints_find toy_digest plain_root [candidate_below plain_root]
    = inr [flow_descriptor]
  /\ parts bad_metadata_candidate = plain_root ++ ["flows"; "meta.yaml"]
  /\ skipped bad_metadata_candidate = false
  /\ load bad_metadata_candidate
     = Loaded (Some {| raw_metadata := Some (inl (OtherError "MissingValueError"));
                       raw_version := None |})
  /\ blueprints_find toy_digest plain_root
       ([candidate_below plain_root] ++ bad_metadata_candidate :: [v2_candidate])
     = inl (OtherError "MissingValueError").
Proof.
  split; [reflexivity|]. split; [reflexivity|]. split; [reflexivity|].
  split; [reflexivity|].
  apply (undecodable_metadata_fails_the_scan toy_digest plain_root
           [candidate_below plain_root] bad_metadata_candidate [v2_candidate]
           ["flows"; "meta.yaml"]
           {| raw_metadata := Some (inl (OtherError "MissingValueError"));
              raw_version := None |}
           (OtherError "MissingValueError") [flow_descriptor]); reflexivity.
Defined.

Lemma discovery_reports_descriptors_considered_witness :
  let out := blueprints_discovery INSTANTIATE env_ok
               (inr [flow_descriptor; discovery_only_descriptor; new_descriptor])
               (Some "flows/default.yaml") a_world in
  db_fault env_ok OpFilterPath = None
  /\ db_fault env_ok OpSaveCreated = None
  /\ out.2 = inr tt
  /\ reports (task out.1) =
       [SetStatus TS_SUCCESSFUL ["Successfully imported 2 files."]].
Proof.
  intros out. split; [reflexivity|]. split; [reflexivity|].
  exact (discovery_reports_descriptors_considered INSTANTIATE env_ok
           (Some "flows/default.yaml")
           [flow_descriptor; discovery_only_descriptor; new_descriptor]
           a_world eq_refl eq_refl).
Defined.

Lemma uuids_inj : Inj (=) (=) uuids.
Proof.
  intros n m H. unfold uuids in H.
  apply (inj (String.app "uuid-")) in H. by apply (inj pretty) in H.
Qed.

Lemma a_world_keys_ok : keys_ok env_ok a_world.
Proof.
  split.
  - apply (bool_decide_unpack _). by vm_compute.
  - intros n _ Hin. simpl in Hin. unfold uuids in Hin.
    apply elem_of_cons in Hin as [Hin|Hin]; [discriminate|].
    apply elem_of_cons in Hin as [Hin|Hin]; [discriminate|].
    by apply elem_of_nil in Hin.
Qed.

Lemma pass_schedules_one_apply_per_changed_descriptor_witness :
  let blueprints := [discovery_only_descriptor; new_descriptor] in
  db_fault env_ok OpFilterPath = None
  /\ db_fault env_ok OpSaveCreated = None
  /\ Inj (=) (=) (uuid4 env_ok)
  /\ keys_ok env_ok a_world
  /\ NoDup (path <$> blueprints)
  /\ new_descriptor ∈ blueprints
  /\ instantiate_false INSTANTIATE new_descriptor = false
  /\ exists w' msgs inst,
       blueprints_discovery INSTANTIATE env_ok (inr blueprints) None a_world
       = (w', inr tt)
       /\ queue w' = queue a_world ++ msgs
       /\ by_path (path new_descriptor) (objects w') = Some inst
       /\ length (filter (fun m => m = pk inst) msgs)
          = (if bool_decide (last_applied_hash inst = hash new_descriptor)
             then 0%nat else 1%nat).
Proof.
  intros blueprints.
  assert (NoDup (path <$> blueprints)) as Hnd
    by (apply (bool_decide_unpack _); by vm_compute).
  assert (new_descriptor ∈ blueprints) as Hin by (right; left).
  split; [reflexivity|]. split; [reflexivity|]. split; [exact uuids_inj|].
  split; [exact a_world_keys_ok|]. split; [exact Hnd|]. split; [exact Hin|].
  split; [reflexivity|].
  exact (pass_schedules_one_apply_per_changed_descriptor INSTANTIATE env_ok
           blueprints new_descriptor a_world eq_refl eq_refl uuids_inj
           a_world_keys_ok Hnd Hin eq_refl).
Defined.

Lemma unnamed_exception_leaves_the_task_witness :
  let out := apply_blueprint toy_digest toy_slugify env_yaml_error "6a0c"
               a_world in
  db_fault env_yaml_error OpFilterPk = None
  /\ db_fault env_yaml_error OpSaveFinally = None
  /\ by_pk "6a0c" (objects a_world) = Some flow_instance
  /\ enabled flow_instance = true
  /\ retrieve env_yaml_error flow_instance = inl YAMLError
  /\ recognized YAMLError = false
  /\ out.2 = inl YAMLError
  /\ objects out.1 = objects a_world
  /\ reports (task out.1) = [SetUid "default flow"].
Proof.
  intros out. do 6 (split; [reflexivity|]).
  exact (unnamed_exception_leaves_the_task toy_digest toy_slugify
           env_yaml_error "6a0c" a_world flow_instance YAMLError eq_refl
           eq_refl eq_refl eq_refl eq_refl eq_refl).
Defined.

Lemma final_save_failure_leaves_the_task_witness :
  db_fault env_final_save_fails OpFilterPk = None
  /\ by_pk "6a0c" (objects a_world) = Some flow_instance
  /\ db_fault env_final_save_fails OpSaveFinally = Some DatabaseError
  /\ (apply_blueprint toy_digest toy_slugify env_final_save_fails "6a0c"
        a_world).2 = inl DatabaseError.
Proof.
  do 3 (split; [reflexivity|]).
  exact (final_save_failure_leaves_the_task toy_digest toy_slugify
           env_final_save_fails "6a0c" a_world flow_instance DatabaseError
           eq_refl eq_refl eq_refl).
Defined.

Lemma invalid_blueprint_is_recorded_witness :
  let out := apply_blueprint toy_digest toy_slugify env_invalid "6a0c" a_world in
  by_pk "6a0c" (objects a_world) = Some flow_instance
  /\ enabled flow_instance = true
  /\ retrieve env_invalid flow_instance = inr "version: 1"
  /\ from_string env_invalid "version: 1" (context flow_instance)
     = inr bad_importer
  /\ validate bad_importer = inr (false, ["entry 0 is invalid"])
  /\ out.2 = inr tt
  /\ by_pk "6a0c" (objects out.1) = Some renamed_error_instance
  /\ reports (task out.1)
     = [SetUid "default flow"; SetStatus TS_ERROR ["entry 0 is invalid"]].
Proof.
  intros out. do 5 (split; [reflexivity|]).
  exact (invalid_blueprint_is_recorded toy_digest toy_slugify env_invalid
           "6a0c" a_world flow_instance "version: 1" bad_importer
           ["entry 0 is invalid"] eq_refl eq_refl eq_refl eq_refl eq_refl
           eq_refl eq_refl eq_refl).
Defined.

Lemma failed_apply_is_recorded_witness :
  let out := apply_blueprint toy_digest toy_slugify env_not_applied "6a0c"
               a_world in
  by_pk "6a0c" (objects a_world) = Some flow_instance
  /\ enabled flow_instance = true
  /\ retrieve env_not_applied flow_instance = inr "version: 1"
  /\ from_string env_not_applied "version: 1" (context flow_instance)
     = inr failing_importer
  /\ validate failing_importer = inr (true, [])
  /\ apply failing_importer = inr (false, ["could not apply entry 0"])
  /\ out.2 = inr tt
  /\ by_pk "6a0c" (objects out.1) = Some (with_status ERROR flow_instance)
  /\ reports (task out.1)
     = [SetUid "default flow"; SetStatus TS_ERROR ["could not apply entry 0"]].
Proof.
  intros out. do 6 (split; [reflexivity|]).
  exact (failed_apply_is_recorded toy_digest toy_slugify env_not_applied
           "6a0c" a_world flow_instance "version: 1" failing_importer
           [] ["could not apply entry 0"] eq_refl eq_refl eq_refl eq_refl
           eq_refl eq_refl eq_refl eq_refl eq_refl).
Defined.

Lemma hash_written_only_on_success_witness :
  by_pk "6a0c" (objects a_world) = Some flow_instance
  /\ by_pk "6a0c"
       (objects (apply_blueprint toy_digest toy_slugify env_ok "6a0c"
                   a_world).1) = Some applied_instance
  /\ ((last_applied_hash applied_instance = last_applied_hash flow_instance
       /\ last_applied applied_instance = last_applied flow_instance)
      \/ (status applied_instance = SUCCESSFUL
          /\ exists content,
               retrieve env_ok flow_instance = inr content
               /\ last_applied_hash applied_instance = toy_digest content
               /\ last_applied applied_instance = Some (now env_ok))).
Proof.
  assert (by_pk "6a0c"
            (objects (apply_blueprint toy_digest toy_slugify env_ok "6a0c"
                        a_world).1) = Some applied_instance) as Hafter
    by (vm_compute; reflexivity).
  split; [reflexivity|]. split; [exact Hafter|].
  exact (hash_written_only_on_success toy_digest toy_slugify env_ok "6a0c"
           a_world flow_instance applied_instance eq_refl Hafter).
Defined.

Lemma applied_blueprint_is_not_scheduled_again_witness :
  let w1 := (apply_blueprint toy_digest toy_slugify env_ok "6a0c" a_world).1 in
  by_pk "6a0c" (objects a_world) = Some flow_instance
  /\ by_path (path flow_descriptor) (objects a_world) = Some flow_instance
  /\ enabled flow_instance = true
  /\ hash flow_descriptor = toy_digest "version: 1"
  /\ db_fault env_ok OpFilterPath = None
  /\ check_blueprint_v1_file INSTANTIATE env_ok flow_descriptor w1
     = (w1, inr tt).
Proof.
  intros w1. do 5 (split; [reflexivity|]).
  apply (applied_blueprint_is_not_scheduled_again toy_digest toy_slugify
           INSTANTIATE env_ok env_ok "6a0c" a_world flow_instance
           "version: 1" flow_descriptor); try reflexivity.
  repeat split. exists good_importer, [], []. by repeat split.
Defined.

Lemma unsuccessful_apply_is_scheduled_again_witness :
  let w1 := (apply_blueprint toy_digest toy_slugify env_invalid "6a0c"
               a_world).1 in
  let out := check_blueprint_v1_file INSTANTIATE env_ok flow_descriptor w1 in
  by_pk "6a0c" (objects a_world) = Some flow_instance
  /\ by_path (path flow_descriptor) (objects a_world) = Some flow_instance
  /\ last_applied_hash flow_instance <> hash flow_descriptor
  /\ instantiate_false INSTANTIATE flow_descriptor = false
  /\ db_fault env_ok OpFilterPath = None
  /\ by_pk "6a0c" (objects w1) = Some renamed_error_instance
  /\ status renamed_error_instance <> SUCCESSFUL
  /\ out.2 = inr tt
  /\ queue out.1 = queue a_world ++ ["6a0c"]
  /\ objects out.1 = objects w1.
Proof.
  intros w1 out.
  assert (last_applied_hash flow_instance <> hash flow_descriptor) as Hdiff
    by discriminate.
  assert (by_pk "6a0c" (objects w1) = Some renamed_error_instance) as Hafter
    by (vm_compute; reflexivity).
  assert (status renamed_error_instance <> SUCCESSFUL) as Hst by discriminate.
  split; [reflexivity|]. split; [reflexivity|]. split; [exact Hdiff|].
  split; [reflexivity|]. split; [reflexivity|]. split; [exact Hafter|].
  split; [exact Hst|].
  exact (unsuccessful_apply_is_scheduled_again toy_digest toy_slugify
           INSTANTIATE env_invalid env_ok "6a0c" a_world flow_instance
           flow_descriptor renamed_error_instance eq_refl eq_refl Hdiff
           eq_refl eq_refl Hafter Hst).
Defined.

End BlueprintsExtra.


(** ** Properties of the cleaner and of the watcher *)

Module CleanerSpec.
Import Eff Blueprints Cleaner.

Section Sweep.
Variable OCI_PREFIX : string.
Variable env : Collaborators.

Abbreviation clear_loop' := (clear_loop env).
Abbreviation kept' := (kept OCI_PREFIX env).
Abbreviation fails := (Cleaner.fails env).
Abbreviation sweep := (Cleaner.sweep env).
Abbreviation tame := (Cleaner.tame env).
Abbreviation survives := (Cleaner.survives env).

Lemma with_objects_id w : with_objects (objects w) w = w.
Proof. by destruct w. Qed.

Lemma clear_one_tame r w :
  tame r -> clear_one env r w = (with_objects (sweep (objects w) r) w, inr tt).
Proof.
  intros Htame. unfold clear_one, sweep, fails, try_except, modify, raise,
    mret, M_ret, ret.
  destruct (retrieve env r) as [e|c] eqn:Hret.
  - rewrite (Htame e Hret) in *. by rewrite bool_decide_eq_true_2.
  - rewrite bool_decide_eq_false_2 by discriminate.
    by rewrite with_objects_id.
Qed.

Lemma clear_one_raises r w e :
  retrieve env r = inl e -> e <> BlueprintRetrievalFailed ->
  clear_one env r w = (w, inl e).
Proof.
  intros Hret Hne. unfold clear_one, try_except, raise. rewrite Hret.
  by destruct e.
Qed.

Lemma clear_loop_tame rows :
  forall w,
    Forall tame rows ->
    clear_loop' rows w = (with_objects (foldl sweep (objects w) rows) w, inr tt).
Proof.
  induction rows as [|r rows IH]; intros w Hall; simpl.
  - by rewrite with_objects_id.
  - apply Forall_cons in Hall as [Hr Hall].
    unfold mbind, M_bind, bind. rewrite (clear_one_tame r w Hr).
    rewrite (IH _ Hall). by destruct w.
Qed.

Lemma clear_loop_app l1 l2 w :
  clear_loop' (l1 ++ l2) w =
    match clear_loop' l1 w with
    | (w1, inl e) => (w1, inl e)
    | (w1, inr _) => clear_loop' l2 w1
    end.
Proof.
  revert w. induction l1 as [|r l1 IH]; intros w; simpl; [done|].
  unfold mbind, M_bind, bind.
  destruct (clear_one env r w) as [w1 [e|[]]]; [done|apply IH].
Qed.

Lemma filter_filter {A} (f g : A -> bool) (l : list A) :
  List.filter f (List.filter g l) = List.filter (fun x => g x && f x) l.
Proof.
  induction l as [|x l IH]; simpl; [done|].
  destruct (g x); simpl; [destruct (f x)|]; by rewrite ?IH.
Qed.

Lemma filter_all {A} (l : list A) : List.filter (fun _ => true) l = l.
Proof. induction l as [|x l IH]; simpl; by rewrite ?IH. Qed.

Lemma foldl_sweep_filter rows :
  forall tbl, foldl sweep tbl rows = List.filter (survives rows) tbl.
Proof.
  induction rows as [|r rows IH]; intros tbl; simpl.
  - by rewrite filter_all.
  - rewrite IH.
    change (survives (r :: rows))
      with (fun j => negb (fails r && String.eqb (pk j) (pk r))
                     && survives rows j)%bool.
    unfold Cleaner.sweep, db_delete.
    destruct (fails r); simpl.
    + rewrite filter_filter. by apply filter_ext.
    + by apply filter_ext.
Qed.

Lemma exclude_oci_elem j tbl :
  j ∈ exclude_oci OCI_PREFIX tbl
  <-> j ∈ tbl /\ Py.startswith OCI_PREFIX (instance_path j) = false.
Proof.
  unfold exclude_oci. rewrite !list_elem_of_In, filter_In.
  by rewrite negb_true_iff.
Qed.

(** With distinct keys, a row survives the sweep over rows of the table
    unless it is one of them and its retrieval fails. *)
Lemma survives_iff tbl rows j :
  NoDup (pk <$> tbl) ->
  (forall r, r ∈ rows -> r ∈ tbl) ->
  j ∈ tbl ->
  survives rows j = true <-> ~ (j ∈ rows /\ fails j = true).
Proof.
  intros Hnd Hsub Hj. unfold survives. rewrite forallb_forall. split.
  - intros Hall [Hin Hf]. apply list_elem_of_In in Hin.
    specialize (Hall j Hin). by rewrite Hf, String.eqb_refl in Hall.
  - intros Hnot r Hr. apply list_elem_of_In in Hr.
    destruct (fails r) eqn:Hf; [|done]. simpl.
    destruct (String.eqb_spec (pk j) (pk r)) as [E|E]; [|done].
    exfalso. apply Hnot.
    assert (j = r) as ->
      by (eapply BlueprintsSpec.pk_determines_row; eauto).
    by split.
Qed.

(** X23: when the keys of the table are distinct and retrieval of its
    local rows succeeds or fails with [BlueprintRetrievalFailed], the sweep
    returns and leaves exactly the remote rows and the rows whose content
    could be retrieved, in their order. *)
Theorem cleaner_deletes_unretrievable_local_rows w :
  NoDup (pk <$> objects w) ->
  Forall tame (exclude_oci OCI_PREFIX (objects w)) ->
  clear_failed_blueprints OCI_PREFIX env w
  = (with_objects (List.filter kept' (objects w)) w, inr tt).
Proof.
  intros Hnd Htame.
  unfold clear_failed_blueprints, mbind, M_bind, bind, get.
  rewrite (clear_loop_tame _ w Htame), foldl_sweep_filter.
  f_equal. f_equal. apply filter_ext_in. intros j Hj.
  apply list_elem_of_In in Hj.
  apply eq_true_iff_eq.
  rewrite (survives_iff (objects w)); [|done| |done].
  - rewrite exclude_oci_elem. unfold kept, fails.
    destruct (Py.startswith OCI_PREFIX (instance_path j)); simpl.
    + split; [done|]. intros _ [[_ ?] _]. discriminate.
    + rewrite negb_true_iff. split.
      * intros Hnot. apply not_true_is_false. intros Hf. by apply Hnot.
      * intros Hf [_ Hf']. congruence.
  - intros r Hr. by apply exclude_oci_elem in Hr as [? _].
Qed.

(** Any sweep, also one that raises: what it has deleted. *)
Lemma clear_loop_outcome rows :
  forall w,
    exists done_rows,
      (forall r, r ∈ done_rows -> r ∈ rows)
      /\ (clear_loop' rows w).1
         = with_objects (foldl sweep (objects w) done_rows) w.
Proof.
  induction rows as [|r rows IH]; intros w; simpl.
  - exists []. split; [done|]. by destruct w.
  - unfold mbind, M_bind, bind.
    destruct (retrieve env r) as [e|c] eqn:Hret.
    + destruct (decide (e = BlueprintRetrievalFailed)) as [->|Hne].
      * rewrite (clear_one_tame r w) by (intros e' He'; congruence).
        destruct (IH (with_objects (sweep (objects w) r) w))
          as (ds & Hsub & Hobj).
        exists (r :: ds). split.
        { intros x Hx. apply elem_of_cons in Hx as [->|Hx];
            [by left | right; by apply Hsub]. }
        rewrite Hobj. by destruct w.
      * rewrite (clear_one_raises r w e Hret Hne). simpl.
        exists []. split; [intros x Hx; by apply elem_of_nil in Hx|].
        by destruct w.
    + rewrite (clear_one_tame r w) by (intros e' He'; congruence).
      destruct (IH (with_objects (sweep (objects w) r) w))
        as (ds & Hsub & Hobj).
      exists (r :: ds). split.
      { intros x Hx. apply elem_of_cons in Hx as [->|Hx];
          [by left | right; by apply Hsub]. }
      rewrite Hobj. by destruct w.
Qed.

(** X24: whatever the sweep meets, also when it ends in an exception, it
    only removes rows: with distinct keys, every remote row and every row
    whose content can be retrieved is still in the table afterwards, no row
    is added, and nothing is queued. *)
Theorem cleaner_keeps_remote_and_retrievable_rows w :
  NoDup (pk <$> objects w) ->
  let out := clear_failed_blueprints OCI_PREFIX env w in
  (forall j, j ∈ objects w -> kept' j = true -> j ∈ objects out.1)
  /\ (forall j, j ∈ objects out.1 -> j ∈ objects w)
  /\ queue out.1 = queue w.
Proof.
  intros Hnd out. subst out.
  unfold clear_failed_blueprints, mbind, M_bind, bind, get.
  destruct (clear_loop_outcome (exclude_oci OCI_PREFIX (objects w)) w)
    as (ds & Hsub & Hobj).
  rewrite Hobj, foldl_sweep_filter. simpl.
  split; [|split; [|done]].
  - intros j Hj Hkept. apply list_elem_of_In, filter_In.
    split; [by apply list_elem_of_In|].
    apply (survives_iff (objects w)); [done| |done|].
    + intros r Hr. apply Hsub in Hr. by apply exclude_oci_elem in Hr as [? _].
    + intros [Hin Hf]. apply Hsub, exclude_oci_elem in Hin as [_ Hoci].
      unfold kept in Hkept. fold (fails j) in Hkept.
      by rewrite Hoci, Hf in Hkept.
  - intros j Hj. apply list_elem_of_In, filter_In in Hj as [Hj _].
    by apply list_elem_of_In.
Qed.

(** X25: the first local row whose retrieval raises anything else than
    [BlueprintRetrievalFailed] ends the sweep with that exception: the
    unretrievable rows before it are gone, every other row is still there. *)
Theorem cleaner_stops_at_other_exception w before r after e :
  NoDup (pk <$> objects w) ->
  exclude_oci OCI_PREFIX (objects w) = before ++ r :: after ->
  Forall tame before ->
  retrieve env r = inl e ->
  e <> BlueprintRetrievalFailed ->
  let out := clear_failed_blueprints OCI_PREFIX env w in
  out.2 = inl e
  /\ (forall j,
        j ∈ objects out.1
        <-> j ∈ objects w /\ ~ (j ∈ before /\ fails j = true)).
Proof.
  intros Hnd Hrows Hbefore Hret Hne out. subst out.
  unfold clear_failed_blueprints, mbind, M_bind, bind, get.
  rewrite Hrows, clear_loop_app, (clear_loop_tame _ w Hbefore).
  simpl. unfold mbind, M_bind, bind.
  rewrite (clear_one_raises r _ e Hret Hne). simpl.
  split; [reflexivity|].
  intros j. rewrite foldl_sweep_filter, list_elem_of_In, filter_In,
    <- list_elem_of_In.
  split.
  - intros [Hj Hs]. split; [done|].
    apply (survives_iff (objects w)) in Hs; [done|done| |done].
    intros x Hx. assert (x ∈ exclude_oci OCI_PREFIX (objects w)) as Hx'
      by (rewrite Hrows; apply elem_of_app; by left).
    by apply exclude_oci_elem in Hx' as [? _].
  - intros [Hj Hnot]. split; [done|].
    apply (survives_iff (objects w)); [done| |done|done].
    intros x Hx. assert (x ∈ exclude_oci OCI_PREFIX (objects w)) as Hx'
      by (rewrite Hrows; apply elem_of_app; by left).
    by apply exclude_oci_elem in Hx' as [? _].
Qed.

End Sweep.

(** *** Concrete runs *)

Import BlueprintSamples MoreSamples.

Lemma cleaner_world_keys : NoDup (pk <$> objects cleaner_world).
Proof. apply (bool_decide_unpack _). by vm_compute. Qed.

Lemma cleaner_deletes_unretrievable_local_rows_witness :
  NoDup (pk <$> objects cleaner_world)
  /\ Forall (tame env_only_flow) (exclude_oci OCI (objects cleaner_world))
  /\ clear_failed_blueprints OCI env_only_flow cleaner_world
     = (with_objects [oci_instance; flow_instance] cleaner_world, inr tt).
Proof.
  assert (Forall (tame env_only_flow) (exclude_oci OCI (objects cleaner_world)))
    as Htame.
  { repeat constructor; intros e He; vm_compute in He; congruence. }
  split; [exact cleaner_world_keys|]. split; [exact Htame|].
  exact (cleaner_deletes_unretrievable_local_rows OCI env_only_flow
           cleaner_world cleaner_world_keys Htame).
Defined.

Lemma cleaner_keeps_remote_and_retrievable_rows_witness :
  let out := clear_failed_blueprints OCI env_io_error cleaner_world in
  NoDup (pk <$> objects cleaner_world)
  /\ (forall j, j ∈ objects cleaner_world -> kept OCI env_io_error j = true ->
                j ∈ objects out.1)
  /\ (forall j, j ∈ objects out.1 -> j ∈ objects cleaner_world)
  /\ queue out.1 = queue cleaner_world.
Proof.
  intros out. split; [exact cleaner_world_keys|].
  exact (cleaner_keeps_remote_and_retrievable_rows OCI env_io_error
           cleaner_world cleaner_world_keys).
Defined.

Lemma cleaner_stops_at_other_exception_witness :
  let out := clear_failed_blueprints OCI env_io_error cleaner_world in
  NoDup (pk <$> objects cleaner_world)
  /\ exclude_oci OCI (objects cleaner_world)
     = [gone_instance] ++ flow_instance :: []
  /\ Forall (tame env_io_error) [gone_instance]
  /\ retrieve env_io_error flow_instance = inl OSError
  /\ OSError <> BlueprintRetrievalFailed
  /\ out.2 = inl OSError
  /\ (forall j,
        j ∈ objects out.1
        <-> j ∈ objects cleaner_world
            /\ ~ (j ∈ [gone_instance] /\ fails env_io_error j = true)).
Proof.
  intros out.
  assert (Forall (tame env_io_error) [gone_instance]) as Htame.
  { repeat constructor; intros e He; vm_compute in He; congruence. }
  assert (OSError <> BlueprintRetrievalFailed) as Hne by discriminate.
  split; [exact cleaner_world_keys|]. split; [reflexivity|].
  split; [exact Htame|]. split; [reflexivity|]. split; [exact Hne|].
  exact (cleaner_stops_at_other_exception OCI env_io_error cleaner_world
           [gone_instance] flow_instance [] OSError cleaner_world_keys
           eq_refl Htame eq_refl Hne).
Defined.

(** The table after the cut-short sweep. *)
Example cleaner_stops_at_other_exception_run :
  objects (clear_failed_blueprints OCI env_io_error cleaner_world).1
  = [oci_instance; flow_instance].
Proof. vm_compute. reflexivity. Qed.

End CleanerSpec.

Module WatcherSpec.
Import Blueprints Watcher.

Lemma start_sets_flag platform dir p :
  _file_watcher_started (start_blueprint_watcher platform dir p) = true.
Proof.
  unfold start_blueprint_watcher.
  by destruct (_file_watcher_started p) eqn:Hs.
Qed.

Lemma start_when_started platform dir p :
  _file_watcher_started p = true ->
  start_blueprint_watcher platform dir p = p.
Proof. intros Hs. unfold start_blueprint_watcher. by rewrite Hs. Qed.

(** X26: the watcher is started at most once per process: a second call,
    with whatever arguments, changes nothing, and after any number of calls a
    process that had none has exactly one observer, recursive on the
    configured directory. *)
Theorem watcher_starts_once platform dir platform' dir' p n :
  start_blueprint_watcher platform' dir'
    (start_blueprint_watcher platform dir p)
  = start_blueprint_watcher platform dir p
  /\ _file_watcher_started (start_blueprint_watcher platform dir p) = true
  /\ observers (Nat.iter (S n) (start_blueprint_watcher platform dir)
                  fresh_process)
     = [{| watch_path := dir; recursive := true;
           event_filter :=
             if Py.startswith "linux" platform
             then Some [FileCreatedEvent; FileModifiedEvent] else None |}].
Proof.
  split; [|split].
  - apply start_when_started, start_sets_flag.
  - apply start_sets_flag.
  - induction n as [|n IH]; [reflexivity|].
    change (Nat.iter (S (S n)) (start_blueprint_watcher platform dir)
              fresh_process)
      with (start_blueprint_watcher platform dir
              (Nat.iter (S n) (start_blueprint_watcher platform dir)
                 fresh_process)).
    rewrite start_when_started; [exact IH|].
    change (Nat.iter (S n) (start_blueprint_watcher platform dir)
              fresh_process)
      with (start_blueprint_watcher platform dir
              (Nat.iter n (start_blueprint_watcher platform dir)
                 fresh_process)).
    apply start_sets_flag.
Qed.

Section Handler.
Variable root : Path.
Variable tenants : list Tenant.

(** [List.flat_map] is the bind of lists, and a filter by a boolean test
    the filter by the property it decides. *)
Lemma flat_map_bind {A B} (g : A -> list B) (l : list A) :
  List.flat_map g l = l ≫= g.
Proof. induction l as [|x l IH]; [reflexivity|]. simpl. by rewrite IH. Qed.

Lemma filter_bool {A} (f : A -> bool) (P : A -> Prop)
  `{!forall x, Decision (P x)} (l : list A) :
  (forall x, f x = true <-> P x) -> List.filter f l = filter P l.
Proof.
  intros Hf. induction l as [|x l IH]; [reflexivity|].
  simpl. rewrite filter_cons, IH.
  destruct (f x) eqn:Hx; destruct (decide (P x)) as [Hp|Hp]; try reflexivity.
  - destruct Hp. by apply Hf.
  - apply Hf in Hp. congruence.
Qed.

(** X27: a modification event for a file below the root queues, for the
    ready tenants in the store's order and in each of them for the enabled
    instances whose path is the file's path relative to the root, in the
    store's order, one apply each, by the key without dashes, and nothing
    else; a path outside the root raises. *)
Theorem modification_schedules_enabled_instances event :
  is_directory event = false ->
  event_type event = EVENT_TYPE_MODIFIED ->
  (forall rel,
     src_path event = root ++ rel ->
     exists msgs,
       dispatch root tenants event = inr msgs
       /\ msgs =
            (tenant ← filter (fun tenant => ready tenant = true) tenants;
             i ← filter
                   (fun i => instance_path i = str_path rel /\ enabled i = true)
                   (tenant_objects tenant);
             [(schema_name tenant, Apply (hex (pk i)))])
       /\ forall schema m,
            (schema, m) ∈ msgs
            <-> exists tenant i,
                  tenant ∈ tenants /\ ready tenant = true
                  /\ schema = schema_name tenant
                  /\ i ∈ tenant_objects tenant
                  /\ instance_path i = str_path rel
                  /\ enabled i = true
                  /\ m = Apply (hex (pk i)))
  /\ (relative_to (src_path event) root = None ->
      dispatch root tenants event = inl (OtherError "ValueError")).
Proof.
  intros Hdir Htype. unfold dispatch, super_dispatch, on_modified.
  rewrite Hdir, Htype. split.
  - intros rel ->. rewrite BlueprintsSpec.relative_to_app.
    eexists. split; [reflexivity|]. split.
    + unfold ready_tenants. rewrite flat_map_bind.
      rewrite (filter_bool ready (fun tenant => ready tenant = true))
        by done.
      induction (filter _ tenants) as [|t ts IH]; [reflexivity|].
      cbn [mbind list_bind]. rewrite IH. f_equal.
      rewrite (filter_bool _
                 (fun i => instance_path i = str_path rel /\ enabled i = true)).
      * induction (filter _ (tenant_objects t)) as [|i l IHl];
          [reflexivity|].
        cbn [List.map mbind list_bind app]. by rewrite IHl.
      * intros i. rewrite andb_true_iff, String.eqb_eq. reflexivity.
    + intros schema m. rewrite list_elem_of_In, in_flat_map. split.
      * intros (tenant & Ht & Hin).
        apply filter_In in Ht as [Ht Hready].
        apply in_map_iff in Hin as (i & [= <- <-] & Hi).
        apply filter_In in Hi as [Hi Hc].
        apply andb_true_iff in Hc as [Hp Hen].
        apply String.eqb_eq in Hp.
        exists tenant, i. rewrite !list_elem_of_In. by repeat split.
      * intros (tenant & i & Ht & Hready & -> & Hi & Hp & Hen & ->).
        exists tenant. split.
        -- apply filter_In. split; [by apply list_elem_of_In|done].
        -- apply in_map_iff. exists i. split; [done|].
           apply filter_In. split; [by apply list_elem_of_In|].
           rewrite Hen, andb_true_r. by apply String.eqb_eq.
  - by intros ->.
Qed.

End Handler.

(** *** Concrete runs *)

Import BlueprintSamples MoreSamples.

Lemma modification_schedules_enabled_instances_witness :
  is_directory modified_event = false
  /\ event_type modified_event = EVENT_TYPE_MODIFIED
  /\ (forall rel,
        src_path modified_event = plain_root ++ rel ->
        exists msgs,
          dispatch plain_root [tenant_a; tenant_b] modified_event = inr msgs
          /\ msgs =
               (tenant ← filter (fun tenant => ready tenant = true)
                           [tenant_a; tenant_b];
                i ← filter
                      (fun i =>
                         instance_path i = str_path rel /\ enabled i = true)
                      (tenant_objects tenant);
                [(schema_name tenant, Apply (hex (pk i)))])
          /\ forall schema m,
               (schema, m) ∈ msgs
               <-> exists tenant i,
                     tenant ∈ [tenant_a; tenant_b] /\ ready tenant = true
                     /\ schema = schema_name tenant
                     /\ i ∈ tenant_objects tenant
                     /\ instance_path i = str_path rel
                     /\ enabled i = true
                     /\ m = Apply (hex (pk i)))
  /\ (relative_to (src_path modified_event) plain_root = None ->
      dispatch plain_root [tenant_a; tenant_b] modified_event
      = inl (OtherError "ValueError")).
Proof.
  split; [reflexivity|]. split; [reflexivity|].
  exact (modification_schedules_enabled_instances plain_root
           [tenant_a; tenant_b] modified_event eq_refl eq_refl).
Defined.

(** The ready tenant gets one apply, the other none. *)
Example modification_event_run :
  dispatch plain_root [tenant_a; tenant_b] modified_event
  = inr [("public", Apply "6a0c")].
Proof. reflexivity. Qed.

End WatcherSpec.
